(* ===== verification/_CoqProject ===== *)
-Q . S2P
Prelude.v
Unicode.v
Normalize.v
Words.v
Alias.v
Frame.v
Join.v
Meet.v
Report.v
JoinSpec.v
Format.v
Geometry.v
MapBuild.v
Markers.v
Pipeline.v
World.v
Script.v
Machine.v
Simulation.v
