(* ===== verification/Prelude.v ===== *)
(** * paikannus: a verified model of the municipality map script

    The program ([src/main.py], 101 lines of Python) reads the boundary
    polygons of the Finnish municipalities (GeoJSON) and a table of
    populations (CSV), computes the area of every municipality, joins the
    two by municipality name, reports the municipalities that got no
    population, and draws a web map with one marker per municipality.  The
    script is straight-line code around one helper function; its logic is
    the name reconciliation, the join and the text of the popups.

    ** Parts of the program and where they are modelled

    The files are listed in the order in which they are compiled.

    - [Prelude] (this file): tactics, hint databases, the type [result] of
      a step that may raise with its traversal of a list ([res_mapM]),
      strings as code points, list lemmas.
    - [Unicode]: the string primitives that [normalize] calls
      ([str.strip], [str.casefold], [str.replace], [re.sub] of white-space
      runs) as [strip], [casefold], [replace], [sub_ws], and the class
      [CaseFold].
    - [Normalize]: [normalize] (main.py 17-24).  Non-strings give the empty
      key; strings are stripped, case-folded, the letters a-umlaut,
      o-umlaut and a-ring are replaced by their base letters, and every
      run of white space becomes one space.
    - [Words]: [str.split] and [" ".join] as [words] and [join_words],
      the reference against which [normalize] is characterised.
    - [Alias]: [ALIASES] (main.py 27-29) as a [gmap] from keys to keys, and
      [Series.replace(ALIASES)] (line 55) as [apply_alias] on every key.
    - [Frame]: the boundary frame and the choice of its name column
      (main.py 32-42), [pick_name_col], with the [ValueError] as a value of
      [result].
    - [Join]: the key columns and the left merge (main.py 52-61):
      [vak_key], [gdf_key], [vak2], [merge_left], [join_vakiluku]; the list
      of the names without population (line 64), [puuttuvat].
    - [Meet]: the condition of the join on the words of the two names
      ([key_words], [same_words]): the reading of lines 55-61 that a
      user of the script has.
    - [Report]: the lines printed for that list (main.py 65-70), [report],
      with [str()] of a cell and of a number.
    - [JoinSpec]: the abstract join of the design document (one record per
      boundary, a dictionary from key to value) and the conditions under
      which the script implements it.
    - [Format]: the text of a popup (main.py 85-91): [int_of] for [int()],
      [format_comma] for the format [,], [format_1f] for the format [.1f],
      [vak_txt] and [popup_html] on rational populations; [popcell],
      [int_py], [vak_txt_py] and [popup_html_py] on the cells of the
      table, where [int()] raises on an infinity and on a text that is
      not an integer ([int_error]); the class [IntStr] for [int()] on a
      string and its ASCII instance [int_ascii].
    - [Geometry]: the frames of main.py 45-49: reprojection to EPSG:3067,
      the column of areas in km², reprojection to EPSG:4326
      ([gdf_metric], [gdf_wgs84], [gdf_of_raw]), over the class [Geometry]
      of the operations of the spatial library; [nullable_geometry] adds
      the missing geometry of a feature to any instance.
    - [MapBuild]: the folium map (main.py 73-100) as its centre, zoom and
      ordered children; [add_to], the marker loop [add_markers] and
      [build_map] on rational populations and geometries with points,
      where no statement of the loop raises.
    - [Markers]: the same loop on the frame as the script merges it
      (main.py 82-100): [points_py], [marker_py], [add_markers_py] and
      [build_map_py] on the cells of the table and on geometries that
      may have no point; the loop stops at the first row for which line
      88 or line 95 raises ([marker_error]).
    - [Pipeline]: the script from line 32 to line 102 as one function
      [main] from the two frames read to the exception raised, or to the
      lines printed and the map saved.
    - [World]: what the script can see and change (main.py 32, 52, 101
      and every [print]): the files by name, each as the frame that the
      library reads from it or the map written to it, and the lines on
      standard output; the exceptions of a run ([exn], with [marker_exn]
      for those of the marker loop); the monad [io] of
      computations that return a value or raise and leave a world; the
      actions [read_file], [read_csv], [print], [save] and the column
      accesses that can raise [KeyError].  The table read from the CSV
      file holds [popcell] populations; [finite_table] embeds a table
      of rationals.
    - [Script]: the body of the file as the computation [script] on the
      world, in the sections that the file numbers ([read_boundaries],
      [join_population], [draw_map]), with the constants [GEOJSON] and
      [CSV] (main.py 11-12), and [outcome], the list of the ways a run can
      end.
    - [Machine]: the same lines one statement at a time.  A
      configuration is a control point [L32] ... [L102], [Done] or
      [Crashed e], with the variables that are live there, and a world;
      [step] has a rule for every statement, branch, loop iteration, loop
      exit and exception, and [next] is the same machine as a function.
    - [Simulation]: [rest c], the script from the control point [c] on,
      which ties the machine to [script].

    [main] is the script on the frames, [script] is the script on the
    directory, [step] is the script statement by statement; the theorems
    [script_refines_main] and [machine_refines_script] say that the three
    agree, so what is proved of [main] holds of every run of the machine
    in a directory that has the two files, a table of finite numbers and
    a point in every feature of the boundary file.
    The merge does not look at the populations ([merge_left_fmap]), which
    carries the theorems of [Join] from one type of population to the
    other.

    ** Data

    A Python [str] is a sequence of Unicode code points: [ustring] is
    [list codepoint] with [codepoint := N].  The function [u] decodes the
    UTF-8 bytes of a Rocq string literal, so that the literals of the
    script are written as they stand in it.  A cell of a data frame is a
    [pyval]: a string, an integer, [None] or NaN.  A column of numbers
    holds [option Q]: a float is the rational it stands for and NaN is
    [None]; only comparison, truncation, division by 1e6 and decimal
    rounding are applied to them, and the rounding of the division itself
    is not modelled.  The column Väkiluku of the table holds
    [option popcell]: a [popcell] is [Finite q], one of the two
    infinities, which the CSV reader accepts ("inf", "-inf"), or
    [Text s], a string, which is what every cell of the column is when
    the reader finds a cell that is not a number.  For all three
    [isna()] is false; [int()] raises [OverflowError] on an infinity and
    [ValueError] on a string that does not write an integer.  A frame
    is the list of its rows; a row of the merged frame is a pair of the
    boundary row and its population.  A feature of the boundary file may
    have a geometry that is missing (null) or empty; the library then
    gives no point with coordinates.  [has_point] says whether a geometry
    has one, [representative_point] is total, and [Markers.point_py] is
    the point as the loop gets it, [None] where reading [pt.y] raises.

    ** Libraries outside the program

    [str.casefold] consults the Unicode character database.  The
    development states what [normalize] needs of it as the class
    [CaseFold] (file [Unicode]): folding is idempotent on characters,
    leaves white space and the ASCII lower-case letters alone, and never
    turns a character into white space or into nothing.  Every theorem
    about [normalize] is proved for any instance of the class.  The
    instance [latin1_fold] is the table of Python 3.11 for U+0000..U+00FF
    (which holds the Finnish and Swedish alphabets) and the identity
    elsewhere; witnesses and examples run on it.

    [int()] on a string accepts the decimal digits of every script of
    Unicode.  The class [IntStr] (file [Format]) holds the function and
    two laws.  Python 3.11 converts between integers and decimal strings
    of at most 4300 digits ([MAX_STR_DIGITS]): the string that [str()]
    writes for an integer within that limit is read back as that
    integer, and an integer that is read is within the limit, so that
    the format of line 88 can write it.  The instance [ascii_int] reads
    ASCII strings as Python does: white space at the ends, an optional
    sign, digits with single underscores between them, and not more
    than 4300 digits.

    Reprojection, polygon area and the representative point are the
    methods of the class [Geometry], with two laws: an area is not
    negative, and reprojection keeps whether a geometry has a point.
    The theorems hold for every instance; the instance [box_geometry]
    (boxes that carry their scale to each coordinate system) serves the
    witnesses and the end-to-end example, and [nullable_geometry], on
    [option G], those with a feature without geometry.

    [DataFrame.merge(how="left")] is modelled after the documented
    behaviour of pandas: the rows of the left frame in order, each
    followed through all rows of the right frame with its key.

    ** What the theorems show

    - [Normalize], [Unicode]: the image of [normalize] is exactly the set
      of normal forms ([is_normal]), [normalize] is idempotent, blind to
      case, to the three diacritics, to white space at the ends and to
      the length and kind of the runs of white space inside a name;
      the one-pass [sub_ws] agrees with the reference reading of the
      regular expression, and stripping commutes with it.
    - [Words]: the key of a name is its folded and unaccented words joined
      by single spaces, so two names get the same key exactly when they
      have the same such words.
    - [Alias]: the shipped table maps normal forms to normal forms and
      replacing once or repeatedly is the same.
    - [Frame]: the name column is the first candidate present, and the
      error is raised exactly when none is.
    - [Join]: the merge keeps every boundary in order, emits one row per
      matching table row, and leaves the population absent exactly when no
      table row has the boundary's key; with distinct table keys it
      returns the boundary frame row for row.
    - [Meet]: a boundary receives the population of a table row exactly
      when the two names have the same folded and unaccented words, where
      the table name "pedersoren kunta" counts as "pedersore"
      ([join_same_words]); the alias works on the table side only.
    - [Report]: at most 20 names are printed, in order, with one summary
      line when more remain and nothing at all for an empty list.
    - [JoinSpec]: with distinct table keys and no aliased boundary key the
      merge is the abstract join; a boundary whose table row holds NaN
      is reported by the script and matched for the abstract join
      ([puuttuvat_counts_nan]); examples show where else the two part
      (duplicate keys, aliases on one side).
    - [Format]: the population text is the integer part of the value with
      blanks between groups of three digits and reads back as that
      integer ([vak_txt_roundtrip]), the dash appears exactly for a
      missing population, and the area text reads back as a number with
      one decimal, at most 0.05 away from the area and with an even last
      digit at a tie ([format_1f_roundtrip]); on the cells that [int()]
      accepts
      [popup_html_py] is [popup_html] of their values; the ASCII reader
      satisfies the law of [IntStr], and reads the population text of a
      popup back exactly when the number has at most three digits
      ([vak_txt_int_ascii]).
    - [Geometry]: the area stored is measured in EPSG:3067 and the
      geometry shown is in EPSG:4326; the frame of the map has a point
      exactly where the file has one.
    - [MapBuild]: the children of the map are the boundary layer, one
      marker per merged row in order, and the layer control last.
    - [Markers]: [build_map_py] raises the exception of the first row of
      the frame on whose population [int()] raises or whose geometry has
      no point, [int()] going first within a row
      ([build_map_py_first_error]); it returns exactly when no row raises
      and is then [build_map] on the checked rows
      ([build_map_py_checked]).
    - [Pipeline]: when the run fails and when it ends normally, what it
      prints, that every boundary has a marker (exactly one under distinct
      keys), and that the report agrees with the dashes on the map.
    - [World]: the monad laws of [io], and that each action changes the
      world only by adding lines to the output or by writing the file it
      is given ([extends], [io_keeps]).
    - [Script]: every run ends in one of the eight ways of [outcome]
      (unreadable boundary file, no name column, unreadable table, table
      without Kunta, table without Väkiluku, Väkiluku already a column of
      the boundary file, an exception of the marker loop, normal end);
      it ends normally exactly when none of the first six applies,
      [int()] accepts every population that meets a boundary and every
      feature has a point ([script_ok_iff], [script_marker_error], with
      [Meet] for what meeting is); in a directory where only the name
      column can be missing, the table is finite and every feature has a
      point, [script] does what [main] computes; no run touches a file
      other than the output file or removes a printed line; a run depends
      on the directory only through the two input files ([script_on],
      [same_inputs]), prints at most 24 lines, and can be repeated in the
      directory it left with the same result ([script_rerun]); in a
      column of floats line 88 raises only [OverflowError], in a column
      left as text only the [ValueError] of one of its strings
      ([script_error_by_dtype]).
    - [Machine]: [step] and [next] are the same machine and every
      configuration has at most one successor; every run ends; the only
      configurations that cannot move are [Done] and [Crashed e]; the
      variables are well formed at every control point that a run reaches
      ([wf_config]: the report is entered only with names to report, its
      loop has at most 20 names left, the map under construction has the
      boundary layer first and then markers only, the file written holds
      a closed map); a run that raises has written no file.
    - [Simulation]: a step leaves the rest of the run unchanged, so a run
      of the machine that has stopped ended as [script] says; in a
      directory with the two files, the two columns and a name column,
      the run reaches [Done] with the map written and the OK line printed
      last when no row of the merged frame raises in the marker loop,
      and the exception of that loop with the report printed and no file
      written otherwise; every run that reaches [Done], in whatever
      directory, has left a closed map with a marker for every boundary
      ([done_page_markers]).

    ** Bounds and fuel

    No function of the script uses fuel: every one is structurally
    recursive or defined by well-founded recursion on the length of its
    argument ([sub_ws_ref]).  [Machine.run n] is [n] iterations of
    [next]; the number of steps is its argument and not a bound of the
    model: [machine_terminates] shows that [step] has no infinite
    sequence and that for every configuration some [n] reaches a final
    one.  The measure is the pair of the position of the control point
    in the file and the length of the list that a loop still has to
    walk, ordered lexicographically.  [run_length_bound] gives the
    number: in a directory where nothing is missing no run is longer
    than 42 steps and one for every row of the merged frame, the
    exceptions of the marker loop included.  The example run takes 24
    steps, the run of the example with an infinity 16, the run with a
    feature without geometry 22.
    The report prints at most 20 names because line 67 slices the list;
    no other bound is imposed.

    ** Not modelled

    The text of the GeoJSON and CSV files and its parsing, and the HTML
    that folium renders and [Map.save] writes, belong to libraries: a
    file is the frame read from it or the map written to it.  The
    arithmetic of the coordinate transformations and of the polygon
    area is behind the class [Geometry], and with it the exception of
    the spatial library for a frame without a coordinate reference
    system, which a GeoJSON file cannot give.  Finite floats are exact
    rationals: float rounding is outside the model, and so is an area
    that is not a finite number; the area of a missing geometry, NaN in
    the library, is 0 in [nullable_geometry], and the popup of such a
    feature is never written, since its marker raises.  How the CSV
    reader decides between numbers and text is not modelled: the table
    holds the cells it returns, and [float_column] and [text_column]
    say which type it gave them.  The
    digits outside ASCII that [int()] accepts are behind the class
    [IntStr], and a column of booleans is not modelled.  A
    table that has both a column Väkiluku and the boundary file a column
    Väkiluku_x is not distinguished from the clash of [outcome].  The
    exception of a file that cannot be read is one value, [ReadError],
    whatever the library raises.  A table keeps the two columns that
    the script reads.  [print] and [save] always succeed: an output
    stream that cannot encode a line (the arrow of line 102, the
    letters of a name) and a file that cannot be written are not
    modelled, so that "a run that raises has written no file" is a
    statement about the exceptions of [exn]; an error of the last
    [print], after the save, is outside it.  A cell of the boundary
    frame is a string, an integer, [None] or NaN: a name column of
    floats or booleans is not modelled. *)

From Stdlib Require Import List NArith ZArith Lia Bool.
From Stdlib Require Ascii String.
Import ListNotations.
Export String.StringSyntax.
Delimit Scope string_scope with string.

(** ** Tactics of the development *)

Ltac invc H := inversion H; subst; try clear H.

(** Case analysis on the test of the first [if] or [match] of the goal. *)
Ltac case_if :=
  match goal with
  | |- context [if ?b then _ else _] => destruct b eqn:?
  end.

Ltac case_if_in H :=
  match type of H with
  | context [if ?b then _ else _] => destruct b eqn:?
  end.

Ltac bool_hyps :=
  repeat match goal with
  | H : _ && _ = true |- _ => apply andb_true_iff in H; destruct H
  | H : _ || _ = false |- _ => apply orb_false_iff in H; destruct H
  | H : negb _ = true |- _ => apply negb_true_iff in H
  | H : negb _ = false |- _ => apply negb_false_iff in H
  end.

Create HintDb paikannus discriminated.
Create Rewrite HintDb paikannus_rw.

(** ** Results of fallible steps *)

Inductive result (E A : Type) : Type :=
| Ok (a : A)
| Err (e : E).
Arguments Ok {E A} a.
Arguments Err {E A} e.

Definition bind {E A B} (r : result E A) (k : A -> result E B) : result E B :=
  match r with
  | Ok a => k a
  | Err e => Err e
  end.

Definition res_map {E A B} (f : A -> B) (r : result E A) : result E B :=
  match r with
  | Ok a => Ok (f a)
  | Err e => Err e
  end.

(** A fallible function on every element of a list, in order, up to
    the first failure. *)
Fixpoint res_mapM {E A B} (f : A -> result E B) (l : list A) : result E (list B) :=
  match l with
  | [] => Ok []
  | a :: l' =>
    match f a with
    | Ok b => res_map (cons b) (res_mapM f l')
    | Err e => Err e
    end
  end.

Declare Scope res_scope.
Delimit Scope res_scope with res.
Notation "x <- r ;; k" := (bind r (fun x => k))
  (at level 60, r at next level, right associativity) : res_scope.

(** ** Python strings as sequences of code points *)

Definition codepoint := N.
Definition ustring := list codepoint.

(** Decoder of the UTF-8 bytes of a literal (one to four bytes per code
    point; the literals of the development are well-formed UTF-8). *)
Fixpoint utf8_decode (bs : list N) : ustring :=
  match bs with
  | [] => []
  | b0 :: r0 =>
    if (b0 <? 128)%N then b0 :: utf8_decode r0
    else match r0 with
    | [] => [b0]
    | b1 :: r1 =>
      if (b0 <? 224)%N then ((b0 - 192) * 64 + (b1 - 128))%N :: utf8_decode r1
      else match r1 with
      | [] => [b0; b1]
      | b2 :: r2 =>
        if (b0 <? 240)%N
        then ((b0 - 224) * 4096 + (b1 - 128) * 64 + (b2 - 128))%N :: utf8_decode r2
        else match r2 with
        | [] => [b0; b1; b2]
        | b3 :: r3 =>
          ((b0 - 240) * 262144 + (b1 - 128) * 4096 + (b2 - 128) * 64 + (b3 - 128))%N
            :: utf8_decode r3
        end
      end
    end
  end.

Definition u (s : String.string) : ustring :=
  utf8_decode (map Ascii.N_of_ascii (String.list_ascii_of_string s)).
Arguments u s%_string.

(** A Python object found in a cell of a data frame: a [str], an [int],
    [None], or the float NaN that pandas uses for a missing value. *)
Inductive pyval : Type :=
| PStr (s : ustring)
| PInt (z : Z)
| PNone
| PNaN.

Definition ustring_eqb (s t : ustring) : bool :=
  if list_eq_dec N.eq_dec s t then true else false.

(** ** Generic list functions shared by the components *)

Fixpoint dropWhile {A : Type} (p : A -> bool) (l : list A) : list A :=
  match l with
  | [] => []
  | x :: l' => if p x then dropWhile p l' else l
  end.

(** The head of the list, when there is one, satisfies [q]. *)
Definition hd_sat {A : Type} (q : A -> bool) (l : list A) : bool :=
  match l with
  | [] => true
  | x :: _ => q x
  end.

(** ** Lemmas *)

Lemma bind_ok {E A B} (r : result E A) (k : A -> result E B) b :
  bind r k = Ok b <-> exists a, r = Ok a /\ k a = Ok b.
Proof.
  destruct r as [a|e]; simpl; split.
  - eauto.
  - intros (a' & Ha & Hk). now invc Ha.
  - discriminate.
  - intros (a' & Ha & _). discriminate.
Qed.

Lemma ustring_eqb_eq s t : ustring_eqb s t = true <-> s = t.
Proof. unfold ustring_eqb. destruct (list_eq_dec N.eq_dec s t); split; congruence. Qed.

Lemma ustring_eqb_refl s : ustring_eqb s s = true.
Proof. now apply ustring_eqb_eq. Qed.

Section ListPrefix.
Context {A : Type} (p : A -> bool).

Lemma dropWhile_hd l : hd_sat (fun x => negb (p x)) (dropWhile p l) = true.
Proof.
  induction l as [|x l IH]; simpl; [reflexivity|].
  destruct (p x) eqn:E; simpl; [assumption | now rewrite E].
Qed.

Lemma dropWhile_fix l : hd_sat (fun x => negb (p x)) l = true -> dropWhile p l = l.
Proof. destruct l as [|x l]; simpl; [reflexivity|]. now intros ->%negb_true_iff. Qed.

Lemma dropWhile_idem l : dropWhile p (dropWhile p l) = dropWhile p l.
Proof. apply dropWhile_fix, dropWhile_hd. Qed.

Lemma dropWhile_app_all ws l :
  forallb p ws = true -> dropWhile p (ws ++ l) = dropWhile p l.
Proof.
  induction ws as [|w ws IH]; simpl; [reflexivity|].
  intros [-> H]%andb_true_iff. auto.
Qed.

Lemma dropWhile_split l :
  exists ws, l = ws ++ dropWhile p l /\ forallb p ws = true.
Proof.
  induction l as [|x l (ws & Hl & Hws)]; simpl.
  - now exists [].
  - destruct (p x) eqn:E.
    + exists (x :: ws). simpl. rewrite E, Hws. split; [congruence | reflexivity].
    + now exists [].
Qed.

Lemma dropWhile_all l : forallb p l = true -> dropWhile p l = [].
Proof. intros H. rewrite <- (app_nil_r l). now rewrite dropWhile_app_all. Qed.

Lemma dropWhile_nil l : dropWhile p l = [] <-> forallb p l = true.
Proof.
  split; [|apply dropWhile_all].
  induction l as [|x l IH]; simpl; [reflexivity|].
  destruct (p x); [exact IH | discriminate].
Qed.

Lemma dropWhile_app_stop l1 l2 :
  forallb p l1 = false -> dropWhile p (l1 ++ l2) = dropWhile p l1 ++ l2.
Proof.
  induction l1 as [|x l1 IH]; simpl; [discriminate|].
  destruct (p x); [exact IH | reflexivity].
Qed.

Lemma dropWhile_length l : length (dropWhile p l) <= length l.
Proof.
  induction l as [|x l IH]; simpl; [lia|]. destruct (p x); simpl; lia.
Qed.

(** Dropping a prefix keeps the last element unless everything goes. *)
Lemma hd_sat_rev_dropWhile (q : A -> bool) l :
  hd_sat q (rev l) = true -> hd_sat q (rev (dropWhile p l)) = true.
Proof.
  induction l as [|x l IH]; simpl; [reflexivity|]. intros H.
  destruct (p x); [|assumption]. apply IH.
  destruct (rev l) eqn:E; [reflexivity | exact H].
Qed.

End ListPrefix.

Lemma hd_sat_app {A} (q : A -> bool) l1 l2 :
  l1 <> [] -> hd_sat q (l1 ++ l2) = hd_sat q l1.
Proof. destruct l1; [congruence | reflexivity]. Qed.

Lemma hd_sat_snoc {A} (q : A -> bool) l x r :
  hd_sat q l = true -> q x = true -> hd_sat q (l ++ x :: r) = true.
Proof. now destruct l. Qed.

Lemma hd_sat_impl {A} (p q : A -> bool) l :
  (forall x, p x = true -> q x = true) -> hd_sat p l = true -> hd_sat q l = true.
Proof. destruct l; [reflexivity|]. cbn [hd_sat]. auto. Qed.

Lemma hd_sat_forallb {A} (q : A -> bool) l : forallb q l = true -> hd_sat q l = true.
Proof. destruct l; simpl; [reflexivity|]. now intros [? _]%andb_true_iff. Qed.

Lemma forallb_rev {A} (q : A -> bool) l : forallb q (rev l) = forallb q l.
Proof.
  induction l as [|x l IH]; simpl; [reflexivity|].
  rewrite forallb_app, IH. simpl. rewrite andb_true_r. apply andb_comm.
Qed.

Lemma forallb_flat_map {A B} (q : B -> bool) (f : A -> list B) l :
  forallb q (flat_map f l) = forallb (fun x => forallb q (f x)) l.
Proof.
  induction l as [|x l IH]; simpl; [reflexivity|]. now rewrite forallb_app, IH.
Qed.

Lemma flat_map_comp {A B C} (f : A -> list B) (g : B -> list C) l :
  flat_map g (flat_map f l) = flat_map (fun x => flat_map g (f x)) l.
Proof.
  induction l as [|x l IH]; simpl; [reflexivity|]. now rewrite flat_map_app, IH.
Qed.

Lemma flat_map_nil {A B} (f : A -> list B) l :
  (forall x, f x <> []) -> flat_map f l = [] -> l = [].
Proof.
  intros Hf. destruct l as [|x l]; [reflexivity|]. simpl.
  intros [E _]%app_eq_nil. now apply Hf in E.
Qed.

Lemma flat_map_singleton {A} (f : A -> list A) l :
  (forall x, In x l -> f x = [x]) -> flat_map f l = l.
Proof.
  induction l as [|x l IH]; simpl; intros H; [reflexivity|].
  rewrite (H x), IH; auto.
Qed.

Lemma flat_map_rev {A B} (f : A -> list B) l :
  rev (flat_map f l) = flat_map (fun x => rev (f x)) (rev l).
Proof.
  induction l as [|x l IH]; simpl; [reflexivity|].
  rewrite rev_app_distr, IH, flat_map_app. simpl. now rewrite app_nil_r.
Qed.

(** ** A fallible function along a list *)

Section ResMapM.
Context {E A B : Type} (f : A -> result E B).

Lemma res_mapM_cons_Ok a b l :
  f a = Ok b -> res_mapM f (a :: l) = res_map (cons b) (res_mapM f l).
Proof. intros Ha. simpl. now rewrite Ha. Qed.

Lemma res_mapM_cons_Err a e l : f a = Err e -> res_mapM f (a :: l) = Err e.
Proof. intros Ha. simpl. now rewrite Ha. Qed.

(** It returns exactly when the function returns on every element. *)
Lemma res_mapM_Ok_iff l :
  (exists bs, res_mapM f l = Ok bs) <-> Forall (fun a => exists b, f a = Ok b) l.
Proof.
  induction l as [|a l IH]; simpl.
  - split; [constructor|now exists []].
  - rewrite Forall_cons_iff, <- IH. split.
    + intros [bs Hbs]. destruct (f a) as [b|]; [|discriminate].
      destruct (res_mapM f l) as [bs'|]; [|discriminate].
      split; [now exists b|now exists bs'].
    + intros [[b ->] [bs ->]]. now exists (b :: bs).
Qed.

(** Its failure is that of the first element on which the function
    fails. *)
Lemma res_mapM_first_error l e :
  res_mapM f l = Err e <->
  exists before a after,
    l = before ++ a :: after
    /\ Forall (fun a => exists b, f a = Ok b) before
    /\ f a = Err e.
Proof.
  induction l as [|a l IH].
  - split; [discriminate|]. now intros ([|? ?] & ? & ? & [=] & _).
  - destruct (f a) as [b|e'] eqn:Ea.
    + rewrite (res_mapM_cons_Ok a b l Ea). split.
      * destruct (res_mapM f l) as [bs|e''] eqn:El; [discriminate|].
        intros [= <-]. destruct (proj1 IH eq_refl) as (l1 & a' & l2 & -> & Hl1 & Ha').
        exists (a :: l1), a', l2. repeat split; [|assumption].
        constructor; [now exists b|assumption].
      * intros ([|a0 l1] & a' & l2 & El & Hl1 & Ha'); injection El as -> ->;
          [congruence|].
        apply Forall_cons_iff in Hl1 as [_ Hl1].
        assert (Hl : res_mapM f (l1 ++ a' :: l2) = Err e)
          by (apply IH; now exists l1, a', l2).
        now rewrite Hl.
    + rewrite (res_mapM_cons_Err a e' l Ea). split.
      * intros [= <-]. exists [], a, l. repeat split; [constructor|assumption].
      * intros ([|a0 l1] & a' & l2 & El & Hl1 & Ha'); injection El as -> ->;
          [congruence|].
        apply Forall_cons_iff in Hl1 as [[b Hb] _]. congruence.
Qed.

Lemma res_mapM_Err_In l e :
  res_mapM f l = Err e -> exists a, In a l /\ f a = Err e.
Proof.
  intros (l1 & a & l2 & -> & _ & Ha)%res_mapM_first_error.
  exists a. split; [apply in_elt|assumption].
Qed.

Lemma res_mapM_In_Err l a e :
  In a l -> f a = Err e -> exists e', res_mapM f l = Err e'.
Proof.
  intros Hin Ha. destruct (res_mapM f l) as [bs|e'] eqn:El; [|now exists e'].
  assert (Hall : Forall (fun a => exists b, f a = Ok b) l)
    by (apply res_mapM_Ok_iff; now exists bs).
  rewrite Forall_forall in Hall. destruct (Hall a Hin) as [b Hb]. congruence.
Qed.

(** What it returns has an element for every element of the list. *)
Lemma res_mapM_Forall2 l bs :
  res_mapM f l = Ok bs -> Forall2 (fun a b => f a = Ok b) l bs.
Proof.
  revert bs. induction l as [|a l IH]; intros bs; simpl.
  - intros [= <-]. constructor.
  - destruct (f a) as [b|] eqn:Ea; [|discriminate].
    destruct (res_mapM f l) as [bs'|]; [|discriminate].
    intros [= <-]. constructor; [assumption|now apply IH].
Qed.

Lemma res_mapM_length l bs : res_mapM f l = Ok bs -> length bs = length l.
Proof. intros Hl%res_mapM_Forall2. symmetry. exact (Forall2_length Hl). Qed.

Lemma res_mapM_Ok_map (g : A -> B) l :
  (forall a, In a l -> f a = Ok (g a)) -> res_mapM f l = Ok (map g l).
Proof.
  induction l as [|a l IH]; intros Hg; [reflexivity|]. simpl.
  rewrite (Hg a) by now left. rewrite IH by (intros; apply Hg; now right).
  reflexivity.
Qed.

End ResMapM.

#[export] Hint Rewrite @dropWhile_idem : paikannus_rw.
#[export] Hint Resolve ustring_eqb_refl : paikannus.
