(* ===== verification/Unicode.v ===== *)
(** * Character classes and the string primitives the script calls

    [is_space] is the character class of [str.strip] and of the regular
    expression [\s] on a [str] pattern (the same set in CPython);
    [CaseFold] is what [normalize] needs of the Unicode case-folding
    table, with [latin1_fold] as the table of the Latin-1 range;
    [strip], [casefold], [replace] and [sub_ws] model the calls of
    [normalize], and [sub_ws_ref] is the reference reading of
    [re.sub(r"\s+", " ", s)]. *)

From Stdlib Require Import List NArith Lia Bool ZifyBool ZifyN.
From Equations Require Import Equations.
From S2P Require Import Prelude.
Import ListNotations.
Local Open Scope N_scope.

(** ** White space *)

(** U+0009..000D, U+001C..0020, U+0085, U+00A0, U+1680, U+2000..200A,
    U+2028, U+2029, U+202F, U+205F, U+3000. *)
Definition is_space (c : codepoint) : bool :=
  ((9 <=? c) && (c <=? 13)) || ((28 <=? c) && (c <=? 32))
  || (c =? 133) || (c =? 160) || (c =? 5760)
  || ((8192 <=? c) && (c <=? 8202))
  || (c =? 8232) || (c =? 8233) || (c =? 8239) || (c =? 8287) || (c =? 12288).

Definition nonspace (c : codepoint) : bool := negb (is_space c).

Definition SPACE : codepoint := 32.

(** ** Case folding as an interface *)

Class CaseFold : Type := {
  fold_char : codepoint -> ustring;
  fold_idem : forall c d, In d (fold_char c) -> fold_char d = [d];
  fold_space : forall c, is_space c = true -> fold_char c = [c];
  fold_nonspace : forall c, is_space c = false ->
    fold_char c <> [] /\ forallb nonspace (fold_char c) = true;
  fold_lower : forall c, 97 <= c <= 122 -> fold_char c = [c]
}.

(** The folding of Python 3.11 on U+0000..U+00FF: A-Z and the capitals
    U+00C0..U+00DE (but the multiplication sign) go to their lower case,
    the micro sign to the Greek mu, the sharp s to "ss". *)
Definition latin1_fold_char (c : codepoint) : ustring :=
  if (65 <=? c) && (c <=? 90) then [c + 32]
  else if c =? 181 then [956]
  else if (192 <=? c) && (c <=? 222) && negb (c =? 215) then [c + 32]
  else if c =? 223 then [115; 115]
  else [c].

(** ** The calls of [normalize] *)

Definition lstrip (s : ustring) : ustring := dropWhile is_space s.
Definition rstrip (s : ustring) : ustring := rev (lstrip (rev s)).
Definition strip (s : ustring) : ustring := rstrip (lstrip s).

Definition casefold `{CaseFold} (s : ustring) : ustring := flat_map fold_char s.

(** [s.replace(old, new)] for a pattern [old] of one character. *)
Definition replace (old : codepoint) (new : ustring) (s : ustring) : ustring :=
  flat_map (fun c => if c =? old then new else [c]) s.

(** [re.sub(r"\s+", " ", s)]: one pass with a flag that says whether the
    previous character belonged to a run of white space. *)
Fixpoint sub_go (in_run : bool) (s : ustring) : ustring :=
  match s with
  | [] => []
  | c :: s' =>
    if is_space c
    then (if in_run then sub_go true s' else SPACE :: sub_go true s')
    else c :: sub_go false s'
  end.

Definition sub_ws (s : ustring) : ustring := sub_go false s.

(** The reference reading: the leftmost match of [\s+] is the longest run
    that starts at the first white-space character; it is replaced by one
    space and the scan goes on behind it. *)
Equations sub_ws_ref (s : ustring) : ustring by wf (length s) lt :=
  sub_ws_ref [] := [];
  sub_ws_ref (c :: s') with is_space c := {
    | true := SPACE :: sub_ws_ref (lstrip s');
    | false := c :: sub_ws_ref s' }.
Next Obligation. unfold lstrip. pose proof (dropWhile_length is_space s'). lia. Qed.

(** ** Shapes of strings *)

(** No white space at either end. *)
Definition trimmed (s : ustring) : bool :=
  hd_sat nonspace s && hd_sat nonspace (rev s).

(** Every white-space character is U+0020 and is followed by a character
    that is not white space. *)
Fixpoint spaced (s : ustring) : bool :=
  match s with
  | [] => true
  | c :: s' =>
    if is_space c
    then (c =? SPACE) && match s' with [] => false | d :: _ => nonspace d end && spaced s'
    else spaced s'
  end.

(** A character function that leaves white space alone and sends every
    other character to a non-empty string without white space.  Case
    folding and the replacement of a letter are of this kind. *)
Definition ws_neutral (f : codepoint -> ustring) : Prop :=
  (forall c, is_space c = true -> f c = [c]) /\
  (forall c, is_space c = false -> f c <> [] /\ forallb nonspace (f c) = true).

(** ** The Latin-1 table satisfies the interface *)

Lemma latin1_fold_idem c d : In d (latin1_fold_char c) -> latin1_fold_char d = [d].
Proof.
  unfold latin1_fold_char. intros H.
  repeat case_if_in H; simpl in H; repeat destruct H as [<-|H]; try easy;
    repeat case_if; try reflexivity; exfalso; lia.
Qed.

Lemma latin1_fold_space c : is_space c = true -> latin1_fold_char c = [c].
Proof. unfold latin1_fold_char, is_space. intros H. repeat case_if; try reflexivity; exfalso; lia. Qed.

Lemma latin1_fold_nonspace c :
  is_space c = false ->
  latin1_fold_char c <> [] /\ forallb nonspace (latin1_fold_char c) = true.
Proof.
  unfold latin1_fold_char, nonspace, is_space. intros H.
  repeat case_if; (split; [discriminate|]); simpl; rewrite ?andb_true_r;
    try reflexivity; apply negb_true_iff; lia.
Qed.

Lemma latin1_fold_lower c : 97 <= c <= 122 -> latin1_fold_char c = [c].
Proof. unfold latin1_fold_char. intros H. repeat case_if; try reflexivity; exfalso; lia. Qed.

#[export] Instance latin1_fold : CaseFold := {|
  fold_char := latin1_fold_char;
  fold_idem := latin1_fold_idem;
  fold_space := latin1_fold_space;
  fold_nonspace := latin1_fold_nonspace;
  fold_lower := latin1_fold_lower
|}.

(** ** [strip] *)

Lemma is_space_SPACE : is_space SPACE = true.
Proof. reflexivity. Qed.

Lemma nonspace_false c : nonspace c = false <-> is_space c = true.
Proof. unfold nonspace. now rewrite negb_false_iff. Qed.

Lemma nonspace_true c : nonspace c = true <-> is_space c = false.
Proof. unfold nonspace. now rewrite negb_true_iff. Qed.

Lemma lstrip_hd s : hd_sat nonspace (lstrip s) = true.
Proof. apply (dropWhile_hd is_space). Qed.

Lemma lstrip_fix s : hd_sat nonspace s = true -> lstrip s = s.
Proof. apply (dropWhile_fix is_space). Qed.

Lemma rstrip_fix s : hd_sat nonspace (rev s) = true -> rstrip s = s.
Proof. intros H. unfold rstrip. now rewrite lstrip_fix, rev_involutive. Qed.

Lemma strip_trimmed s : trimmed (strip s) = true.
Proof.
  unfold trimmed, strip, rstrip. apply andb_true_iff; split.
  - apply hd_sat_rev_dropWhile. rewrite rev_involutive. apply lstrip_hd.
  - rewrite rev_involutive. apply lstrip_hd.
Qed.

Lemma trimmed_strip s : trimmed s = true -> strip s = s.
Proof.
  unfold trimmed, strip. intros [H1 H2]%andb_true_iff.
  now rewrite (lstrip_fix s H1), rstrip_fix.
Qed.

Lemma trimmed_iff s : trimmed s = true <-> strip s = s.
Proof. split; [apply trimmed_strip | intros <-; apply strip_trimmed]. Qed.

Lemma strip_idem s : strip (strip s) = strip s.
Proof. apply trimmed_strip, strip_trimmed. Qed.

Lemma lstrip_spaces w s : forallb is_space w = true -> lstrip (w ++ s) = lstrip s.
Proof. apply dropWhile_app_all. Qed.

Lemma rstrip_spaces w s : forallb is_space w = true -> rstrip (s ++ w) = rstrip s.
Proof.
  intros H. unfold rstrip. rewrite rev_app_distr, lstrip_spaces; [reflexivity|].
  now rewrite forallb_rev.
Qed.

Lemma rstrip_app_stop w t :
  forallb is_space t = false -> rstrip (w ++ t) = w ++ rstrip t.
Proof.
  intros H. unfold rstrip, lstrip.
  rewrite rev_app_distr, dropWhile_app_stop by now rewrite forallb_rev.
  now rewrite rev_app_distr, rev_involutive.
Qed.

Lemma rstrip_hd s : hd_sat nonspace s = true -> hd_sat nonspace (rstrip s) = true.
Proof.
  intros H. apply (hd_sat_rev_dropWhile is_space nonspace (rev s)).
  now rewrite rev_involutive.
Qed.

Lemma rstrip_all_spaces s : forallb is_space s = true -> rstrip s = [].
Proof.
  intros H. unfold rstrip, lstrip.
  now rewrite (dropWhile_all is_space (rev s)) by now rewrite forallb_rev.
Qed.

Lemma lstrip_rstrip s : lstrip (rstrip s) = rstrip (lstrip s).
Proof.
  destruct (dropWhile_split is_space s) as (w & Hs & Hw). fold (lstrip s) in Hs.
  destruct (forallb is_space (lstrip s)) eqn:E.
  - rewrite (rstrip_all_spaces (lstrip s)) by assumption.
    rewrite rstrip_all_spaces; [reflexivity|].
    rewrite Hs, forallb_app, Hw. exact E.
  - rewrite Hs at 1. rewrite rstrip_app_stop, lstrip_spaces by assumption.
    apply lstrip_fix, rstrip_hd, lstrip_hd.
Qed.

Lemma strip_spaces w1 s w2 :
  forallb is_space w1 = true -> forallb is_space w2 = true ->
  strip (w1 ++ s ++ w2) = strip s.
Proof.
  intros H1 H2. unfold strip.
  rewrite lstrip_spaces by assumption.
  rewrite <- !lstrip_rstrip. now rewrite rstrip_spaces.
Qed.

Lemma strip_nil_iff s : strip s = [] <-> forallb is_space s = true.
Proof.
  split.
  - unfold strip, rstrip. intros E.
    apply (f_equal (@rev _)) in E. rewrite rev_involutive in E. simpl in E.
    apply (dropWhile_nil is_space) in E. rewrite forallb_rev in E.
    apply hd_sat_forallb in E as Hs. pose proof (lstrip_hd s) as Hn.
    apply (dropWhile_nil is_space).
    destruct (dropWhile is_space s) as [|c r] eqn:Ed; [reflexivity|].
    unfold lstrip in *. rewrite Ed in *. simpl in Hs, Hn.
    apply nonspace_true in Hn. congruence.
  - intros H. unfold strip, lstrip. now rewrite (dropWhile_all is_space s).
Qed.

Lemma sub_ws_nil s : sub_ws s = [] -> s = [].
Proof.
  destruct s as [|c s]; [reflexivity|]. unfold sub_ws. simpl.
  now destruct (is_space c).
Qed.

(** ** Functions that are neutral on white space commute with [strip] *)

Lemma ws_neutral_rev f : ws_neutral f -> ws_neutral (fun c => rev (f c)).
Proof.
  intros [Hs Hn]. split; intros c Hc.
  - now rewrite Hs.
  - destruct (Hn c Hc) as [Hne Hall]. split; [|now rewrite forallb_rev].
    intros E. apply Hne. apply (f_equal (@rev _)) in E.
    now rewrite rev_involutive in E.
Qed.

Lemma lstrip_flat_map f s :
  ws_neutral f -> lstrip (flat_map f s) = flat_map f (lstrip s).
Proof.
  intros [Hs Hn]. unfold lstrip. induction s as [|c s IH]; [reflexivity|].
  simpl. destruct (is_space c) eqn:E.
  - rewrite (Hs c E). simpl. now rewrite E.
  - destruct (Hn c E) as [Hne Hall]. simpl.
    destruct (f c) as [|d r] eqn:Ef; [congruence|].
    simpl in Hall. apply andb_true_iff in Hall as [Hd _].
    apply nonspace_true in Hd. simpl. now rewrite Hd.
Qed.

Lemma rstrip_flat_map f s :
  ws_neutral f -> rstrip (flat_map f s) = flat_map f (rstrip s).
Proof.
  intros Hf. unfold rstrip.
  rewrite flat_map_rev, lstrip_flat_map by now apply ws_neutral_rev.
  rewrite flat_map_rev. apply flat_map_ext. intros c. apply rev_involutive.
Qed.

Lemma strip_flat_map f s :
  ws_neutral f -> strip (flat_map f s) = flat_map f (strip s).
Proof. intros Hf. unfold strip. now rewrite lstrip_flat_map, rstrip_flat_map. Qed.

Lemma trimmed_flat_map f s :
  ws_neutral f -> trimmed s = true -> trimmed (flat_map f s) = true.
Proof.
  intros Hf H%trimmed_iff. apply trimmed_iff. now rewrite strip_flat_map, H.
Qed.

Lemma ws_neutral_nonnil f c : ws_neutral f -> f c <> [].
Proof.
  intros [Hs Hn]. destruct (is_space c) eqn:E.
  - now rewrite Hs.
  - now apply Hn.
Qed.

Lemma ws_neutral_comp f g :
  ws_neutral f -> ws_neutral g -> ws_neutral (fun c => flat_map g (f c)).
Proof.
  intros Hf Hg. split; intros c Hc.
  - rewrite (proj1 Hf c Hc). simpl. rewrite app_nil_r. now apply Hg.
  - destruct (proj2 Hf c Hc) as [Hne Hall]. split.
    + intros E. apply flat_map_nil in E; [easy|].
      intros d. now apply ws_neutral_nonnil.
    + rewrite forallb_flat_map. rewrite forallb_forall in Hall |- *.
      intros d Hd. apply Hg. apply nonspace_true. auto.
Qed.

(** ** [casefold] and [replace] *)

Lemma fold_ws_neutral `{CaseFold} : ws_neutral fold_char.
Proof. split; [apply fold_space | apply fold_nonspace]. Qed.

Lemma casefold_app `{CaseFold} s t : casefold (s ++ t) = casefold s ++ casefold t.
Proof. apply flat_map_app. Qed.

Lemma casefold_fixed `{CaseFold} s :
  (forall c, In c s -> fold_char c = [c]) -> casefold s = s.
Proof. apply flat_map_singleton. Qed.

Lemma casefold_idem `{CaseFold} s : casefold (casefold s) = casefold s.
Proof.
  induction s as [|c s IH]; [reflexivity|].
  change (casefold (c :: s)) with (fold_char c ++ casefold s).
  rewrite casefold_app, IH. f_equal.
  apply casefold_fixed. intros d Hd. now apply (fold_idem c).
Qed.

Lemma casefold_stable `{CaseFold} s c : In c (casefold s) -> fold_char c = [c].
Proof.
  unfold casefold. rewrite in_flat_map. intros (d & _ & Hd). now apply (fold_idem d).
Qed.

Lemma replace_ws_neutral old new :
  is_space old = false -> new <> [] -> forallb nonspace new = true ->
  ws_neutral (fun c => if c =? old then new else [c]).
Proof.
  intros Ho Hne Hall. split; intros c Hc.
  - destruct (N.eqb_spec c old); [congruence | reflexivity].
  - destruct (N.eqb_spec c old); [now split|].
    split; [discriminate|]. simpl. unfold nonspace. now rewrite Hc.
Qed.

Lemma replace_absent old new s : ~ In old s -> replace old new s = s.
Proof.
  intros H. apply flat_map_singleton. intros c Hc.
  destruct (N.eqb_spec c old); [now subst | reflexivity].
Qed.

Lemma replace_removes old new s :
  ~ In old new -> ~ In old (replace old new s).
Proof.
  intros Hn. unfold replace. rewrite in_flat_map. intros (c & _ & Hc).
  destruct (N.eqb_spec c old); [auto|]. destruct Hc as [->|[]]. congruence.
Qed.

Lemma replace_keeps old new s c :
  In c (replace old new s) -> In c s \/ In c new.
Proof.
  unfold replace. rewrite in_flat_map. intros (d & Hd & Hc).
  destruct (d =? old); [now right|]. destruct Hc as [<-|[]]. now left.
Qed.

Lemma replace_In old new s c : In old s -> In c new -> In c (replace old new s).
Proof.
  intros Ho Hc. unfold replace. apply in_flat_map. exists old. split; [assumption|].
  now rewrite N.eqb_refl.
Qed.

(** ** [sub_ws] *)

Lemma sub_go_true s : sub_go true s = sub_ws (lstrip s).
Proof.
  unfold sub_ws, lstrip. induction s as [|c s IH]; [reflexivity|].
  simpl. destruct (is_space c) eqn:E; [exact IH|]. simpl. now rewrite E.
Qed.

Lemma sub_go_nonspace_app b l s :
  forallb nonspace l = true -> l <> [] -> sub_go b (l ++ s) = l ++ sub_go false s.
Proof.
  revert b. induction l as [|d l IH]; intros b Hall Hne; [congruence|].
  simpl in Hall. apply andb_true_iff in Hall as [Hd Hall].
  apply nonspace_true in Hd. simpl. rewrite Hd. f_equal.
  destruct l as [|e l]; [reflexivity|]. now apply IH.
Qed.

Lemma sub_go_spaces w s :
  forallb is_space w = true -> sub_go true (w ++ s) = sub_go true s.
Proof. intros H. now rewrite !sub_go_true, lstrip_spaces. Qed.

Lemma sub_ws_run w s :
  forallb is_space w = true -> w <> [] -> sub_ws (w ++ s) = SPACE :: sub_go true s.
Proof.
  intros H Hne. destruct w as [|c w]; [congruence|].
  simpl in H. apply andb_true_iff in H as [Hc Hw].
  unfold sub_ws. simpl. rewrite Hc. f_equal. now apply sub_go_spaces.
Qed.

Lemma sub_go_app_nonspace b s c t :
  is_space c = false -> sub_go b (s ++ c :: t) = sub_go b s ++ c :: sub_go false t.
Proof.
  intros Hc. revert b. induction s as [|d s IH]; intros b; simpl.
  - now rewrite Hc.
  - destruct (is_space d), b; simpl; now rewrite IH.
Qed.

Lemma sub_go_flat_map f b s :
  ws_neutral f -> sub_go b (flat_map f s) = flat_map f (sub_go b s).
Proof.
  intros [Hs Hn]. revert b. induction s as [|c s IH]; intros b; [reflexivity|].
  simpl. destruct (is_space c) eqn:E.
  - rewrite (Hs c E). simpl. rewrite E. destruct b; [apply IH|].
    simpl. rewrite (Hs SPACE is_space_SPACE). simpl. f_equal. apply IH.
  - destruct (Hn c E) as [Hne Hall]. simpl.
    rewrite sub_go_nonspace_app by assumption. now rewrite IH.
Qed.

(** C35: the one-pass [sub_ws] with its flag computes what the regular
    expression means: at the first white-space character the longest run
    of white space is replaced by one space, and the scan resumes behind
    the run. *)
Theorem sub_ws_ref_eq s : sub_ws_ref s = sub_ws s.
Proof.
  funelim (sub_ws_ref s); [reflexivity| |].
  - unfold sub_ws. simpl. rewrite Heq, sub_go_true. f_equal. assumption.
  - unfold sub_ws. simpl. rewrite Heq. f_equal. assumption.
Qed.

Lemma sub_go_forallb (q : codepoint -> bool) b s :
  q SPACE = true -> forallb q s = true -> forallb q (sub_go b s) = true.
Proof.
  intros Hq. revert b. induction s as [|c s IH]; intros b; [reflexivity|].
  simpl. intros [Hc Hs]%andb_true_iff.
  destruct (is_space c), b; simpl; rewrite ?Hq, ?Hc; simpl; auto.
Qed.

Lemma sub_go_hd b s :
  hd_sat nonspace s = true -> hd_sat nonspace (sub_go b s) = true.
Proof.
  destruct s as [|c s]; [reflexivity|]. simpl. intros H.
  apply nonspace_true in H as H'. rewrite H'. exact H.
Qed.

(** ** [spaced] strings are the fixed points of [sub_ws] *)

Lemma all_spaces_last s :
  forallb is_space s = true -> s <> [] -> hd_sat nonspace (rev s) = false.
Proof.
  intros H Hne. rewrite <- forallb_rev in H.
  destruct (rev s) as [|c r] eqn:E.
  - apply (f_equal (@rev _)) in E. rewrite rev_involutive in E. now subst.
  - simpl in *. apply andb_true_iff in H as [Hc _]. now apply nonspace_false.
Qed.

Lemma sub_go_true_hd s :
  hd_sat nonspace (rev s) = true -> s <> [] ->
  exists d r, sub_go true s = d :: r /\ nonspace d = true.
Proof.
  intros Hl Hne. rewrite sub_go_true.
  pose proof (lstrip_hd s) as Hh. destruct (lstrip s) as [|d r] eqn:E.
  - apply (dropWhile_nil is_space) in E.
    rewrite all_spaces_last in Hl by assumption. discriminate.
  - exists d, (sub_go false r). simpl in Hh.
    apply nonspace_true in Hh as Hd. unfold sub_ws. simpl. now rewrite Hd.
Qed.

Lemma hd_sat_rev_tail (q : codepoint -> bool) c s :
  hd_sat q (rev (c :: s)) = true -> s <> [] -> hd_sat q (rev s) = true.
Proof.
  simpl. intros H Hne. rewrite hd_sat_app in H; [exact H|].
  intros E. apply Hne. apply (f_equal (@rev _)) in E.
  now rewrite rev_involutive in E.
Qed.

Lemma spaced_cons_space d r :
  nonspace d = true -> spaced (d :: r) = true -> spaced (SPACE :: d :: r) = true.
Proof.
  intros Hn Hsp.
  change (spaced (SPACE :: d :: r))
    with ((SPACE =? SPACE) && nonspace d && spaced (d :: r)).
  now rewrite Hn, Hsp.
Qed.

Lemma spaced_sub_go b s :
  hd_sat nonspace (rev s) = true -> spaced (sub_go b s) = true.
Proof.
  revert b. induction s as [|c s IH]; intros b H; [reflexivity|].
  assert (Hs : s = [] \/ hd_sat nonspace (rev s) = true).
  { destruct s as [|d s]; [now left | right].
    now apply (hd_sat_rev_tail nonspace c). }
  simpl. destruct (is_space c) eqn:E.
  - destruct Hs as [->|Hs].
    { simpl in H. apply nonspace_true in H. congruence. }
    destruct b; [now apply IH|].
    assert (Hne : s <> []) by (intros ->; simpl in H; apply nonspace_true in H; congruence).
    destruct (sub_go_true_hd s Hs Hne) as (d & r & Hd & Hn).
    pose proof (IH true Hs) as Hsp. rewrite Hd in Hsp |- *.
    now apply spaced_cons_space.
  - simpl. rewrite E. destruct Hs as [->|Hs]; [reflexivity | now apply IH].
Qed.

Lemma spaced_fix b s :
  spaced s = true -> (b = true -> hd_sat nonspace s = true) -> sub_go b s = s.
Proof.
  revert b. induction s as [|c s IH]; intros b Hsp Hb; [reflexivity|].
  simpl in *. destruct (is_space c) eqn:E.
  - destruct b; [specialize (Hb eq_refl); apply nonspace_true in Hb; congruence|].
    apply andb_true_iff in Hsp as [[Hc Hn]%andb_true_iff Hsp].
    apply N.eqb_eq in Hc. subst c. f_equal. apply IH; [assumption|].
    intros _. destruct s; [discriminate | exact Hn].
  - f_equal. apply IH; [assumption | discriminate].
Qed.

Lemma spaced_last s : spaced s = true -> hd_sat nonspace (rev s) = true.
Proof.
  induction s as [|c s IH]; [reflexivity|]. intros Hsp.
  assert (Hs : spaced s = true).
  { simpl in Hsp. destruct (is_space c); [|exact Hsp].
    now apply andb_true_iff in Hsp as [_ Hsp]. }
  destruct s as [|d s].
  - simpl in *. destruct (is_space c) eqn:E; [|now apply nonspace_true].
    now rewrite andb_false_r in Hsp.
  - change (rev (c :: d :: s)) with (rev (d :: s) ++ [c]).
    rewrite hd_sat_app; [now apply IH|].
    simpl. now destruct (rev s).
Qed.

Lemma trimmed_spaced s :
  hd_sat nonspace s = true -> spaced s = true -> trimmed s = true.
Proof. intros Hh Hsp. unfold trimmed. now rewrite Hh, spaced_last. Qed.

(** ** Runs of white space inside a string, and [strip] after [sub_ws] *)

Lemma list_eq_nil_dec {A} (l : list A) : {l = []} + {l <> []}.
Proof. destruct l; [now left | now right]. Qed.

Lemma sub_go_run b s w w' t :
  forallb is_space w = true -> w <> [] ->
  forallb is_space w' = true -> w' <> [] ->
  sub_go b (s ++ w ++ t) = sub_go b (s ++ w' ++ t).
Proof.
  intros Hw Hne Hw' Hne'. revert b. induction s as [|c s IH]; intros b.
  - simpl. destruct b; [now rewrite !sub_go_spaces|].
    change (sub_ws (w ++ t) = sub_ws (w' ++ t)). now rewrite !sub_ws_run.
  - simpl. destruct (is_space c), b; now rewrite IH.
Qed.

Lemma rstrip_split s : exists w, s = rstrip s ++ w /\ forallb is_space w = true.
Proof.
  destruct (dropWhile_split is_space (rev s)) as (w & E & Hw).
  exists (rev w). split; [|now rewrite forallb_rev].
  unfold rstrip, lstrip. now rewrite <- rev_app_distr, <- E, rev_involutive.
Qed.

Lemma strip_split s :
  exists w1 w2,
    s = w1 ++ strip s ++ w2 /\ forallb is_space w1 = true /\ forallb is_space w2 = true.
Proof.
  destruct (dropWhile_split is_space s) as (w1 & E1 & H1).
  destruct (rstrip_split (lstrip s)) as (w2 & E2 & H2).
  exists w1, w2. unfold strip. now rewrite <- E2.
Qed.

Lemma sub_ws_spaces w :
  forallb is_space w = true -> sub_ws w = match w with [] => [] | _ => [SPACE] end.
Proof.
  intros H. destruct w as [|c w]; [reflexivity|].
  now rewrite <- (app_nil_r (c :: w)), sub_ws_run.
Qed.

Lemma sub_go_app_spaces b m w :
  m <> [] -> hd_sat nonspace (rev m) = true -> forallb is_space w = true ->
  sub_go b (m ++ w) = sub_go b m ++ sub_ws w.
Proof.
  intros Hne Hl Hw. destruct (exists_last Hne) as (m' & c & ->).
  rewrite rev_app_distr in Hl. simpl in Hl. apply nonspace_true in Hl.
  rewrite <- app_assoc. simpl. now rewrite !sub_go_app_nonspace, <- app_assoc.
Qed.

Lemma sub_ws_trimmed m : trimmed m = true -> trimmed (sub_ws m) = true.
Proof.
  intros [Hh Hl]%andb_true_iff. apply trimmed_spaced.
  - now apply sub_go_hd.
  - now apply spaced_sub_go.
Qed.

Lemma sub_ws_strip s : sub_ws (strip s) = strip (sub_ws s).
Proof.
  destruct (strip_split s) as (w1 & w2 & E & H1 & H2).
  pose proof (strip_trimmed s) as Ht. rewrite E at 2.
  generalize dependent (strip s). intros m _ Ht. clear s.
  assert (P1 : forallb is_space (sub_ws w1) = true)
    by (rewrite sub_ws_spaces by easy; now destruct w1).
  assert (P2 : forallb is_space (sub_ws w2) = true)
    by (rewrite sub_ws_spaces by easy; now destruct w2).
  destruct (list_eq_nil_dec m) as [->|Hne].
  - simpl. rewrite (sub_ws_spaces (w1 ++ w2)) by now rewrite forallb_app, H1, H2.
    now destruct (w1 ++ w2).
  - pose proof Ht as [Hh Hl]%andb_true_iff.
    assert (E' : sub_ws (w1 ++ m ++ w2) = sub_ws w1 ++ sub_ws m ++ sub_ws w2).
    { destruct w1 as [|d w1].
      { change (sub_go false (m ++ w2) = sub_go false m ++ sub_ws w2).
        now apply sub_go_app_spaces. }
      rewrite sub_ws_run, sub_go_app_spaces, sub_go_true, lstrip_fix by easy.
      rewrite (sub_ws_spaces (d :: w1)) by easy. reflexivity. }
    rewrite E', strip_spaces by assumption.
    symmetry. now apply trimmed_strip, sub_ws_trimmed.
Qed.

Lemma flat_map_spaces f w :
  ws_neutral f -> forallb is_space w = true -> flat_map f w = w.
Proof.
  intros [Hs _] Hw. apply flat_map_singleton. intros c Hc. apply Hs.
  rewrite forallb_forall in Hw. now apply Hw.
Qed.
