(* ===== verification/Normalize.v ===== *)
(** * The name normaliser ([normalize], main.py 17-24)

    [normalize] turns the name found in a cell into the key the join
    compares.  The file defines it over any case folding that satisfies
    [CaseFold], characterises its image ([is_normal]) and proves that it
    is idempotent and blind to case, to the three diacritics and to the
    amount of white space. *)

From Stdlib Require Import List NArith Lia Bool ZifyBool ZifyN.
From S2P Require Import Prelude Unicode.
Import ListNotations.
Local Open Scope N_scope.

Definition A_UMLAUT : codepoint := 228.
Definition O_UMLAUT : codepoint := 246.
Definition A_RING : codepoint := 229.

(** Line 22: the three replacements, in the order of the script. *)
Definition unaccent (s : ustring) : ustring :=
  replace A_RING (u "a") (replace O_UMLAUT (u "o") (replace A_UMLAUT (u "a") s)).

Definition normalize `{CaseFold} (name : pyval) : ustring :=
  match name with
  | PStr name =>
    let s := casefold (strip name) in
    let s := unaccent s in
    sub_ws s
  | _ => []
  end.

(** ** Normal forms *)

Definition scand (c : codepoint) : bool :=
  (c =? A_UMLAUT) || (c =? O_UMLAUT) || (c =? A_RING).

Definition fold_fixed `{CaseFold} (c : codepoint) : bool :=
  ustring_eqb (fold_char c) [c].

(** A key: every character is its own case folding and none of the three
    letters, no white space at the ends, single U+0020 between words. *)
Definition key_ok `{CaseFold} (c : codepoint) : bool :=
  fold_fixed c && negb (scand c).

Definition is_normal `{CaseFold} (s : ustring) : bool :=
  forallb key_ok s && hd_sat nonspace s && spaced s.

(** What the three replacements do to one character. *)
Definition unaccent_char (c : codepoint) : ustring :=
  if c =? A_UMLAUT then u "a"
  else if c =? O_UMLAUT then u "o"
  else if c =? A_RING then u "a"
  else [c].

(** Lines 21-22 on one character: folded, then stripped of its accent. *)
Definition key_char `{CaseFold} (c : codepoint) : ustring :=
  flat_map unaccent_char (fold_char c).

(** ** [unaccent] *)

(** Arithmetic on code points, with the named characters unfolded. *)
Ltac code_lia := unfold A_UMLAUT, O_UMLAUT, A_RING, SPACE in *; lia.

Lemma unaccent_flat_map s : unaccent s = flat_map unaccent_char s.
Proof.
  unfold unaccent, replace. rewrite !flat_map_comp. apply flat_map_ext.
  intros c. unfold unaccent_char.
  destruct (N.eqb_spec c A_UMLAUT) as [->|]; [reflexivity|].
  simpl. rewrite ?app_nil_r.
  destruct (N.eqb_spec c O_UMLAUT) as [->|]; [reflexivity|].
  simpl. now rewrite ?app_nil_r.
Qed.

Lemma unaccent_char_ws_neutral : ws_neutral unaccent_char.
Proof.
  split; intros c Hc; unfold unaccent_char.
  - unfold is_space in Hc. repeat case_if; try reflexivity; exfalso; code_lia.
  - repeat case_if; (split; [discriminate|]); try reflexivity.
    simpl. unfold nonspace. now rewrite Hc.
Qed.

Lemma unaccent_char_scand c d : In d (unaccent_char c) -> scand d = false.
Proof.
  unfold unaccent_char, scand. intros H.
  repeat case_if_in H; simpl in H; destruct H as [<-|[]]; try reflexivity; code_lia.
Qed.

Lemma unaccent_char_keeps c d : In d (unaccent_char c) -> d = c \/ 97 <= d <= 122.
Proof.
  unfold unaccent_char. intros H.
  repeat case_if_in H; simpl in H; destruct H as [<-|[]]; auto; right; code_lia.
Qed.

Lemma unaccent_char_fixed c : scand c = false -> unaccent_char c = [c].
Proof.
  unfold unaccent_char, scand. intros H.
  repeat case_if; try reflexivity; exfalso; code_lia.
Qed.

Lemma unaccent_fixed s :
  (forall c, In c s -> scand c = false) -> unaccent s = s.
Proof.
  intros H. rewrite unaccent_flat_map. apply flat_map_singleton.
  intros c Hc. now apply unaccent_char_fixed, H.
Qed.

(** ** [normalize] is a character map between [strip] and [sub_ws] *)

Section Keys.
Context `{CaseFold}.

Lemma key_char_ws_neutral : ws_neutral key_char.
Proof. apply ws_neutral_comp; [apply fold_ws_neutral | apply unaccent_char_ws_neutral]. Qed.

Lemma normalize_str s : normalize (PStr s) = sub_ws (flat_map key_char (strip s)).
Proof.
  unfold normalize, casefold, key_char. now rewrite unaccent_flat_map, flat_map_comp.
Qed.

Lemma normalize_str_strip s :
  normalize (PStr s) = sub_ws (strip (flat_map key_char s)).
Proof. now rewrite normalize_str, strip_flat_map by apply key_char_ws_neutral. Qed.

Lemma normalize_str_outer s :
  normalize (PStr s) = strip (sub_ws (flat_map key_char s)).
Proof. now rewrite normalize_str_strip, sub_ws_strip. Qed.

Lemma key_ok_iff c : key_ok c = true <-> fold_char c = [c] /\ scand c = false.
Proof.
  unfold key_ok, fold_fixed.
  now rewrite andb_true_iff, ustring_eqb_eq, negb_true_iff.
Qed.

Lemma key_ok_SPACE : key_ok SPACE = true.
Proof. apply key_ok_iff. split; [now apply fold_space | reflexivity]. Qed.

Lemma key_char_ok c d : In d (key_char c) -> key_ok d = true.
Proof.
  unfold key_char. rewrite in_flat_map. intros (e & He & Hd).
  apply key_ok_iff. split; [|now apply (unaccent_char_scand e)].
  destruct (unaccent_char_keeps e d Hd) as [->|Hl].
  - now apply (fold_idem c).
  - now apply fold_lower.
Qed.

Lemma key_chars_ok s : forallb key_ok (flat_map key_char s) = true.
Proof.
  apply forallb_forall. intros d (c & _ & Hd)%in_flat_map.
  now apply (key_char_ok c).
Qed.

(** [normalize] returns a normal form. *)
Lemma normalize_is_normal v : is_normal (normalize v) = true.
Proof.
  destruct v as [s| | |]; try reflexivity.
  rewrite normalize_str. set (t := flat_map key_char (strip s)).
  assert (Ht : trimmed t = true).
  { apply trimmed_flat_map; [apply key_char_ws_neutral | apply strip_trimmed]. }
  apply andb_true_iff in Ht as [Hh Hl].
  unfold is_normal, sub_ws.
  rewrite (sub_go_forallb key_ok false t key_ok_SPACE (key_chars_ok _)).
  now rewrite (sub_go_hd false t Hh), (spaced_sub_go false t Hl).
Qed.

(** A normal form is left as it is. *)
Lemma normal_fixed s : is_normal s = true -> normalize (PStr s) = s.
Proof.
  unfold is_normal. intros [[Hk Hh]%andb_true_iff Hsp]%andb_true_iff.
  rewrite forallb_forall in Hk.
  assert (Hc : forall c, In c s -> fold_char c = [c] /\ scand c = false).
  { intros c Hc. now apply key_ok_iff, Hk. }
  unfold normalize. rewrite trimmed_strip by now apply trimmed_spaced.
  rewrite casefold_fixed by (intros c Hin; now apply Hc).
  rewrite unaccent_fixed by (intros c Hin; now apply Hc).
  now apply spaced_fix.
Qed.

End Keys.

(** ** Theorems *)

Section Theorems.
Context `{CaseFold}.

(** C3: [normalize] is idempotent: a key that is normalised again, as
    a string, is unchanged. *)
Theorem normalize_idempotent v : normalize (PStr (normalize v)) = normalize v.
Proof. apply normal_fixed, normalize_is_normal. Qed.

(** C4: the strings that [normalize] returns are exactly the normal
    forms: [is_normal] holds of a string if and only if [normalize] leaves
    it as it is. *)
Theorem normalize_image s : is_normal s = true <-> normalize (PStr s) = s.
Proof.
  split; [apply normal_fixed|]. intros <-. apply normalize_is_normal.
Qed.

(** C14: the empty key is returned for the values that are not strings
    and for the strings made of white space only, and for nothing else. *)
Theorem normalize_empty_iff v :
  normalize v = [] <->
  match v with PStr s => forallb is_space s = true | _ => True end.
Proof.
  destruct v as [s| | |]; try easy.
  rewrite normalize_str, <- strip_nil_iff. split.
  - intros E%sub_ws_nil. apply flat_map_nil in E; [exact E|].
    intros c. apply ws_neutral_nonnil, key_char_ws_neutral.
  - now intros ->.
Qed.

(** Names that agree after case folding and removal of the three
    diacritics get the same key. *)
Theorem normalize_fold_blind s t :
  unaccent (casefold s) = unaccent (casefold t) ->
  normalize (PStr s) = normalize (PStr t).
Proof.
  intros E. rewrite !normalize_str_strip.
  assert (K : forall r, flat_map key_char r = unaccent (casefold r)).
  { intros r. unfold key_char, casefold. now rewrite unaccent_flat_map, flat_map_comp. }
  now rewrite !K, E.
Qed.

(** White space around a name does not change its key. *)
Theorem normalize_outer_space w1 s w2 :
  forallb is_space w1 = true -> forallb is_space w2 = true ->
  normalize (PStr (w1 ++ s ++ w2)) = normalize (PStr s).
Proof. intros H1 H2. unfold normalize. now rewrite strip_spaces. Qed.

(** The amount and the kind of white space between two parts of a
    name do not change its key: any non-empty run of white space may be
    replaced by any other. *)
Theorem normalize_inner_space s w w' t :
  forallb is_space w = true -> w <> [] ->
  forallb is_space w' = true -> w' <> [] ->
  normalize (PStr (s ++ w ++ t)) = normalize (PStr (s ++ w' ++ t)).
Proof.
  intros Hw Hne Hw' Hne'. rewrite !normalize_str_outer, !flat_map_app.
  rewrite (flat_map_spaces key_char w), (flat_map_spaces key_char w')
    by first [apply key_char_ws_neutral | assumption].
  unfold sub_ws. now rewrite (sub_go_run _ _ w w').
Qed.

End Theorems.

(** Only the precomposed letters are replaced: the same name
    written with a combining diaeresis (U+0061 U+0308) keeps the mark and
    gets another key than its precomposed spelling (U+00E4). *)
Theorem normalize_decomposed_differs :
  normalize (PStr [97; 776]) = [97; 776]
  /\ normalize (PStr [228]) = [97]
  /\ ustring_eqb (normalize (PStr [97; 776])) (normalize (PStr [228])) = false.
Proof. repeat split. Qed.

(** ** Witnesses on the Latin-1 table *)

Lemma normalize_fold_blind_witness :
  normalize (PStr (u "Pedersöre")) = normalize (PStr (u "PEDERSORE")).
Proof. apply (normalize_fold_blind (u "Pedersöre") (u "PEDERSORE")). reflexivity. Defined.

Lemma normalize_outer_space_witness :
  normalize (PStr (u "  " ++ u "Foo   Bar" ++ [9; 160])) = normalize (PStr (u "Foo   Bar")).
Proof. apply (normalize_outer_space (u "  ") (u "Foo   Bar") [9; 160]); reflexivity. Defined.

Lemma normalize_inner_space_witness :
  normalize (PStr (u "Pedersören" ++ [9; 32] ++ u "kunta"))
  = normalize (PStr (u "Pedersören" ++ [160] ++ u "kunta")).
Proof.
  apply (normalize_inner_space (u "Pedersören") [9; 32] [160] (u "kunta"));
    [reflexivity | discriminate | reflexivity | discriminate].
Defined.
