(* ===== verification/Words.v ===== *)
(** * Keys and words ([normalize], main.py 21-23)

    What [strip] and the substitution of white-space runs do together is
    what Python writes [" ".join(s.split())]: the words of the string,
    with one space between them.  [words] is [str.split()] and
    [join_words] is [" ".join]; the file proves that the key of a name is
    the joined words of its folded and unaccented characters, and from it
    the exact condition under which two names get the same key. *)

From Stdlib Require Import List NArith Lia Bool.
From S2P Require Import Prelude Unicode Normalize.
Import ListNotations.

(** [s.split()]: the maximal runs of characters that are not white
    space, in order. *)
Fixpoint words (s : ustring) : list ustring :=
  match s with
  | [] => []
  | c :: s' =>
    if is_space c then words s'
    else if hd_sat is_space s' then [c] :: words s'
    else match words s' with
         | w :: ws => (c :: w) :: ws
         | [] => [[c]]
         end
  end.

(** [" ".join(ws)]. *)
Fixpoint join_words (ws : list ustring) : ustring :=
  match ws with
  | [] => []
  | w :: ws' =>
    match ws' with
    | [] => w
    | _ :: _ => w ++ SPACE :: join_words ws'
    end
  end.

(** A word: not empty and without white space. *)
Definition is_word (w : ustring) : Prop := w <> [] /\ forallb nonspace w = true.

(** ** [rstrip] from the left *)

Lemma rstrip_nil_spaces x : rstrip x = [] -> forallb is_space x = true.
Proof.
  intros E. destruct (rstrip_split x) as (w & Hx & Hw).
  rewrite E in Hx. simpl in Hx. now subst.
Qed.

Lemma rstrip_cons_nil c x :
  rstrip x = [] -> rstrip (c :: x) = if is_space c then [] else [c].
Proof.
  intros E. apply rstrip_nil_spaces in E.
  change (c :: x) with ([c] ++ x). rewrite rstrip_spaces by assumption.
  destruct (is_space c) eqn:Hc.
  - apply rstrip_all_spaces. simpl. now rewrite Hc.
  - apply rstrip_fix. simpl. unfold nonspace. now rewrite Hc.
Qed.

Lemma rstrip_cons_cons c x : rstrip x <> [] -> rstrip (c :: x) = c :: rstrip x.
Proof.
  intros Hne. change (c :: x) with ([c] ++ x). apply rstrip_app_stop.
  destruct (forallb is_space x) eqn:E; [|reflexivity].
  now rewrite rstrip_all_spaces in Hne.
Qed.

(** ** [words] and [join_words] *)

Lemma words_is_word s : Forall is_word (words s).
Proof.
  induction s as [|c s IH]; simpl; [constructor|].
  destruct (is_space c) eqn:Hc; [exact IH|].
  assert (Hn : nonspace c = true) by (unfold nonspace; now rewrite Hc).
  destruct (hd_sat is_space s).
  - constructor; [|exact IH]. split; [discriminate|]. simpl. now rewrite Hn.
  - destruct (words s) as [|w ws]; constructor.
    + split; [discriminate|]. simpl. now rewrite Hn.
    + constructor.
    + inversion IH as [|? ? [_ Hw] _]; subst. split; [discriminate|]. simpl. now rewrite Hn.
    + now inversion IH.
Qed.

Lemma words_hd_nonspace d s : is_space d = false -> words (d :: s) <> [].
Proof.
  intros Hd. simpl. rewrite Hd.
  destruct (hd_sat is_space s); [discriminate|]. now destruct (words s).
Qed.

Lemma join_words_cons c w ws : join_words ((c :: w) :: ws) = c :: join_words (w :: ws).
Proof. now destruct ws. Qed.

Lemma join_words_nil ws : Forall is_word ws -> join_words ws = [] -> ws = [].
Proof.
  destruct ws as [|w ws]; [reflexivity|]. intros Hw E. exfalso.
  inversion Hw as [|? ? [Hne _] _]; subst. simpl in E.
  destruct ws; [now apply Hne|]. now destruct w.
Qed.

(** A word in front of a space is the first word. *)
Lemma words_app_space w c s :
  is_word w -> is_space c = true -> words (w ++ c :: s) = w :: words s.
Proof.
  intros [Hne Hw] Hc. induction w as [|d w IH]; [now destruct Hne|].
  simpl in Hw. apply andb_true_iff in Hw as [Hd Hw].
  apply nonspace_true in Hd. simpl. rewrite Hd.
  destruct w as [|e w].
  - simpl. now rewrite Hc.
  - simpl in Hw. apply andb_true_iff in Hw as [He Hw'].
    apply nonspace_true in He as He'.
    change ((e :: w) ++ c :: s) with (e :: w ++ c :: s) at 1.
    cbn [hd_sat]. rewrite He'.
    rewrite IH; [reflexivity|discriminate|]. simpl. now rewrite He, Hw'.
Qed.

Lemma words_word w : is_word w -> words w = [w].
Proof.
  intros [Hne Hw]. induction w as [|d w IH]; [now destruct Hne|].
  simpl in Hw. apply andb_true_iff in Hw as [Hd Hw].
  apply nonspace_true in Hd. simpl. rewrite Hd.
  destruct w as [|e w]; [reflexivity|].
  simpl in Hw. apply andb_true_iff in Hw as [He Hw'].
  apply nonspace_true in He as He'. cbn [hd_sat]. rewrite He'.
  rewrite IH; [reflexivity|discriminate|]. simpl. now rewrite He, Hw'.
Qed.

(** Splitting what was joined gives the words back. *)
Lemma words_join_words ws : Forall is_word ws -> words (join_words ws) = ws.
Proof.
  induction 1 as [|w ws Hw _ IH]; [reflexivity|].
  simpl. destruct ws as [|w' ws]; [now apply words_word|].
  rewrite words_app_space by (try assumption; apply is_space_SPACE).
  now rewrite IH.
Qed.

(** ** The substitution of runs, stripped, is the joined words *)

Lemma rstrip_sub_go s : rstrip (sub_go true s) = join_words (words s).
Proof.
  induction s as [|c s IH]; [reflexivity|].
  simpl. destruct (is_space c) eqn:Hc; [exact IH|].
  destruct s as [|d s].
  { simpl. rewrite rstrip_cons_nil by reflexivity. now rewrite Hc. }
  cbn [hd_sat]. simpl sub_go. destruct (is_space d) eqn:Hd.
  - simpl in IH. rewrite Hd in IH.
    pose proof (words_is_word s) as Hw.
    destruct (list_eq_nil_dec (rstrip (sub_go true s))) as [E|Hne].
    + rewrite (rstrip_cons_nil c), Hc
        by now rewrite (rstrip_cons_nil SPACE), is_space_SPACE.
      rewrite E in IH. symmetry in IH. apply join_words_nil in IH; [|assumption].
      simpl words at 1. rewrite Hd, IH. reflexivity.
    + rewrite (rstrip_cons_cons c), (rstrip_cons_cons SPACE) by
        (try assumption; now rewrite (rstrip_cons_cons SPACE)).
      simpl words at 1. rewrite Hd. rewrite IH.
      destruct (words s) as [|w ws]; [now destruct Hne; rewrite IH|reflexivity].
  - assert (Hx : sub_go true (d :: s) = d :: sub_go false s) by (simpl; now rewrite Hd).
    rewrite Hx in IH.
    pose proof (words_hd_nonspace d s Hd) as Hne.
    destruct (words (d :: s)) as [|w ws] eqn:E; [now destruct Hne|].
    rewrite rstrip_cons_cons.
    + rewrite IH. symmetry. apply join_words_cons.
    + rewrite IH. intros F. apply join_words_nil in F; [discriminate|].
      rewrite <- E. apply words_is_word.
Qed.

Lemma lstrip_sub_ws s : lstrip (sub_ws s) = sub_go true s.
Proof.
  unfold sub_ws. destruct s as [|c s]; [reflexivity|].
  cbn [sub_go]. destruct (is_space c) eqn:Hc.
  - unfold lstrip. cbn [dropWhile]. rewrite is_space_SPACE.
    apply dropWhile_fix. rewrite sub_go_true. apply sub_go_hd, lstrip_hd.
  - unfold lstrip. cbn [dropWhile]. now rewrite Hc.
Qed.

Lemma sub_ws_strip_words s : sub_ws (strip s) = join_words (words s).
Proof.
  rewrite sub_ws_strip. unfold strip. rewrite lstrip_sub_ws. apply rstrip_sub_go.
Qed.

(** ** Theorems *)

Section Theorems.
Context `{CaseFold}.

(** C9: two names get the same key exactly when they have the same
    words after case folding and removal of the three diacritics: the
    join confuses two names if and only if they differ in case, in the
    three letters, or in white space only. *)
Theorem normalize_eq_iff a b :
  normalize (PStr a) = normalize (PStr b)
  <-> words (flat_map key_char a) = words (flat_map key_char b).
Proof.
  rewrite !normalize_str_strip, !sub_ws_strip_words. split.
  - intros E. apply (f_equal words) in E.
    now rewrite !words_join_words in E by apply words_is_word.
  - now intros ->.
Qed.

(** The key of a name is the words of its folded and unaccented
    characters joined by single spaces: [normalize] computes what Python
    writes [" ".join(s.split())] on the string of lines 21-22. *)
Theorem normalize_words s :
  normalize (PStr s) = join_words (words (flat_map key_char s)).
Proof.
  rewrite normalize_str_strip.
  apply sub_ws_strip_words.
Qed.

End Theorems.

(** ** Examples *)

Example words_example :
  words (u "  Pedersören   kunta ") = [u "Pedersören"; u "kunta"].
Proof. reflexivity. Qed.

Example normalize_words_example :
  normalize (PStr (u " PEDERSÖREN	 Kunta")) = u "pedersoren kunta".
Proof. rewrite normalize_words. reflexivity. Qed.
