(* ===== verification/Alias.v ===== *)
(** * The alias table ([ALIASES], main.py 27-29, and its use on line 55)

    [ALIASES] is a Python dict from keys to keys; [Series.replace(ALIASES)]
    replaces every element of the series that is a key of the dict by the
    value stored for it and leaves the other elements.  The dict is a
    [gmap]; [apply_alias] is the replacement of one element and
    [replace_aliases] the method on the whole series. *)

From stdpp Require Import gmap.
From S2P Require Import Prelude Unicode Normalize.

Definition ALIASES : gmap ustring ustring :=
  {[ u "pedersoren kunta" := u "pedersore" ]}.

Definition apply_alias (table : gmap ustring ustring) (key : ustring) : ustring :=
  default key (table !! key).

Definition replace_aliases (table : gmap ustring ustring) (keys : list ustring)
  : list ustring :=
  map (apply_alias table) keys.

(** Every key and every value of the table is a normal form. *)
Definition table_normal `{CaseFold} (table : gmap ustring ustring) : Prop :=
  map_Forall (fun k v => is_normal k = true /\ is_normal v = true) table.

(** No value of the table is itself replaced by something else. *)
Definition table_flat (table : gmap ustring ustring) : Prop :=
  map_Forall (fun _ v => apply_alias table v = v) table.

(** ** Lemmas *)

Lemma apply_alias_hit table k v : table !! k = Some v -> apply_alias table k = v.
Proof. unfold apply_alias. now intros ->. Qed.

Lemma apply_alias_miss table k : table !! k = None -> apply_alias table k = k.
Proof. unfold apply_alias. now intros ->. Qed.

Lemma apply_alias_cases table k :
  (table !! k = None /\ apply_alias table k = k) \/
  (exists v, table !! k = Some v /\ apply_alias table k = v).
Proof.
  unfold apply_alias. destruct (table !! k) as [v|]; [right; eauto | now left].
Qed.

Lemma apply_alias_empty k : apply_alias ∅ k = k.
Proof. apply apply_alias_miss, lookup_empty. Qed.

Lemma ALIASES_lookup k v :
  ALIASES !! k = Some v <-> k = u "pedersoren kunta" /\ v = u "pedersore".
Proof. unfold ALIASES. rewrite lookup_singleton_Some. split; intros [? ?]; split; congruence. Qed.

Lemma replace_aliases_length table keys :
  length (replace_aliases table keys) = length keys.
Proof. apply length_map. Qed.

Lemma apply_alias_is_normal `{CaseFold} table k :
  table_normal table -> is_normal k = true ->
  is_normal (apply_alias table k) = true.
Proof.
  intros Ht Hk. destruct (apply_alias_cases table k) as [[_ ->]|(v & Hv & ->)].
  - exact Hk.
  - exact (proj2 (Ht k v Hv)).
Qed.

Lemma replace_aliases_fmap table keys :
  replace_aliases table keys = apply_alias table <$> keys.
Proof. induction keys as [|k keys IH]; [done|]. simpl. by rewrite IH. Qed.

#[export] Hint Rewrite apply_alias_empty replace_aliases_length : paikannus_rw.
#[export] Hint Resolve apply_alias_hit apply_alias_miss : paikannus.

(** ** Theorems *)

(** Replacing is idempotent on a table none of whose values is
    replaced again, so that replacing once (what pandas does) and
    replacing until nothing changes give the same key. *)
Theorem apply_alias_idempotent table k :
  table_flat table ->
  apply_alias table (apply_alias table k) = apply_alias table k.
Proof.
  intros Hflat. destruct (apply_alias_cases table k) as [[Hk ->]|(v & Hk & ->)].
  - now apply apply_alias_miss.
  - exact (Hflat k v Hk).
Qed.

(** The shipped table is well formed: its key is a string that
    [normalize] can return (so the alias can fire), its value too (so the
    replaced key can meet a boundary key), and the value is not a key. *)
Theorem ALIASES_well_formed : table_normal ALIASES /\ table_flat ALIASES.
Proof.
  split; intros k v [-> ->]%ALIASES_lookup.
  - split; reflexivity.
  - apply apply_alias_miss. unfold ALIASES. now apply lookup_singleton_ne.
Qed.

(** The example of the design document does not hold of the code.
    The attribute name "Pedersörens kunta" normalises to "pedersorens
    kunta", which is not the key of the table, so it is not replaced and
    does not meet the boundary name "Pedersöre"; the Finnish form
    "Pedersören kunta" is the one that is replaced. *)
Example alias_design_example :
  apply_alias ALIASES (normalize (PStr (u "Pedersörens kunta")))
    = u "pedersorens kunta"
  /\ apply_alias ALIASES (normalize (PStr (u "Pedersörens kunta")))
    <> normalize (PStr (u "Pedersöre"))
  /\ apply_alias ALIASES (normalize (PStr (u "Pedersören kunta")))
    = normalize (PStr (u "Pedersöre")).
Proof.
  split; [vm_compute; reflexivity | split; [|vm_compute; reflexivity]].
  intros E. vm_compute in E. discriminate E.
Qed.

(** ** Witnesses *)

Lemma apply_alias_idempotent_witness :
  apply_alias ALIASES (apply_alias ALIASES (u "pedersoren kunta"))
  = apply_alias ALIASES (u "pedersoren kunta").
Proof.
  apply (apply_alias_idempotent ALIASES (u "pedersoren kunta")).
  intros k v [-> ->]%ALIASES_lookup.
  apply apply_alias_miss. unfold ALIASES. now apply lookup_singleton_ne.
Defined.
