(* ===== verification/Frame.v ===== *)
(** * The boundary frame and the choice of its name column
    (main.py 32-42)

    [gpd.read_file] returns a frame whose columns the script inspects:
    the name column is the first of "NAMEFIN", "Kunta" and "name" that
    the frame has, and the run stops with a [ValueError] that lists the
    columns when it has none of them.  A frame is its column index and
    its rows; a row gives a cell for every column and carries its
    geometry. *)

From Stdlib Require Import List NArith Bool.
From S2P Require Import Prelude.
Import ListNotations.

(** A row of the frame read from the GeoJSON file, over the geometry type
    of the spatial library. *)
Record raw_row (G : Type) : Type := {
  cell : ustring -> pyval;
  geometry : G
}.
Arguments cell {G} _ _.
Arguments geometry {G} _.

Record raw_frame (G : Type) : Type := {
  columns : list ustring;
  rows : list (raw_row G)
}.
Arguments columns {G} _.
Arguments rows {G} _.

(** The exception of line 41; its message ends with [list(columns)]. *)
Inductive error : Type :=
| ValueError (msg : ustring) (cols : list ustring).

(** [x in index]. *)
Definition has_column (cols : list ustring) (x : ustring) : bool :=
  existsb (ustring_eqb x) cols.

(** Lines 35-39: the nested conditional expression, [None] included. *)
Definition name_col_expr (cols : list ustring) : option ustring :=
  if has_column cols (u "NAMEFIN") then Some (u "NAMEFIN")
  else if has_column cols (u "Kunta") then Some (u "Kunta")
  else if has_column cols (u "name") then Some (u "name")
  else None.

(** Lines 35-42: the chosen column and the line printed on line 42, or
    the exception of line 41.  A chosen name is never the empty string,
    so [if not name_col] is the test for [None]. *)
Definition pick_name_col (cols : list ustring) : result error (ustring * ustring) :=
  match name_col_expr cols with
  | None => Err (ValueError (u "Kunnan nimi -saraketta ei löytynyt. Sarakkeet: ") cols)
  | Some name_col => Ok (name_col, u "Käytetään kunnannimi-saraketta: " ++ name_col)
  end.

(** [gdf[name_col]]: the name column as a list of cells. *)
Definition name_column {G} (name_col : ustring) (f : raw_frame G) : list pyval :=
  map (fun r => cell r name_col) (rows f).

(** The candidates in their order of preference, and the reading of the
    design document: the first candidate that is a column. *)
Definition CANDIDATES : list ustring := [u "NAMEFIN"; u "Kunta"; u "name"].

Definition resolve_field (candidates cols : list ustring) : option ustring :=
  find (has_column cols) candidates.

(** ** Lemmas *)

Lemma has_column_In cols x : has_column cols x = true <-> In x cols.
Proof.
  unfold has_column. rewrite existsb_exists. split.
  - intros (y & Hy & E%ustring_eqb_eq). now subst.
  - intros H. exists x. split; [exact H | apply ustring_eqb_refl].
Qed.

Lemma has_column_not_In cols x : has_column cols x = false <-> ~ In x cols.
Proof. rewrite <- has_column_In. now destruct (has_column cols x). Qed.

Lemma name_col_expr_resolve cols : name_col_expr cols = resolve_field CANDIDATES cols.
Proof.
  unfold name_col_expr, resolve_field, CANDIDATES. simpl.
  repeat (case_if; [reflexivity|]). reflexivity.
Qed.

Lemma resolve_field_Some candidates cols c :
  resolve_field candidates cols = Some c <->
  exists before after,
    candidates = before ++ c :: after /\ In c cols /\
    forall x, In x before -> ~ In x cols.
Proof.
  unfold resolve_field. induction candidates as [|x l IH]; simpl.
  - split; [discriminate|]. intros (b & a & E & _). now destruct b.
  - destruct (has_column cols x) eqn:Hx.
    + apply has_column_In in Hx. split.
      * intros [= <-]. now exists [], l.
      * intros ([|y b] & a & E & Hc & Hb); simpl in E; invc E; [reflexivity|].
        exfalso. apply (Hb y); [now left | exact Hx].
    + apply has_column_not_In in Hx. rewrite IH. split.
      * intros (b & a & -> & Hc & Hb). exists (x :: b), a.
        repeat split; auto. intros y [<-|Hy]; auto.
      * intros ([|y b] & a & E & Hc & Hb); simpl in E; invc E; [contradiction|].
        exists b, a. repeat split; auto. intros z Hz. apply Hb. now right.
Qed.

Lemma resolve_field_None candidates cols :
  resolve_field candidates cols = None <->
  forall x, In x candidates -> ~ In x cols.
Proof.
  unfold resolve_field. split.
  - intros H x Hx. apply has_column_not_In. now apply (find_none _ _ H).
  - intros H. induction candidates as [|x l IH]; simpl; [reflexivity|].
    rewrite (proj2 (has_column_not_In cols x)) by (apply H; now left).
    apply IH. intros y Hy. apply H. now right.
Qed.

(** ** Theorems *)

(** C20: the nested conditional picks the first of NAMEFIN, Kunta and
    name (in this order) that is a column of the frame: a column is
    chosen if and only if it is a column, it is a candidate, and no
    candidate before it is a column; the printed line names it. *)
Theorem pick_name_col_ok cols c line :
  pick_name_col cols = Ok (c, line) <->
  (exists before after,
     CANDIDATES = before ++ c :: after /\ In c cols /\
     forall x, In x before -> ~ In x cols)
  /\ line = u "Käytetään kunnannimi-saraketta: " ++ c.
Proof.
  unfold pick_name_col. rewrite name_col_expr_resolve.
  destruct (resolve_field CANDIDATES cols) as [n|] eqn:E; split.
  - intros [= -> <-]. split; [now apply resolve_field_Some | reflexivity].
  - intros [Hc%resolve_field_Some ->]. rewrite E in Hc. now invc Hc.
  - discriminate.
  - intros [Hc%resolve_field_Some _]. rewrite E in Hc. discriminate.
Qed.

(** The run stops with the [ValueError] exactly when the frame has
    none of the three columns, and the error carries the columns of the
    frame. *)
Theorem pick_name_col_error cols e :
  pick_name_col cols = Err e <->
  (forall x, In x CANDIDATES -> ~ In x cols)
  /\ e = ValueError (u "Kunnan nimi -saraketta ei löytynyt. Sarakkeet: ") cols.
Proof.
  unfold pick_name_col. rewrite name_col_expr_resolve.
  destruct (resolve_field CANDIDATES cols) as [n|] eqn:E; split.
  - discriminate.
  - intros [Hc%resolve_field_None _]. rewrite E in Hc. discriminate.
  - intros [= <-]. split; [now apply resolve_field_None | reflexivity].
  - intros [_ ->]. reflexivity.
Qed.
