(* ===== verification/Join.v ===== *)
(** * Keys and the left merge (main.py 52-64)

    The population table is keyed by the normalised and aliased name of
    its column "Kunta", the boundary frame by the normalised name of its
    name column; [DataFrame.merge(how="left")] then attaches to every
    boundary row the population of every table row with the same key, in
    the order of the table, and NaN when there is none.  The rows of the
    boundary frame are of any type [R] (the merge does not look into
    them), with [name_of] the cell of the name column; populations are
    of any type [V], with [None] for NaN. *)

From stdpp Require Import gmap list.
From S2P Require Import Prelude Unicode Normalize Alias.

(** A row of the table read from the CSV file (line 52). *)
Record vak_row (V : Type) : Type := {
  Kunta : pyval;
  Vakiluku : option V
}.
Arguments Kunta {V} _.
Arguments Vakiluku {V} _.

(** The rows that the merge emits for one left row, given the values of
    the right rows with its key. *)
Definition row_out {R V} (r : R) (ms : list (option V)) : list (R * option V) :=
  match ms with
  | [] => [(r, None)]
  | _ => (fun v => (r, v)) <$> ms
  end.

(** The values of the right rows whose key is [k], in their order. *)
Definition matches {V} (k : ustring) (right : list (ustring * option V))
  : list (option V) :=
  (filter (fun kv => kv.1 = k) right).*2.

(** Line 61: [left.merge(right, on="__key", how="left").drop(columns="__key")]. *)
Definition merge_left {R V} (left : list (R * ustring))
    (right : list (ustring * option V)) : list (R * option V) :=
  left ≫= (fun rk => row_out rk.1 (matches rk.2 right)).

Section Join.
Context `{CaseFold} {R V : Type} (name_of : R -> pyval).

(** Line 55: [vak["Kunta"].map(normalize).replace(ALIASES)]. *)
Definition vak_key (table : gmap ustring ustring) (vak : list (vak_row V))
  : list ustring :=
  replace_aliases table ((fun a => normalize (Kunta a)) <$> vak).

(** Line 56: [gdf[name_col].map(normalize)]. *)
Definition gdf_key (gdf : list R) : list ustring :=
  (fun r => normalize (name_of r)) <$> gdf.

(** Line 58: the frame of keys and populations. *)
Definition vak2 (table : gmap ustring ustring) (vak : list (vak_row V))
  : list (ustring * option V) :=
  zip (vak_key table vak) (Vakiluku <$> vak).

(** Line 59: the boundary frame with its key column. *)
Definition with_key (gdf : list R) : list (R * ustring) :=
  zip gdf (gdf_key gdf).

(** Lines 55-61. *)
Definition join_vakiluku (table : gmap ustring ustring) (gdf : list R)
    (vak : list (vak_row V)) : list (R * option V) :=
  merge_left (with_key gdf) (vak2 table vak).

(** The population that a key finds in the table: that of the first row
    with the key ([None] when there is no row, or when it holds NaN). *)
Definition population (table : gmap ustring ustring) (vak : list (vak_row V))
    (k : ustring) : option V :=
  mjoin (head (matches k (vak2 table vak))).

(** Line 64: the names of the rows whose population is NaN. *)
Definition puuttuvat (joined : list (R * option V)) : list pyval :=
  (fun rv => name_of rv.1) <$> filter (fun rv => rv.2 = None) joined.

End Join.

(** A table row with its population read through [g]. *)
Definition map_row {V W} (g : V -> W) (a : vak_row V) : vak_row W :=
  {| Kunta := Kunta a; Vakiluku := g <$> Vakiluku a |}.

(** A merged row with its population read through [g]. *)
Definition map_value {R V W} (g : V -> W) (rv : R * option V) : R * option W :=
  (rv.1, g <$> rv.2).

(** ** Lemmas on [row_out], [matches] and [merge_left] *)

Lemma zip_fmap_fmap {A B C} (f : A -> B) (g : A -> C) (l : list A) :
  zip (f <$> l) (g <$> l) = (fun x => (f x, g x)) <$> l.
Proof. induction l as [|x l IH]; [done|]. csimpl. by f_equal. Qed.

Lemma row_out_fst {R V} (r : R) (ms : list (option V)) :
  (row_out r ms).*1 = replicate (max 1 (length ms)) r.
Proof.
  destruct ms as [|m ms]; [done|].
  unfold row_out. rewrite <- list_fmap_compose.
  change (max 1 (length (m :: ms))) with (length (m :: ms)).
  generalize (m :: ms). intros l. induction l as [|x l IH]; [done|].
  csimpl. by f_equal.
Qed.

Lemma row_out_length {R V} (r : R) (ms : list (option V)) :
  length (row_out r ms) = max 1 (length ms).
Proof. by rewrite <- (length_fmap fst), row_out_fst, length_replicate. Qed.

Lemma elem_of_row_out {R V} (r r' : R) (o : option V) ms :
  (r, o) ∈ row_out r' ms <-> r = r' /\ (o ∈ ms \/ (ms = [] /\ o = None)).
Proof.
  destruct ms as [|m ms].
  - simpl. rewrite list_elem_of_singleton. split.
    + intros [= -> ->]. auto.
    + intros [-> [Ho|[_ ->]]]; [by apply elem_of_nil in Ho | done].
  - unfold row_out. rewrite list_elem_of_fmap. split.
    + intros (v & [= -> ->] & Hv). auto.
    + intros [-> [Ho|[[=] _]]]. eauto.
Qed.

Lemma elem_of_matches {V} k (right : list (ustring * option V)) o :
  o ∈ matches k right <-> (k, o) ∈ right.
Proof.
  unfold matches. rewrite list_elem_of_fmap. split.
  - intros ([k' o'] & -> & [Hk Hin]%list_elem_of_filter). simpl in Hk. by subst.
  - intros Hin. exists (k, o). split; [done|]. by apply list_elem_of_filter.
Qed.

Lemma matches_nil {V} k (right : list (ustring * option V)) :
  matches k right = [] <-> k ∉ right.*1.
Proof.
  split.
  - intros E ([k' o] & Hk & Hin)%list_elem_of_fmap. simpl in Hk. subst k.
    assert (Ho : o ∈ matches k' right) by by apply elem_of_matches.
    rewrite E in Ho. by apply elem_of_nil in Ho.
  - intros Hk. destruct (matches k right) as [|o ms] eqn:E; [done|].
    exfalso. apply Hk. apply list_elem_of_fmap. exists (k, o). split; [done|].
    apply elem_of_matches. rewrite E. left.
Qed.

Lemma matches_unique {V} k (right : list (ustring * option V)) :
  NoDup right.*1 -> length (matches k right) <= 1.
Proof.
  unfold matches. rewrite length_fmap.
  induction right as [|[k' o] l IH]; [simpl; lia|].
  rewrite fmap_cons, NoDup_cons. intros [Hk Hl]. simpl in Hk.
  destruct (decide (k' = k)) as [->|Hne].
  - rewrite filter_cons_True by done.
    apply matches_nil in Hk. unfold matches in Hk.
    apply fmap_nil_inv in Hk. rewrite Hk. simpl. lia.
  - rewrite filter_cons_False by done. by apply IH.
Qed.

Lemma merge_left_cons {R V} (r : R) k left (right : list (ustring * option V)) :
  merge_left ((r, k) :: left) right
  = row_out r (matches k right) ++ merge_left left right.
Proof. done. Qed.

Lemma merge_left_fst {R V} (left : list (R * ustring))
    (right : list (ustring * option V)) :
  (merge_left left right).*1
  = left ≫= (fun rk => replicate (max 1 (length (matches rk.2 right))) rk.1).
Proof.
  induction left as [|[r k] left IH]; [done|].
  rewrite merge_left_cons, fmap_app, row_out_fst, IH. done.
Qed.

Lemma elem_of_merge_left {R V} (left : list (R * ustring))
    (right : list (ustring * option V)) r o :
  (r, o) ∈ merge_left left right <->
  exists k, (r, k) ∈ left /\ ((k, o) ∈ right \/ ((k ∉ right.*1) /\ o = None)).
Proof.
  unfold merge_left. rewrite list_elem_of_bind. split.
  - intros ([r' k] & [-> Ho]%elem_of_row_out & Hin). simpl in *.
    exists k. rewrite <- elem_of_matches, <- matches_nil. done.
  - intros (k & Hin & Ho). exists (r, k). split; [|done].
    apply elem_of_row_out. rewrite elem_of_matches, matches_nil. done.
Qed.

Lemma bind_fmap {A B C} (f : A -> B) (g : B -> list C) (l : list A) :
  (f <$> l) ≫= g = l ≫= (g ∘ f).
Proof. induction l as [|x l IH]; [done|]. csimpl. by rewrite IH. Qed.

Lemma bind_singleton {A} (l : list A) : l ≫= (fun x => [x]) = l.
Proof. induction l as [|x l IH]; [done|]. csimpl. by rewrite IH. Qed.

(** ** The merge does not look at the populations *)

Section Natural.
Context {R V W : Type} (g : V -> W).

Lemma matches_fmap k (right : list (ustring * option V)) :
  matches k (map_value g <$> right) = (fmap g : option V -> option W) <$> matches k right.
Proof.
  unfold matches. induction right as [|[k' o] right IH]; [done|].
  csimpl. rewrite !filter_cons. simpl.
  destruct (decide (k' = k)); csimpl; by rewrite IH.
Qed.

Lemma row_out_fmap (r : R) (ms : list (option V)) :
  row_out r ((fmap g : option V -> option W) <$> ms) = map_value g <$> row_out r ms.
Proof.
  destruct ms as [|m ms]; [done|]. unfold row_out. csimpl.
  by rewrite <- !list_fmap_compose.
Qed.

Lemma merge_left_fmap (left : list (R * ustring)) (right : list (ustring * option V)) :
  merge_left left (map_value g <$> right) = map_value g <$> merge_left left right.
Proof.
  unfold merge_left. induction left as [|[r k] left IH]; [done|].
  csimpl. by rewrite fmap_app, IH, matches_fmap, row_out_fmap.
Qed.

Lemma filter_None_fmap (joined : list (R * option V)) :
  filter (fun rv : R * option W => rv.2 = None) (map_value g <$> joined)
  = map_value g <$> filter (fun rv : R * option V => rv.2 = None) joined.
Proof.
  induction joined as [|[r o] joined IH]; [done|].
  csimpl. rewrite !filter_cons. destruct o as [v|]; simpl; by rewrite IH.
Qed.

End Natural.

(** ** The frames of lines 55-59 *)

Section Frames.
Context `{CaseFold} {R V : Type} (name_of : R -> pyval).
Context (table : gmap ustring ustring).

Lemma vak_key_fmap (vak : list (vak_row V)) :
  vak_key table vak = (fun a => apply_alias table (normalize (Kunta a))) <$> vak.
Proof. unfold vak_key. by rewrite replace_aliases_fmap, <- list_fmap_compose. Qed.

Lemma vak2_fmap (vak : list (vak_row V)) :
  vak2 table vak
  = (fun a => (apply_alias table (normalize (Kunta a)), Vakiluku a)) <$> vak.
Proof. unfold vak2. by rewrite vak_key_fmap, zip_fmap_fmap. Qed.

Lemma vak2_keys (vak : list (vak_row V)) : (vak2 table vak).*1 = vak_key table vak.
Proof. by rewrite vak2_fmap, vak_key_fmap, <- list_fmap_compose. Qed.

Lemma with_key_fmap (gdf : list R) :
  with_key name_of gdf = (fun r => (r, normalize (name_of r))) <$> gdf.
Proof.
  unfold with_key, gdf_key. rewrite <- (list_fmap_id gdf) at 1.
  apply zip_fmap_fmap.
Qed.

Lemma elem_of_vak2 (vak : list (vak_row V)) k o :
  (k, o) ∈ vak2 table vak <->
  exists a, a ∈ vak /\ apply_alias table (normalize (Kunta a)) = k /\ Vakiluku a = o.
Proof.
  rewrite vak2_fmap, list_elem_of_fmap. split.
  - intros (a & [= -> ->] & Ha). eauto.
  - intros (a & Ha & <- & <-). eauto.
Qed.

Lemma not_elem_of_vak_key (vak : list (vak_row V)) k :
  k ∉ vak_key table vak <->
  forall a, a ∈ vak -> apply_alias table (normalize (Kunta a)) <> k.
Proof.
  rewrite vak_key_fmap, list_elem_of_fmap. split.
  - intros Hk a Ha E. apply Hk. eauto.
  - intros Hk (a & -> & Ha). by apply (Hk a).
Qed.

Lemma join_vakiluku_cons r gdf (vak : list (vak_row V)) :
  join_vakiluku name_of table (r :: gdf) vak
  = row_out r (matches (normalize (name_of r)) (vak2 table vak))
    ++ join_vakiluku name_of table gdf vak.
Proof. unfold join_vakiluku. by rewrite !with_key_fmap. Qed.

(** A population in the result comes from a table row with the key of
    the boundary. *)
Lemma elem_of_join_Some gdf (vak : list (vak_row V)) r v :
  (r, Some v) ∈ join_vakiluku name_of table gdf vak <->
  r ∈ gdf /\
  exists a, a ∈ vak /\
    apply_alias table (normalize (Kunta a)) = normalize (name_of r) /\
    Vakiluku a = Some v.
Proof.
  unfold join_vakiluku. rewrite elem_of_merge_left, with_key_fmap. split.
  - intros (k & (r' & [= <- ->] & Hr)%list_elem_of_fmap & [Ho|[_ [=]]]).
    by rewrite elem_of_vak2 in Ho.
  - intros (Hr & Ha). exists (normalize (name_of r)).
    split; [apply list_elem_of_fmap; eauto|]. left. by apply elem_of_vak2.
Qed.

(** A boundary is left without population when a table row with its
    key holds NaN, or when no table row has its key. *)
Lemma elem_of_join_None gdf (vak : list (vak_row V)) r :
  (r, None) ∈ join_vakiluku name_of table gdf vak <->
  r ∈ gdf /\
  ((exists a, a ∈ vak /\
      apply_alias table (normalize (Kunta a)) = normalize (name_of r) /\
      Vakiluku a = None)
   \/ normalize (name_of r) ∉ vak_key table vak).
Proof.
  unfold join_vakiluku. rewrite elem_of_merge_left, with_key_fmap. split.
  - intros (k & (r' & [= <- ->] & Hr)%list_elem_of_fmap & Ho).
    rewrite elem_of_vak2, vak2_keys in Ho. split; [done|]. destruct Ho as [Ho|[Ho _]]; auto.
  - intros (Hr & Ho). exists (normalize (name_of r)).
    split; [apply list_elem_of_fmap; eauto|].
    rewrite elem_of_vak2, vak2_keys. destruct Ho as [Ho|Ho]; auto.
Qed.

(** The names of line 64 are those of the rows without population. *)
Lemma elem_of_puuttuvat (joined : list (R * option V)) n :
  n ∈ puuttuvat name_of joined <-> exists r, (r, None) ∈ joined /\ name_of r = n.
Proof.
  unfold puuttuvat. rewrite list_elem_of_fmap. split.
  - intros ([r o] & -> & [Ho Hin]%list_elem_of_filter). simpl in Ho. subst o. eauto.
  - intros (r & Hin & <-). exists (r, None). split; [done|].
    by apply list_elem_of_filter.
Qed.

(** The rows of the result are the rows of the boundary frame. *)
Lemma elem_of_join_fst gdf (vak : list (vak_row V)) r :
  r ∈ (join_vakiluku name_of table gdf vak).*1 <-> r ∈ gdf.
Proof.
  unfold join_vakiluku. rewrite merge_left_fst, with_key_fmap, list_elem_of_bind. split.
  - by intros ([r' k] & [-> _]%elem_of_replicate
               & (r'' & [= <- _] & Hr)%list_elem_of_fmap).
  - intros Hr. exists (r, normalize (name_of r)).
    split; [apply elem_of_replicate; split; [done|lia]|].
    apply list_elem_of_fmap; eauto.
Qed.

End Frames.

Section FramesNatural.
Context `{CaseFold} {R V W : Type} (name_of : R -> pyval) (g : V -> W).
Context (table : gmap ustring ustring).

Lemma vak2_map_row (vak : list (vak_row V)) :
  vak2 table (map_row g <$> vak) = map_value g <$> vak2 table vak.
Proof. rewrite !vak2_fmap, <- !list_fmap_compose. by apply list_fmap_ext. Qed.

Lemma join_vakiluku_map_row gdf (vak : list (vak_row V)) :
  join_vakiluku name_of table gdf (map_row g <$> vak)
  = map_value g <$> join_vakiluku name_of table gdf vak.
Proof. unfold join_vakiluku. by rewrite vak2_map_row, merge_left_fmap. Qed.

Lemma puuttuvat_map_value (joined : list (R * option V)) :
  puuttuvat name_of (map_value g <$> joined) = puuttuvat name_of joined.
Proof.
  unfold puuttuvat. by rewrite filter_None_fmap, <- list_fmap_compose.
Qed.

End FramesNatural.

(** ** Theorems *)

Section Theorems.
Context `{CaseFold} {R V : Type} (name_of : R -> pyval).
Context (table : gmap ustring ustring).
Implicit Types (gdf : list R) (vak : list (vak_row V)).

(** C2: the merge keeps every boundary row, in the order of the
    boundary frame, and repeats a row once for every table row that has
    its key: the left column of the result is the boundary frame with
    each row written max(1, number of matches) times. *)
Theorem join_left_rows gdf vak :
  (join_vakiluku name_of table gdf vak).*1
  = gdf ≫= (fun r =>
      replicate (max 1 (length (matches (normalize (name_of r)) (vak2 table vak)))) r).
Proof.
  unfold join_vakiluku. by rewrite merge_left_fst, with_key_fmap, bind_fmap.
Qed.

(** C6: when the keys of the table are pairwise distinct the result
    has exactly the rows of the boundary frame, one each, in order. *)
Theorem join_unique_keys gdf vak :
  NoDup (vak_key table vak) ->
  (join_vakiluku name_of table gdf vak).*1 = gdf.
Proof.
  intros Hnd. rewrite <- vak2_keys in Hnd.
  induction gdf as [|r gdf IH]; [done|].
  rewrite join_vakiluku_cons, fmap_app, row_out_fst, IH.
  pose proof (matches_unique (normalize (name_of r)) _ Hnd) as Hle.
  by replace (max 1 _) with 1 by lia.
Qed.

(** C1: a pair (row, population) is in the result exactly when the row
    is a boundary row and either some table row has the row's key and
    holds that population (NaN included), or no table row has the key
    and the population is absent. *)
Theorem join_membership gdf vak r o :
  (r, o) ∈ join_vakiluku name_of table gdf vak <->
  r ∈ gdf /\
  ((exists a, a ∈ vak /\
      apply_alias table (normalize (Kunta a)) = normalize (name_of r) /\
      Vakiluku a = o)
   \/ ((forall a, a ∈ vak ->
          apply_alias table (normalize (Kunta a)) <> normalize (name_of r))
       /\ o = None)).
Proof.
  unfold join_vakiluku. rewrite elem_of_merge_left. split.
  - intros (k & Hk & Ho).
    rewrite with_key_fmap in Hk. apply list_elem_of_fmap in Hk as (r' & [= <- ->] & Hr).
    rewrite elem_of_vak2, vak2_keys, not_elem_of_vak_key in Ho. done.
  - intros (Hr & Ho). exists (normalize (name_of r)).
    rewrite elem_of_vak2, vak2_keys, not_elem_of_vak_key, with_key_fmap.
    split; [|done]. apply list_elem_of_fmap. eauto.
Qed.

(** C7: with pairwise distinct table keys, the list of line 64 is the
    list of the names of the boundary rows whose key finds no population
    in the table, in the order of the boundary frame, each once. *)
Theorem puuttuvat_unique_keys gdf vak :
  NoDup (vak_key table vak) ->
  puuttuvat name_of (join_vakiluku name_of table gdf vak)
  = name_of <$>
      filter (fun r => population table vak (normalize (name_of r)) = None) gdf.
Proof.
  intros Hnd. rewrite <- vak2_keys in Hnd. unfold puuttuvat, population.
  induction gdf as [|r gdf IH]; [done|].
  rewrite join_vakiluku_cons, filter_app, fmap_app, IH, filter_cons. clear IH.
  pose proof (matches_unique (normalize (name_of r)) _ Hnd) as Hle.
  destruct (matches _ _) as [|o [|o' ms]]; simpl in Hle; [| |lia].
  - by rewrite decide_True.
  - simpl. rewrite filter_cons, filter_nil. simpl.
    by destruct (decide (o = None)).
Qed.

(** Every join key is a normal form of [normalize], on both
    sides, when the alias table holds normal forms. *)
Theorem join_keys_normal gdf vak :
  table_normal table ->
  Forall (fun k => is_normal k = true) (vak_key table vak)
  /\ Forall (fun k => is_normal k = true) (gdf_key name_of gdf).
Proof.
  intros Ht. split.
  - rewrite vak_key_fmap, Forall_fmap. apply Forall_true. intros a.
    apply apply_alias_is_normal; [done | apply normalize_is_normal].
  - unfold gdf_key. rewrite Forall_fmap. apply Forall_true. intros r.
    apply normalize_is_normal.
Qed.

End Theorems.

(** ** Witnesses and examples on the shipped table

    Rows are their own name cell ([name_of := id]); populations are
    integers. *)

Definition example_gdf : list pyval :=
  [PStr (u "Helsinki"); PStr (u "Espoo"); PStr (u "Pedersöre")].

Definition example_vak : list (vak_row Z) :=
  [ {| Kunta := PStr (u "HELSINKI"); Vakiluku := Some 100%Z |};
    {| Kunta := PStr (u "Pedersören  kunta"); Vakiluku := Some 11000%Z |} ].

Lemma example_keys_NoDup : NoDup (vak_key ALIASES example_vak).
Proof. apply (bool_decide_unpack _). vm_compute. exact I. Qed.

Lemma join_unique_keys_witness :
  (join_vakiluku id ALIASES example_gdf example_vak).*1 = example_gdf.
Proof. apply (join_unique_keys id ALIASES), example_keys_NoDup. Defined.

Lemma puuttuvat_unique_keys_witness :
  puuttuvat id (join_vakiluku id ALIASES example_gdf example_vak)
  = id <$> filter (fun r => population ALIASES example_vak (normalize (id r)) = None)
             example_gdf.
Proof. apply (puuttuvat_unique_keys id ALIASES), example_keys_NoDup. Defined.

Lemma join_keys_normal_witness :
  Forall (fun k => is_normal k = true) (vak_key ALIASES example_vak)
  /\ Forall (fun k => is_normal k = true) (gdf_key id example_gdf).
Proof.
  apply (join_keys_normal id ALIASES example_gdf example_vak).
  intros k v [-> ->]%ALIASES_lookup. split; reflexivity.
Defined.

(** The scenario of the design document: Helsinki is matched
    through its upper-case spelling, Espoo has no row and is reported. *)
Theorem join_scenario :
  let gdf := [PStr (u "Helsinki"); PStr (u "Espoo")] in
  let vak := [ {| Kunta := PStr (u "HELSINKI"); Vakiluku := Some 100%Z |} ] in
  join_vakiluku id ALIASES gdf vak
    = [(PStr (u "Helsinki"), Some 100%Z); (PStr (u "Espoo"), None)]
  /\ puuttuvat id (join_vakiluku id ALIASES gdf vak) = [PStr (u "Espoo")].
Proof. split; vm_compute; reflexivity. Qed.

(** Two table rows with one key give two result rows for one
    boundary, so the result is longer than the boundary frame: the merge
    does not keep one record per boundary when keys repeat. *)
Theorem join_duplicate_keys :
  let gdf := [PStr (u "Helsinki")] in
  let vak := [ {| Kunta := PStr (u "Helsinki"); Vakiluku := Some 100%Z |};
               {| Kunta := PStr (u "HELSINKI "); Vakiluku := Some 200%Z |} ] in
  join_vakiluku id ALIASES gdf vak
    = [(PStr (u "Helsinki"), Some 100%Z); (PStr (u "Helsinki"), Some 200%Z)].
Proof. vm_compute. reflexivity. Qed.

(** The alias is applied to the table side only: a table row and
    a boundary that carry the very same name "Pedersören kunta" do not
    meet, because only the table key is replaced by "pedersore". *)
Theorem join_alias_one_sided :
  let gdf := [PStr (u "Pedersören kunta")] in
  let vak := [ {| Kunta := PStr (u "Pedersören kunta"); Vakiluku := Some 11000%Z |} ] in
  join_vakiluku id ALIASES gdf vak = [(PStr (u "Pedersören kunta"), None)].
Proof. vm_compute. reflexivity. Qed.

(** A boundary without a name and a table row without a name both
    get the empty key and are joined to each other. *)
Theorem join_missing_names_meet :
  let gdf := [PNone; PStr (u "   ")] in
  let vak := [ {| Kunta := PNaN; Vakiluku := Some 7%Z |} ] in
  join_vakiluku id ALIASES gdf vak = [(PNone, Some 7%Z); (PStr (u "   "), Some 7%Z)].
Proof. vm_compute. reflexivity. Qed.
