(* ===== verification/Meet.v ===== *)
(** * When two names meet (main.py 17-29 and 55-61)

    The join compares the key of a boundary name with the key of a table
    name after the replacement by [ALIASES].  With [Words] the comparison
    is one of word lists: [key_words] is the list of the folded and
    unaccented words of a cell, and a boundary receives the population
    of a table row exactly when the two cells have the same words, but
    for the one alias of the table, which sends the words "pedersoren
    kunta" of the table side to the word "pedersore". *)

From stdpp Require Import gmap list.
From S2P Require Import Prelude Unicode Normalize Words Alias Join.

Section Meet.
Context `{CaseFold}.

(** The words of the key of a cell; a cell that is not a string has
    none. *)
Definition key_words (v : pyval) : list ustring :=
  match v with
  | PStr s => words (flat_map key_char s)
  | _ => []
  end.

(** The words of the only key of [ALIASES] and of its value. *)
Definition ALIAS_FROM : list ustring := [u "pedersoren"; u "kunta"].
Definition ALIAS_TO : list ustring := [u "pedersore"].

(** The table name [b] and the boundary name [a] have the same words,
    up to the alias on the table side. *)
Definition same_words (a b : pyval) : Prop :=
  if decide (key_words b = ALIAS_FROM)
  then key_words a = ALIAS_TO
  else key_words a = key_words b.

(** ** Lemmas *)

Lemma normalize_key_words v : normalize v = join_words (key_words v).
Proof.
  destruct v as [s| | |]; try done.
  rewrite normalize_str_strip. apply sub_ws_strip_words.
Qed.

Lemma key_words_is_word v : Forall is_word (key_words v).
Proof. destruct v; try by constructor. apply words_is_word. Qed.

Lemma join_words_inj ws ws' :
  Forall is_word ws -> Forall is_word ws' ->
  join_words ws = join_words ws' -> ws = ws'.
Proof.
  intros Hw Hw' E. apply (f_equal words) in E.
  by rewrite !words_join_words in E.
Qed.

Lemma ALIAS_FROM_words : Forall is_word ALIAS_FROM.
Proof. repeat constructor; done. Qed.

Lemma ALIAS_TO_words : Forall is_word ALIAS_TO.
Proof. repeat constructor; done. Qed.

Lemma ALIASES_join_words :
  ALIASES = {[ join_words ALIAS_FROM := join_words ALIAS_TO ]}.
Proof. done. Qed.

(** The replacement on word lists. *)
Lemma apply_alias_words ws :
  Forall is_word ws ->
  apply_alias ALIASES (join_words ws)
  = join_words (if decide (ws = ALIAS_FROM) then ALIAS_TO else ws).
Proof.
  intros Hw. unfold apply_alias. rewrite ALIASES_join_words.
  destruct (decide (ws = ALIAS_FROM)) as [->|Hne].
  - by rewrite lookup_singleton_eq.
  - rewrite lookup_singleton_ne; [done|].
    intros E. apply Hne. symmetry.
    apply join_words_inj; [apply ALIAS_FROM_words|done..].
Qed.

(** Two cells get the same join key exactly when they have the same
    words up to the alias. *)
Lemma meet_same_words a b :
  apply_alias ALIASES (normalize b) = normalize a <-> same_words a b.
Proof.
  rewrite !normalize_key_words, apply_alias_words by apply key_words_is_word.
  unfold same_words. destruct (decide (key_words b = ALIAS_FROM)); split.
  - intros E. symmetry. apply join_words_inj;
      [apply ALIAS_TO_words|apply key_words_is_word|done].
  - by intros ->.
  - intros E. symmetry. by apply join_words_inj; [apply key_words_is_word..|].
  - by intros ->.
Qed.

End Meet.

(** ** Theorems *)

Section Theorems.
Context `{CaseFold} {R V : Type} (name_of : R -> pyval).
Implicit Types (gdf : list R) (vak : list (vak_row V)).

(** C10: a boundary receives a population from the table exactly when
    some table row holds that population and the names of the two have
    the same words after case folding and removal of the three
    diacritics, where a table name with the words "pedersoren kunta"
    counts as the word "pedersore": the alias is applied to the table
    side only. *)
Theorem join_same_words gdf vak r v :
  (r, Some v) ∈ join_vakiluku name_of ALIASES gdf vak <->
  r ∈ gdf /\
  exists a, a ∈ vak /\ same_words (name_of r) (Kunta a) /\ Vakiluku a = Some v.
Proof.
  rewrite elem_of_join_Some.
  by setoid_rewrite meet_same_words.
Qed.

(** A table row and a boundary that carry the same name with the
    words "pedersoren kunta" never meet. *)
Corollary alias_one_sided a :
  key_words a = ALIAS_FROM -> ~ same_words a a.
Proof.
  unfold same_words. intros E. rewrite decide_True by done. by rewrite E.
Qed.

End Theorems.

(** ** Examples *)

Example same_words_example :
  same_words (PStr (u "Pedersöre")) (PStr (u "  PEDERSÖREN   kunta "))
  /\ same_words (PStr (u "Helsinki")) (PStr (u "HELSINKI"))
  /\ ~ same_words (PStr (u "Pedersören kunta")) (PStr (u "Pedersören kunta")).
Proof.
  split; [|split]; [done..|]. by apply alias_one_sided.
Qed.
