(* ===== verification/Report.v ===== *)
(** * The report of the boundaries without population (main.py 65-70)

    When the list of line 64 is not empty the script prints a notice,
    then one line for each of its first 20 names, then one line that
    counts the names left out when there are more than 20.  [report]
    is the list of the lines printed.  [py_str] is [str()] on a cell and
    [str_N] the decimal digits of a number, as an f-string writes it. *)

From Stdlib Require Import List NArith ZArith Lia Bool Decimal DecimalN.
From Stdlib Require DecimalPos DecimalFacts.
From S2P Require Import Prelude.
Import ListNotations.
Local Open Scope N_scope.

(** ** Decimal digits *)

Fixpoint uint_digits (d : Decimal.uint) : ustring :=
  match d with
  | Nil => []
  | D0 d => 48 :: uint_digits d
  | D1 d => 49 :: uint_digits d
  | D2 d => 50 :: uint_digits d
  | D3 d => 51 :: uint_digits d
  | D4 d => 52 :: uint_digits d
  | D5 d => 53 :: uint_digits d
  | D6 d => 54 :: uint_digits d
  | D7 d => 55 :: uint_digits d
  | D8 d => 56 :: uint_digits d
  | D9 d => 57 :: uint_digits d
  end.

Definition is_digit (c : codepoint) : bool := (48 <=? c) && (c <=? 57).

(** [str(n)] for a natural number. *)
Definition str_N (n : N) : ustring := uint_digits (N.to_uint n).

(** [str(z)] for an integer. *)
Definition str_Z (z : Z) : ustring :=
  match z with
  | Z0 => u "0"
  | Zpos p => str_N (Npos p)
  | Zneg p => u "-" ++ str_N (Npos p)
  end.

(** Reading digits back. *)
Fixpoint digits_uint (s : ustring) : option Decimal.uint :=
  match s with
  | [] => Some Nil
  | c :: s' =>
    match digits_uint s' with
    | None => None
    | Some d =>
      if c =? 48 then Some (D0 d) else if c =? 49 then Some (D1 d)
      else if c =? 50 then Some (D2 d) else if c =? 51 then Some (D3 d)
      else if c =? 52 then Some (D4 d) else if c =? 53 then Some (D5 d)
      else if c =? 54 then Some (D6 d) else if c =? 55 then Some (D7 d)
      else if c =? 56 then Some (D8 d) else if c =? 57 then Some (D9 d)
      else None
    end
  end.

Definition N_of_str (s : ustring) : option N :=
  match s with
  | [] => None
  | _ => option_map N.of_uint (digits_uint s)
  end.

(** ** [str()] of a cell *)

Definition py_str (v : pyval) : ustring :=
  match v with
  | PStr s => s
  | PInt z => str_Z z
  | PNone => u "None"
  | PNaN => u "nan"
  end.

(** ** The report *)

Definition NOTICE : ustring :=
  u "Huom. Kuntakartta on vuodelta 2018 ja asukasluvut ovat vuodelta 2025, joten seuraavat kunnat ovat yhdistyneet ja niiden tietoja ei ole saatavilla.".

(** Line 68: [print(" -", n)]. *)
Definition name_line (n : pyval) : ustring := u " -" ++ u " " ++ py_str n.

(** Line 70: [print(f"... ja {len(puuttuvat)-20} muuta")]. *)
Definition more_line (len : nat) : ustring :=
  u "... ja " ++ str_N (N.of_nat (len - 20)) ++ u " muuta".

(** Lines 65-70. *)
Definition report (puuttuvat : list pyval) : list ustring :=
  match puuttuvat with
  | [] => []
  | _ =>
    [NOTICE]
    ++ map name_line (firstn 20 puuttuvat)
    ++ (if (20 <? length puuttuvat)%nat then [more_line (length puuttuvat)] else [])
  end.

(** ** Lemmas *)

Lemma digits_uint_digits d : digits_uint (uint_digits d) = Some d.
Proof. induction d; simpl; rewrite ?IHd; reflexivity. Qed.

Lemma uint_digits_nil d : uint_digits d = [] -> d = Nil.
Proof. now destruct d. Qed.

Lemma str_N_not_nil n : str_N n <> [].
Proof.
  unfold str_N. intros E. apply uint_digits_nil in E.
  pose proof (f_equal N.of_uint E) as E'. rewrite DecimalN.Unsigned.of_to in E'.
  subst n. discriminate E.
Qed.

Lemma uint_digits_are_digits d : forallb is_digit (uint_digits d) = true.
Proof. induction d; simpl; rewrite ?IHd; reflexivity. Qed.

Lemma str_N_digits n : forallb is_digit (str_N n) = true.
Proof. apply uint_digits_are_digits. Qed.

(** A number is less than the power of ten of the number of its
    digits. *)
Lemma of_lu_lt d : (DecimalPos.Unsigned.of_lu d < 10 ^ DecimalPos.Unsigned.usize d)%N.
Proof.
  induction d; cbn [DecimalPos.Unsigned.usize]; rewrite ?N.pow_succ_r';
    [cbn; lia|rewrite DecimalPos.Unsigned.of_lu_eqn;
              cbn [DecimalPos.Unsigned.hd DecimalPos.Unsigned.tl]; lia ..].
Qed.

Lemma usize_nb_digits d : DecimalPos.Unsigned.usize d = N.of_nat (Decimal.nb_digits d).
Proof. induction d; cbn [DecimalPos.Unsigned.usize Decimal.nb_digits]; lia. Qed.

Lemma uint_digits_length d : length (uint_digits d) = Decimal.nb_digits d.
Proof. induction d; cbn [uint_digits length Decimal.nb_digits]; lia. Qed.

Lemma str_N_lt n : (n < 10 ^ N.of_nat (length (str_N n)))%N.
Proof.
  unfold str_N. rewrite uint_digits_length, <- DecimalFacts.nb_digits_rev, <- usize_nb_digits.
  rewrite <- (DecimalN.Unsigned.of_to n) at 1. unfold N.of_uint.
  rewrite DecimalPos.Unsigned.of_uint_alt. apply of_lu_lt.
Qed.

Lemma digits_uint_length s d : digits_uint s = Some d -> Decimal.nb_digits d = length s.
Proof.
  revert d. induction s as [|c s IH]; intros d; cbn [digits_uint length].
  - now intros [= <-].
  - destruct (digits_uint s) as [d'|]; [|discriminate].
    specialize (IH d' eq_refl).
    repeat (destruct (_ =? _)%N; [intros [= <-]; cbn [Decimal.nb_digits]; lia|]).
    discriminate.
Qed.

(** A number is written with no more digits than the string it was
    read from. *)
Lemma N_of_str_length s n : N_of_str s = Some n -> (length (str_N n) <= length s)%nat.
Proof.
  unfold N_of_str, str_N. destruct s as [|c s]; [discriminate|].
  destruct (digits_uint (c :: s)) as [d|] eqn:E; [|discriminate].
  intros [= <-]. rewrite DecimalN.Unsigned.to_of, uint_digits_length.
  rewrite <- (digits_uint_length _ _ E). apply DecimalFacts.nb_digits_unorm.
  intros ->. apply digits_uint_length in E. discriminate E.
Qed.

(** From 1000 on a number has four digits or more, and below it at most
    three. *)
Lemma str_N_length_ge n : (1000 <= n)%N -> (4 <= length (str_N n))%nat.
Proof.
  intros Hn. pose proof (str_N_lt n) as Hlt.
  destruct (length (str_N n)) as [|[|[|[|k]]]]; cbn in Hlt; lia.
Qed.

Lemma str_N_length_le n : (n < 1000)%N -> (length (str_N n) <= 3)%nat.
Proof.
  intros Hn.
  assert (H : forallb (fun k => (length (str_N (N.of_nat k)) <=? 3)%nat) (seq 0 1000) = true)
    by (vm_compute; reflexivity).
  rewrite forallb_forall in H. specialize (H (N.to_nat n)).
  rewrite N2Nat.id in H. apply Nat.leb_le, H, in_seq. lia.
Qed.

Lemma report_cons n l :
  report (n :: l)
  = NOTICE :: map name_line (firstn 20 (n :: l))
    ++ (if (20 <? length (n :: l))%nat then [more_line (length (n :: l))] else []).
Proof. reflexivity. Qed.

(** ** Theorems *)

(** The digits that [str_N] writes read back as the number: the
    count on the summary line is the number of names left out. *)
Theorem str_N_roundtrip n : N_of_str (str_N n) = Some n.
Proof.
  unfold N_of_str. pose proof (str_N_not_nil n) as Hne.
  destruct (str_N n) eqn:E; [congruence|]. rewrite <- E. unfold str_N.
  rewrite digits_uint_digits. simpl. now rewrite DecimalN.Unsigned.of_to.
Qed.

(** Nothing is printed exactly when no boundary lacks a
    population. *)
Theorem report_empty_iff l : report l = [] <-> l = [].
Proof. destruct l; [easy|]. rewrite report_cons. split; discriminate. Qed.

(** Up to 20 names are all printed, in order, after the notice,
    and no summary line follows. *)
Theorem report_short l :
  l <> [] -> (length l <= 20)%nat ->
  report l = NOTICE :: map name_line l.
Proof.
  intros Hne Hlen. destruct l as [|n l]; [congruence|]. rewrite report_cons.
  rewrite firstn_all2 by exact Hlen.
  rewrite (proj2 (Nat.ltb_ge _ _)) by exact Hlen. now rewrite app_nil_r.
Qed.

(** With more than 20 names the first 20 are printed in order and
    one last line gives the number of the others. *)
Theorem report_long l :
  (20 < length l)%nat ->
  report l
  = NOTICE :: map name_line (firstn 20 l)
    ++ [u "... ja " ++ str_N (N.of_nat (length l - 20)) ++ u " muuta"].
Proof.
  intros Hlen. destruct l as [|n l]; [simpl in Hlen; lia|]. rewrite report_cons.
  now rewrite (proj2 (Nat.ltb_lt _ _)) by exact Hlen.
Qed.

(** The report never has more than 22 lines, however many names
    are missing. *)
Theorem report_length_le l : (length (report l) <= 22)%nat.
Proof.
  destruct l as [|n l]; [simpl; lia|]. rewrite report_cons.
  generalize (n :: l). intros l'.
  cbn [length]. rewrite length_app, length_map, length_firstn.
  destruct (20 <? length l')%nat; cbn [length]; lia.
Qed.

(** ** Witnesses *)

Lemma report_short_witness :
  report [PStr (u "Espoo"); PNaN]
  = NOTICE :: map name_line [PStr (u "Espoo"); PNaN].
Proof.
  apply (report_short [PStr (u "Espoo"); PNaN]); [discriminate | simpl; lia].
Defined.

Lemma report_long_witness :
  report (repeat (PStr (u "x")) 25)
  = NOTICE :: map name_line (firstn 20 (repeat (PStr (u "x")) 25))
    ++ [u "... ja " ++ str_N (N.of_nat (length (repeat (PStr (u "x")) 25) - 20)) ++ u " muuta"].
Proof. apply (report_long (repeat (PStr (u "x")) 25)). simpl. lia. Defined.
