(* ===== verification/JoinSpec.v ===== *)
(** * The join of the design document and what the script implements of it

    The design document describes the join abstractly: both sides are
    keyed by the normalised and aliased name, the attribute rows are
    collected in a dictionary from key to value (a later row replaces an
    earlier one), every boundary gets exactly one record with the value
    found under its key, and the boundaries whose key is not in the
    dictionary form the unmatched list.  [spec_join] is that description;
    the theorems state when the merge of the script computes it. *)

From stdpp Require Import gmap list.
From S2P Require Import Prelude Unicode Normalize Alias Join.

Section Spec.
Context `{CaseFold} {R V : Type} (name_of : R -> pyval).
Context (table : gmap ustring ustring).

Definition spec_key (name : pyval) : ustring :=
  apply_alias table (normalize name).

Definition attr_map (attrs : list (vak_row V)) : gmap ustring (option V) :=
  foldl (fun m a => <[spec_key (Kunta a) := Vakiluku a]> m) ∅ attrs.

Definition spec_records (boundaries : list R) (attrs : list (vak_row V))
  : list (R * option V) :=
  (fun b => (b, mjoin (attr_map attrs !! spec_key (name_of b)))) <$> boundaries.

Definition spec_unmatched (boundaries : list R) (attrs : list (vak_row V))
  : list pyval :=
  name_of <$> filter (fun b => attr_map attrs !! spec_key (name_of b) = None) boundaries.

Definition spec_join (boundaries : list R) (attrs : list (vak_row V))
  : list (R * option V) * list pyval :=
  (spec_records boundaries attrs, spec_unmatched boundaries attrs).

End Spec.

(** ** The dictionary and the matching rows *)

Lemma foldl_insert_lookup {V} (l : list (ustring * V)) (m : gmap ustring V) k :
  NoDup l.*1 ->
  foldl (fun m kv => <[kv.1 := kv.2]> m) m l !! k
  = match head (filter (fun kv => kv.1 = k) l) with
    | Some kv => Some kv.2
    | None => m !! k
    end.
Proof.
  revert m. induction l as [|[k' v] l IH]; intros m; [done|].
  rewrite fmap_cons, NoDup_cons. intros [Hk Hl]. simpl in Hk |- *.
  rewrite IH by done. destruct (decide (k' = k)) as [->|Hne].
  - rewrite filter_cons_True by done.
    assert (E : filter (fun kv : ustring * V => kv.1 = k) l = []).
    { destruct (filter _ l) as [|[k1 v1] t] eqn:E; [done|]. exfalso. apply Hk.
      assert (Hin : (k1, v1) ∈ filter (fun kv : ustring * V => kv.1 = k) l)
        by (rewrite E; left).
      apply list_elem_of_filter in Hin as [Hk1 Hin]. simpl in Hk1. subst k1.
      apply list_elem_of_fmap. by exists (k, v1). }
    rewrite E. simpl. by rewrite lookup_insert_eq.
  - rewrite filter_cons_False by done.
    destruct (head _); [done|]. by rewrite lookup_insert_ne.
Qed.

Section Refinement.
Context `{CaseFold} {R V : Type} (name_of : R -> pyval).
Context (table : gmap ustring ustring).
Implicit Types (gdf : list R) (vak : list (vak_row V)).

Lemma attr_map_foldl vak :
  attr_map table vak
  = foldl (fun m kv => <[kv.1 := kv.2]> m) ∅ (vak2 table vak).
Proof.
  unfold attr_map. rewrite vak2_fmap. generalize (∅ : gmap ustring (option V)).
  induction vak as [|a vak IH]; intros m; [done|]. simpl. by rewrite IH.
Qed.

Lemma attr_map_lookup vak k :
  NoDup (vak_key table vak) ->
  attr_map table vak !! k = head (matches k (vak2 table vak)).
Proof.
  intros Hnd. rewrite <- vak2_keys in Hnd.
  rewrite attr_map_foldl, foldl_insert_lookup by done.
  unfold matches. destruct (filter _ _) as [|kv t]; [|done].
  simpl. apply lookup_empty.
Qed.

(** The dictionary has an entry under the key of every table row. *)
Lemma foldl_insert_is_Some vak (m : gmap ustring (option V)) k :
  is_Some (m !! k) \/ (exists a, a ∈ vak /\ spec_key table (Kunta a) = k) ->
  is_Some (foldl (fun m a => <[spec_key table (Kunta a) := Vakiluku a]> m) m vak !! k).
Proof.
  revert m. induction vak as [|b vak IH]; intros m Hk; simpl.
  - destruct Hk as [Hk|(a & Ha & _)]; [done|]. by apply elem_of_nil in Ha.
  - apply IH. destruct (decide (spec_key table (Kunta b) = k)) as [<-|Hne].
    + left. by rewrite lookup_insert_eq.
    + destruct Hk as [Hk|(a & [->|Ha]%elem_of_cons & Hk)]; [|done|by eauto].
      left. by rewrite lookup_insert_ne.
Qed.

Lemma attr_map_is_Some vak a :
  a ∈ vak -> is_Some (attr_map table vak !! spec_key table (Kunta a)).
Proof. intros Ha. apply foldl_insert_is_Some. eauto. Qed.

(** The key of the design document is the key of the script on a
    boundary whose normalised name is not a key of the alias table. *)
Lemma spec_key_boundary r :
  table !! normalize (name_of r) = None ->
  spec_key table (name_of r) = normalize (name_of r).
Proof. apply apply_alias_miss. Qed.

(** C11: when the table keys are pairwise distinct and no boundary key
    is itself an alias, the merge of the script returns the records of
    the abstract join: one per boundary, in order, with the value that
    the dictionary holds under the boundary's key. *)
Theorem join_refines_spec gdf vak :
  NoDup (vak_key table vak) ->
  (forall r, r ∈ gdf -> table !! normalize (name_of r) = None) ->
  join_vakiluku name_of table gdf vak = spec_records name_of table gdf vak.
Proof.
  intros Hnd Hal. unfold spec_records.
  induction gdf as [|r gdf IH]; [done|].
  rewrite join_vakiluku_cons, fmap_cons, IH by (intros; apply Hal; by right).
  rewrite spec_key_boundary by (apply Hal; left).
  rewrite attr_map_lookup by done.
  pose proof (matches_unique (normalize (name_of r)) (vak2 table vak)) as Hle.
  rewrite vak2_keys in Hle. specialize (Hle Hnd).
  by destruct (matches _ _) as [|o [|o' ms]]; simpl in Hle; [| |lia].
Qed.

(** C12: under the same conditions, and when no table row holds NaN,
    the names reported on line 64 are the unmatched list of the abstract
    join. *)
Theorem puuttuvat_refines_spec gdf vak :
  NoDup (vak_key table vak) ->
  (forall r, r ∈ gdf -> table !! normalize (name_of r) = None) ->
  (forall a, a ∈ vak -> is_Some (Vakiluku a)) ->
  puuttuvat name_of (join_vakiluku name_of table gdf vak)
  = spec_unmatched name_of table gdf vak.
Proof.
  intros Hnd Hal Hv. unfold spec_unmatched, puuttuvat.
  induction gdf as [|r gdf IH]; [done|].
  rewrite join_vakiluku_cons, filter_app, fmap_app, IH by (intros; apply Hal; by right).
  clear IH. rewrite (filter_cons _ r), spec_key_boundary by (apply Hal; left).
  rewrite attr_map_lookup by done.
  pose proof (matches_unique (normalize (name_of r)) (vak2 table vak)) as Hle.
  rewrite vak2_keys in Hle. specialize (Hle Hnd).
  destruct (matches _ _) as [|o [|o' ms]] eqn:E; simpl in Hle; [| |lia].
  - by rewrite decide_True.
  - assert (Ho : o ∈ matches (normalize (name_of r)) (vak2 table vak))
      by (rewrite E; left).
    apply elem_of_matches, elem_of_vak2 in Ho as (a & Ha & _ & <-).
    by destruct (Hv a Ha) as [v ->].
Qed.

(** C13: the script reports by value, the design document by key: a
    boundary that has the key of a table row which holds NaN is on the
    list of line 64, although the abstract join counts it as matched and
    leaves it off the unmatched list. *)
Theorem puuttuvat_counts_nan gdf vak r a :
  r ∈ gdf -> a ∈ vak ->
  table !! normalize (name_of r) = None ->
  spec_key table (Kunta a) = normalize (name_of r) ->
  Vakiluku a = None ->
  name_of r ∈ puuttuvat name_of (join_vakiluku name_of table gdf vak)
  /\ name_of r ∉ spec_unmatched name_of table gdf vak.
Proof.
  intros Hr Ha Hal Hk Hv. split.
  - apply elem_of_puuttuvat. exists r. split; [|done].
    apply elem_of_join_None. split; [done|]. left. by exists a.
  - unfold spec_unmatched. rewrite list_elem_of_fmap.
    intros (b & Hb & [Hnone _]%list_elem_of_filter).
    rewrite <- Hb, (spec_key_boundary r Hal), <- Hk in Hnone.
    destruct (attr_map_is_Some vak a Ha) as [o Ho]. congruence.
Qed.

End Refinement.

(** ** Witnesses and divergences on the shipped table *)

Lemma example_no_alias :
  forall r, r ∈ example_gdf -> ALIASES !! normalize (id r) = None.
Proof. apply Forall_forall. apply (bool_decide_unpack _). vm_compute. exact I. Qed.

Lemma example_values : forall a, a ∈ example_vak -> is_Some (Vakiluku a).
Proof. apply Forall_forall. apply (bool_decide_unpack _). vm_compute. exact I. Qed.

Lemma join_refines_spec_witness :
  join_vakiluku id ALIASES example_gdf example_vak
  = spec_records id ALIASES example_gdf example_vak.
Proof.
  apply (join_refines_spec id ALIASES example_gdf example_vak).
  - exact example_keys_NoDup.
  - exact example_no_alias.
Defined.

Lemma puuttuvat_refines_spec_witness :
  puuttuvat id (join_vakiluku id ALIASES example_gdf example_vak)
  = spec_unmatched id ALIASES example_gdf example_vak.
Proof.
  apply (puuttuvat_refines_spec id ALIASES example_gdf example_vak).
  - exact example_keys_NoDup.
  - exact example_no_alias.
  - exact example_values.
Defined.

(** The boundary Espoo with a table row for Espoo that holds NaN. *)
Lemma puuttuvat_counts_nan_witness :
  let gdf := [PStr (u "Espoo")] in
  let vak := [ {| Kunta := PStr (u "Espoo"); Vakiluku := @None Z |} ] in
  PStr (u "Espoo") ∈ puuttuvat id (join_vakiluku id ALIASES gdf vak)
  /\ PStr (u "Espoo") ∉ spec_unmatched id ALIASES gdf vak.
Proof.
  apply (puuttuvat_counts_nan id ALIASES [PStr (u "Espoo")]
           [ {| Kunta := PStr (u "Espoo"); Vakiluku := @None Z |} ]
           (PStr (u "Espoo")) {| Kunta := PStr (u "Espoo"); Vakiluku := @None Z |});
    [left | left | vm_compute; reflexivity..].
Defined.

(** On that table the list of line 64 names Espoo and the unmatched
    list of the abstract join is empty. *)
Example puuttuvat_nan_example :
  let gdf := [PStr (u "Espoo")] in
  let vak := [ {| Kunta := PStr (u "Espoo"); Vakiluku := @None Z |} ] in
  puuttuvat id (join_vakiluku id ALIASES gdf vak) = [PStr (u "Espoo")]
  /\ spec_unmatched id ALIASES gdf vak = [].
Proof. split; vm_compute; reflexivity. Qed.
