(* ===== verification/Format.v ===== *)
(** * The text of a popup (main.py 84-93)

    For every row of the merged frame the script builds the HTML of the
    marker's popup: the name, the area with one decimal, and the
    population with its digits in groups of three separated by spaces, or
    an en dash when the population is NaN.  A float is the rational it
    stands for: [int_of] is [int(x)], [format_1f] is [f"{x:.1f}"] (the
    nearest number with one decimal, ties to the even digit), and
    [format_comma] is [f"{n:,}"].  A cell of the table may also be an
    infinity or a string ([popcell]); [int_py], [vak_txt_py] and
    [popup_html_py] return what [int()] raises for them.  [int()] on a
    string is the class [IntStr], with the ASCII reader [int_ascii] as
    its instance; both keep the limit of 4300 digits that Python 3.11
    puts on the conversion.  [Z_of_str] and [Q_of_1f] are readers of
    the texts that the script writes, against which the formats are
    stated. *)

From Stdlib Require Import List NArith ZArith QArith Qabs Lia Bool ZifyBool ZifyN.
From S2P Require Import Prelude Unicode Report.
Import ListNotations.

(** ** Integers with grouped digits *)

(** [int(x)]: truncation toward zero. *)
Definition int_of (x : Q) : Z := Z.quot (Qnum x) (Zpos (Qden x)).

Definition COMMA : codepoint := 44%N.

Definition not_comma (c : codepoint) : bool := negb (c =? COMMA)%N.

Definition not_blank (c : codepoint) : bool := negb (c =? SPACE)%N.

(** The digits from the last to the first, a comma after every third;
    [n] digits have been written since the last comma. *)
Fixpoint group_rev (n : nat) (ds : ustring) : ustring :=
  match ds with
  | [] => []
  | d :: ds' =>
    match n with
    | 3%nat => COMMA :: d :: group_rev 1%nat ds'
    | _ => d :: group_rev (S n) ds'
    end
  end.

Definition group3 (ds : ustring) : ustring := rev (group_rev 0%nat (rev ds)).

(** [f"{z:,}"]. *)
Definition format_comma (z : Z) : ustring :=
  match z with
  | Zneg p => u "-" ++ group3 (str_N (Npos p))
  | _ => group3 (str_N (Z.to_N z))
  end.

(** Line 88. *)
Definition vak_txt (vakiluku : option Q) : ustring :=
  match vakiluku with
  | Some v => replace COMMA (u " ") (format_comma (int_of v))
  | None => u "–"
  end.

(** ** One decimal *)

(** The integer nearest to [x], the even one of the two when [x] is half
    way between them. *)
Definition round_half_even (x : Q) : Z :=
  let a := Qnum x in
  let b := Zpos (Qden x) in
  let f := (a / b)%Z in
  let r := (a mod b)%Z in
  match (2 * r ?= b)%Z with
  | Lt => f
  | Gt => (f + 1)%Z
  | Eq => if Z.even f then f else (f + 1)%Z
  end.

(** [f"{x:.1f}"]: sign, integer part, point, one digit. *)
Definition format_1f (x : Q) : ustring :=
  let n := round_half_even (Qabs x * 10) in
  (if (Qnum x <? 0)%Z then u "-" else [])
  ++ str_N (Z.to_N (n / 10)%Z) ++ u "." ++ str_N (Z.to_N (n mod 10)%Z).

(** ** The popup *)

Definition EN_DASH : codepoint := 8211%N.

(** The characters of a written integer. *)
Definition int_char (c : codepoint) : bool := is_digit c || (c =? 45)%N.

(** Lines 85-92: the HTML passed to [folium.Popup]. *)
Definition popup_html (name : pyval) (ala : Q) (vakiluku : option Q) : ustring :=
  let kunta := py_str name in
  u "<b>" ++ kunta ++ u "</b><br>Pinta-ala: " ++ format_1f ala
  ++ u " km²<br>Väkiluku: " ++ vak_txt vakiluku.

(** ** The cells of the column "Väkiluku"

    [pd.read_csv] reads a column whose cells are numbers or empty as
    floats, with NaN for the empty cells and an infinity for the text
    "inf"; when some cell is not a number it leaves the column as text,
    every cell a string but the empty ones, which are NaN.  A cell that
    is not NaN is a [popcell]. *)
Inductive popcell : Type :=
| Finite (q : Q)
| Infinite (negative : bool)
| Text (s : ustring).

(** What [int()] raises on line 88: [OverflowError] for an infinity,
    [ValueError] for a string that is not the writing of an integer or
    that has more digits than the interpreter converts. *)
Inductive int_error : Type :=
| OverflowError
| InvalidLiteral (s : ustring).

(** The longest decimal writing that Python 3.11 converts to or from an
    integer ([sys.int_info.default_max_str_digits]); the sign and the
    underscores are not counted. *)
Definition MAX_STR_DIGITS : N := 4300.

(** The number of decimal digits of an integer. *)
Definition digits_of (z : Z) : N := N.of_nat (length (str_N (Z.abs_N z))).

(** [int()] of a string accepts the decimal digits of every script of
    Unicode.  What the script needs of it is the class [IntStr]: the
    string that [str()] writes for an integer within the limit is read
    back as that integer, and an integer that is read is within the
    limit, so that the format of line 88 can write it. *)
Class IntStr : Type := {
  int_str : ustring -> option Z;
  int_str_str_Z : forall z, (digits_of z <= MAX_STR_DIGITS)%N -> int_str (str_Z z) = Some z;
  int_str_digits : forall s z, int_str s = Some z -> (digits_of z <= MAX_STR_DIGITS)%N
}.

Section Cells.
Context `{IntStr}.

(** [int(x)] on a cell. *)
Definition int_py (x : popcell) : result int_error Z :=
  match x with
  | Finite q => Ok (int_of q)
  | Infinite _ => Err OverflowError
  | Text s =>
    match int_str s with
    | Some z => Ok z
    | None => Err (InvalidLiteral s)
    end
  end.

(** Line 88 on such a cell. *)
Definition vak_txt_py (vakiluku : option popcell) : result int_error ustring :=
  match vakiluku with
  | Some v => res_map (fun z => replace COMMA (u " ") (format_comma z)) (int_py v)
  | None => Ok (u "–")
  end.

(** Lines 85-92 on such a cell. *)
Definition popup_html_py (name : pyval) (ala : Q) (vakiluku : option popcell)
  : result int_error ustring :=
  let kunta := py_str name in
  res_map
    (fun vak_txt =>
       u "<b>" ++ kunta ++ u "</b><br>Pinta-ala: " ++ format_1f ala
       ++ u " km²<br>Väkiluku: " ++ vak_txt)
    (vak_txt_py vakiluku).

(** The cell as a rational or NaN, when [int()] accepts it: the number
    itself, or the integer that the text writes. *)
Definition finite (v : option popcell) : result int_error (option Q) :=
  match v with
  | None => Ok None
  | Some (Finite q) => Ok (Some q)
  | Some (Infinite _) => Err OverflowError
  | Some (Text s) =>
    match int_str s with
    | Some z => Ok (Some (inject_Z z))
    | None => Err (InvalidLiteral s)
    end
  end.

End Cells.

(** ** [int()] on ASCII strings

    White space at both ends is dropped; then come an optional sign and
    decimal digits, with single underscores allowed between digits, and
    at most [MAX_STR_DIGITS] digits in all. *)

Definition UNDERSCORE : codepoint := 95%N.

(** The digits of [s] without the underscores, when the underscores of
    [s] stand between digits; [after_digit] says that the character
    before [s] is a digit. *)
Fixpoint int_digits (after_digit : bool) (s : ustring) : option ustring :=
  match s with
  | [] => if after_digit then Some [] else None
  | c :: s' =>
    if is_digit c then option_map (cons c) (int_digits true s')
    else if (c =? UNDERSCORE)%N && after_digit then int_digits false s'
    else None
  end.

Definition int_unsigned (s : ustring) : option Z :=
  match int_digits false s with
  | Some ds =>
    if (N.of_nat (length ds) <=? MAX_STR_DIGITS)%N
    then option_map Z.of_N (N_of_str ds)
    else None
  | None => None
  end.

Definition int_ascii (s : ustring) : option Z :=
  match strip s with
  | [] => None
  | c :: s' =>
    if (c =? 45)%N then option_map Z.opp (int_unsigned s')
    else if (c =? 43)%N then int_unsigned s'
    else int_unsigned (c :: s')
  end.

(** Reading a written integer back: an optional minus sign and
    digits. *)
Definition Z_of_str (s : ustring) : option Z :=
  match s with
  | 45%N :: s' => option_map (fun n => (- Z.of_N n)%Z) (N_of_str s')
  | _ => option_map Z.of_N (N_of_str s)
  end.

(** Reading a number written with one decimal back: an optional minus
    sign, digits, a point and one digit. *)
Definition POINT : codepoint := 46%N.

Definition Q_of_1f (s : ustring) : option Q :=
  let neg := match s with c :: _ => (c =? 45)%N | [] => false end in
  let body := if neg then tl s else s in
  match rev body with
  | d :: p :: ip =>
    if (p =? POINT)%N then
      match N_of_str (rev ip), N_of_str [d] with
      | Some i, Some f =>
        let q := (Z.of_N i * 10 + Z.of_N f)%Z # 10 in
        Some (if neg then - q else q)
      | _, _ => None
      end
    else None
  | _ => None
  end.

(** ** Lemmas on grouping *)

Lemma group_rev_filter n ds :
  forallb not_comma ds = true -> filter not_comma (group_rev n ds) = ds.
Proof.
  revert n. induction ds as [|d ds IH]; intros n; [reflexivity|].
  simpl. intros [Hd Hds]%andb_true_iff.
  destruct n as [|[|[|[|n]]]]; simpl; rewrite ?Hd, IH; auto.
Qed.

Lemma group_rev_length n ds :
  (n <= 3)%nat ->
  length (group_rev n ds) = (length ds + (length ds + n - 1) / 3)%nat.
Proof.
  revert n. induction ds as [|d ds IH]; intros n Hn.
  - simpl. destruct n as [|[|[|[|n]]]]; simpl; lia.
  - destruct n as [|[|[|[|n]]]]; cbn [group_rev length]; rewrite ?IH by lia;
      try lia.
    + replace (S (length ds) + 0 - 1)%nat with (length ds) by lia.
      replace (length ds + 1 - 1)%nat with (length ds) by lia. lia.
    + replace (S (length ds) + 1 - 1)%nat with (length ds + 2 - 1)%nat by lia. lia.
    + replace (S (length ds) + 2 - 1)%nat with (length ds + 3 - 1)%nat by lia. lia.
    + replace (S (length ds) + 3 - 1)%nat with (length ds + 1 * 3)%nat by lia.
      rewrite Nat.div_add by lia.
      replace (length ds + 1 - 1)%nat with (length ds) by lia. lia.
Qed.

Lemma digit_not_comma c : is_digit c = true -> not_comma c = true.
Proof.
  unfold is_digit, not_comma, COMMA. intros H.
  apply negb_true_iff, N.eqb_neq. intros ->. discriminate H.
Qed.

Lemma digits_no_comma ds : forallb is_digit ds = true -> forallb not_comma ds = true.
Proof.
  rewrite !forallb_forall. intros H c Hc. now apply digit_not_comma, H.
Qed.

Lemma group3_filter ds :
  forallb not_comma ds = true -> filter not_comma (group3 ds) = ds.
Proof.
  intros H. unfold group3.
  rewrite filter_rev, group_rev_filter, rev_involutive; [reflexivity|].
  now rewrite forallb_rev.
Qed.

Lemma group3_no_blank ds :
  forallb is_digit ds = true -> forallb not_blank (group3 ds) = true.
Proof.
  intros H. unfold group3. rewrite forallb_rev.
  assert (G : forall n l, forallb is_digit l = true ->
                          forallb not_blank (group_rev n l) = true).
  { intros n l. revert n. induction l as [|d l IH]; intros n; [reflexivity|].
    simpl. intros [Hd Hl]%andb_true_iff.
    assert (Hb : not_blank d = true).
    { unfold is_digit, not_blank, SPACE in *. apply negb_true_iff, N.eqb_neq.
      intros ->. discriminate Hd. }
    destruct n as [|[|[|[|n]]]]; simpl; rewrite Hb, IH; auto. }
  apply G. now rewrite forallb_rev.
Qed.

Lemma replace_comma_filter s :
  forallb not_blank s = true ->
  filter not_blank (replace COMMA (u " ") s) = filter not_comma s.
Proof.
  induction s as [|c s IH]; [reflexivity|]. simpl. intros [Hc Hs]%andb_true_iff.
  unfold replace in *. simpl. unfold not_comma at 1.
  destruct (N.eqb_spec c COMMA) as [->|Hne]; simpl; [now apply IH|].
  rewrite Hc. f_equal. now apply IH.
Qed.

Lemma format_comma_no_blank z : forallb not_blank (format_comma z) = true.
Proof.
  destruct z; cbv beta iota delta [format_comma];
    rewrite ?forallb_app, group3_no_blank by apply str_N_digits; reflexivity.
Qed.

Lemma format_comma_digits z : filter not_comma (format_comma z) = str_Z z.
Proof.
  destruct z as [|p|p]; [reflexivity| |]; cbv beta iota delta [format_comma];
    rewrite ?filter_app, group3_filter by apply digits_no_comma, str_N_digits;
    reflexivity.
Qed.

Lemma grouped_filter z :
  filter not_blank (replace COMMA (u " ") (format_comma z)) = str_Z z.
Proof.
  rewrite replace_comma_filter by apply format_comma_no_blank.
  apply format_comma_digits.
Qed.

Lemma int_of_inject_Z z : int_of (inject_Z z) = z.
Proof. unfold int_of. simpl. apply Z.quot_1_r. Qed.

Section CellLemmas.
Context `{IntStr}.

Lemma vak_txt_py_finite v : vak_txt_py v = res_map vak_txt (finite v).
Proof.
  destruct v as [[q|b|s]|]; try reflexivity.
  simpl. destruct (int_str s); [|reflexivity].
  simpl. now rewrite int_of_inject_Z.
Qed.

Lemma popup_html_py_finite name ala v :
  popup_html_py name ala v = res_map (popup_html name ala) (finite v).
Proof. unfold popup_html_py. rewrite vak_txt_py_finite. now destruct (finite v). Qed.

Lemma finite_Finite (v : option Q) : finite (option_map Finite v) = Ok v.
Proof. now destruct v. Qed.

Lemma finite_Some_Err x e : finite (Some x) = Err e <-> int_py x = Err e.
Proof.
  destruct x as [q|b|s]; simpl; [split; congruence..|].
  destruct (int_str s); split; congruence.
Qed.

(** [finite] fails exactly where [int()] raises. *)
Lemma finite_Err_iff v e :
  finite v = Err e <-> exists x, v = Some x /\ int_py x = Err e.
Proof.
  destruct v as [x|].
  - rewrite finite_Some_Err. split; [eauto|]. now intros (y & [= <-] & E).
  - split; [discriminate|]. now intros (x & [=] & _).
Qed.

(** [finite] succeeds exactly where [int()] returns. *)
Lemma finite_Ok_iff v :
  (exists q, finite v = Ok q) <-> forall x, v = Some x -> exists z, int_py x = Ok z.
Proof.
  destruct v as [[q|b|s]|]; simpl.
  - split; [intros _ x [= <-]; now exists (int_of q)|now exists (Some q)].
  - split; [now intros [q [=]]|]. intros Hx. now destruct (Hx _ eq_refl) as [z [=]].
  - split.
    + intros [q Hq] x [= <-]. simpl. destruct (int_str s) as [z|]; [now exists z|discriminate].
    + intros Hx. destruct (Hx _ eq_refl) as [z Hz]. simpl in Hz.
      destruct (int_str s) as [z'|]; [now exists (Some (inject_Z z'))|discriminate].
  - split; [now intros _ x [=]|now exists None].
Qed.

(** A text that writes an integer within the limit is that integer to
    [int()]. *)
Lemma int_py_Text_str_Z z :
  (digits_of z <= MAX_STR_DIGITS)%N -> int_py (Text (str_Z z)) = Ok z.
Proof. intros Hz. simpl. now rewrite int_str_str_Z. Qed.

(** What [int()] returns on a cell of text can be written by the
    format of line 88. *)
Lemma int_py_Text_digits s z :
  int_py (Text s) = Ok z -> (digits_of z <= MAX_STR_DIGITS)%N.
Proof.
  simpl. destruct (int_str s) as [z'|] eqn:E; [|discriminate].
  intros [= <-]. exact (int_str_digits s z' E).
Qed.

End CellLemmas.

Lemma str_N_head_digit n c s : str_N n = c :: s -> c <> 45%N.
Proof.
  intros E Hc. pose proof (str_N_digits n) as Hd. rewrite E in Hd.
  simpl in Hd. apply andb_true_iff in Hd as [Hd _]. subst c. discriminate Hd.
Qed.

Lemma Z_of_str_unsigned c s :
  c <> 45%N -> Z_of_str (c :: s) = option_map Z.of_N (N_of_str (c :: s)).
Proof.
  intros Hne. unfold Z_of_str. destruct c as [|p]; [reflexivity|].
  repeat (destruct p as [p|p|]; try reflexivity). now destruct Hne.
Qed.

Lemma Z_of_str_str_N n : Z_of_str (str_N n) = Some (Z.of_N n).
Proof.
  pose proof (str_N_head_digit n) as Hh. pose proof (str_N_roundtrip n) as Hr.
  destruct (str_N n) as [|c s] eqn:E; [discriminate Hr|].
  rewrite Z_of_str_unsigned by now apply (Hh c s).
  exact (f_equal (option_map Z.of_N) Hr).
Qed.

Lemma Z_of_str_str_Z z : Z_of_str (str_Z z) = Some z.
Proof.
  destruct z as [|p|p].
  - reflexivity.
  - apply (Z_of_str_str_N (Npos p)).
  - unfold str_Z. change (u "-" ++ str_N (Npos p)) with (45%N :: str_N (Npos p)).
    cbn [Z_of_str]. now rewrite str_N_roundtrip.
Qed.

Lemma str_Z_chars z : forallb int_char (str_Z z) = true.
Proof.
  assert (D : forall n, forallb int_char (str_N n) = true).
  { intros n. pose proof (str_N_digits n) as Hd. rewrite forallb_forall in *.
    intros c Hc. unfold int_char. now rewrite (Hd c Hc). }
  destruct z; simpl; [reflexivity | apply D | apply D].
Qed.

(** ** The ASCII reader satisfies the class *)

Lemma int_char_nonspace c : int_char c = true -> nonspace c = true.
Proof. unfold int_char, is_digit, nonspace, is_space. lia. Qed.

Lemma int_chars_trimmed s : forallb int_char s = true -> trimmed s = true.
Proof.
  intros Hs. unfold trimmed.
  assert (Hr : forallb int_char (rev s) = true).
  { rewrite forallb_forall in *. intros c Hc. apply Hs. now apply in_rev. }
  destruct s as [|c s]; [reflexivity|]. simpl in Hs.
  apply andb_true_iff in Hs as [Hc _]. cbn [hd_sat].
  rewrite (int_char_nonspace c Hc). cbn [andb].
  destruct (rev (c :: s)) as [|d r]; [reflexivity|]. simpl in Hr.
  apply andb_true_iff in Hr as [Hd _]. now apply int_char_nonspace.
Qed.

Lemma int_digits_digits ds :
  forallb is_digit ds = true -> int_digits true ds = Some ds.
Proof.
  induction ds as [|d ds IH]; [reflexivity|]. simpl.
  intros [Hd Hds]%andb_true_iff. now rewrite Hd, IH.
Qed.

Lemma int_unsigned_digits ds :
  forallb is_digit ds = true -> ds <> [] ->
  int_unsigned ds
  = if (N.of_nat (length ds) <=? MAX_STR_DIGITS)%N
    then option_map Z.of_N (N_of_str ds) else None.
Proof.
  intros Hd Hne. unfold int_unsigned. destruct ds as [|c s]; [congruence|].
  simpl in Hd. apply andb_true_iff in Hd as [Hc Hs].
  cbn [int_digits]. now rewrite Hc, (int_digits_digits s Hs).
Qed.

Lemma int_unsigned_str_N n :
  (N.of_nat (length (str_N n)) <= MAX_STR_DIGITS)%N ->
  int_unsigned (str_N n) = Some (Z.of_N n).
Proof.
  intros Hn. rewrite int_unsigned_digits by (apply str_N_digits || apply str_N_not_nil).
  rewrite (proj2 (N.leb_le _ _) Hn), str_N_roundtrip. reflexivity.
Qed.

Lemma int_ascii_str_Z z :
  (digits_of z <= MAX_STR_DIGITS)%N -> int_ascii (str_Z z) = Some z.
Proof.
  intros Hz. unfold int_ascii. rewrite (trimmed_strip (str_Z z))
    by apply int_chars_trimmed, str_Z_chars.
  destruct z as [|p|p].
  - reflexivity.
  - pose proof (int_unsigned_str_N (Npos p) Hz) as Hu.
    pose proof (str_N_digits (Npos p)) as Hd. unfold str_Z.
    destruct (str_N (Npos p)) as [|c s] eqn:E; [discriminate Hu|].
    simpl in Hd. apply andb_true_iff in Hd as [Hc _].
    unfold is_digit in Hc. apply andb_true_iff in Hc as [H1 H2].
    apply N.leb_le in H1, H2.
    destruct (N.eqb_spec c 45); [lia|]. destruct (N.eqb_spec c 43); [lia|].
    exact Hu.
  - unfold str_Z. change (u "-" ++ str_N (Npos p)) with (45%N :: str_N (Npos p)).
    cbn [N.eqb Pos.eqb]. now rewrite (int_unsigned_str_N (Npos p) Hz).
Qed.

(** An integer that is read has no more digits than the limit. *)
Lemma int_unsigned_limit s z :
  int_unsigned s = Some z -> (0 <= z)%Z /\ (digits_of z <= MAX_STR_DIGITS)%N.
Proof.
  unfold int_unsigned. destruct (int_digits false s) as [ds|]; [|discriminate].
  destruct (N.leb_spec (N.of_nat (length ds)) MAX_STR_DIGITS) as [Hl|]; [|discriminate].
  destruct (N_of_str ds) as [n|] eqn:E; [|discriminate]. intros [= <-].
  split; [lia|]. unfold digits_of. rewrite Zabs2N.id.
  pose proof (N_of_str_length ds n E). lia.
Qed.

Lemma digits_of_opp z : digits_of (- z) = digits_of z.
Proof. unfold digits_of. now rewrite Zabs2N.inj_opp. Qed.

Lemma int_ascii_limit s z : int_ascii s = Some z -> (digits_of z <= MAX_STR_DIGITS)%N.
Proof.
  unfold int_ascii. destruct (strip s) as [|c s']; [discriminate|].
  destruct (c =? 45)%N; [|destruct (c =? 43)%N]; try (now intros [_ H]%int_unsigned_limit).
  destruct (int_unsigned s') as [z'|] eqn:E; [|discriminate].
  intros [= <-]. rewrite digits_of_opp. now apply (int_unsigned_limit s').
Qed.

#[export] Instance ascii_int : IntStr :=
  {| int_str := int_ascii; int_str_str_Z := int_ascii_str_Z;
     int_str_digits := int_ascii_limit |}.

(** ** Reading the population text back

    [int()] reads the text of line 88 back when the number has at most
    three digits; from 1000 on the text has a blank between its groups,
    which [int()] does not accept. *)

Lemma group3_short ds : (length ds <= 3)%nat -> group3 ds = ds.
Proof. destruct ds as [|a [|b [|c [|d ds]]]]; simpl; [reflexivity..|lia]. Qed.

(** Four digits or more are written with a separator. *)
Lemma group3_comma ds :
  forallb is_digit ds = true -> (4 <= length ds)%nat -> In COMMA (group3 ds).
Proof.
  intros Hd Hl. destruct (in_dec N.eq_dec COMMA (group3 ds)) as [|Hn]; [assumption|].
  exfalso. pose proof (group3_filter ds (digits_no_comma ds Hd)) as Hf.
  pose proof (group_rev_length 0 (rev ds) ltac:(lia)) as Hg.
  assert (Hall : forallb not_comma (group3 ds) = true).
  { apply forallb_forall. intros c Hc. apply negb_true_iff, N.eqb_neq.
    intros ->. exact (Hn Hc). }
  rewrite (forallb_filter_id not_comma (group3 ds) Hall) in Hf.
  apply (f_equal (@length _)) in Hf. unfold group3 in Hf.
  rewrite length_rev, Hg, length_rev, Nat.add_0_r in Hf.
  assert (1 <= (length ds - 1) / 3)%nat by (apply Nat.div_le_lower_bound; lia). lia.
Qed.

(** The first character of a grouped number is a digit, and so is the
    last. *)
Lemma group_rev_last n l :
  forallb is_digit l = true -> hd_sat is_digit (rev (group_rev n l)) = true.
Proof.
  revert n. induction l as [|d l IH]; intros n; [reflexivity|].
  cbn [forallb]. intros [Hd Hl]%andb_true_iff.
  destruct n as [|[|[|[|n]]]]; cbn [group_rev rev]; rewrite <- ?app_assoc;
    apply hd_sat_snoc; auto.
Qed.

Lemma group_rev_hd l :
  forallb is_digit l = true -> hd_sat is_digit (group_rev 0 l) = true.
Proof.
  destruct l; [reflexivity|]. cbn [forallb group_rev hd_sat].
  now intros [? _]%andb_true_iff.
Qed.

Lemma group3_ends ds :
  forallb is_digit ds = true ->
  hd_sat is_digit (group3 ds) = true /\ hd_sat is_digit (rev (group3 ds)) = true.
Proof.
  intros Hd. unfold group3. rewrite rev_involutive.
  split; [apply group_rev_last|apply group_rev_hd]; now rewrite forallb_rev.
Qed.

Lemma is_digit_int_char c : is_digit c = true -> int_char c = true.
Proof. unfold int_char. now intros ->. Qed.

Lemma int_char_not_comma c : int_char c = true -> (c =? COMMA)%N = false.
Proof. unfold int_char, is_digit, COMMA. lia. Qed.

Lemma group3_not_nil ds : ds <> [] -> group3 ds <> [].
Proof.
  intros Hne E. apply (f_equal (@rev _)) in E. unfold group3 in E.
  rewrite rev_involutive in E. destruct (rev ds) eqn:Er; [|discriminate E].
  apply (f_equal (@rev _)) in Er. rewrite rev_involutive in Er. now apply Hne.
Qed.

Lemma format_comma_ends z :
  hd_sat int_char (format_comma z) = true /\ hd_sat int_char (rev (format_comma z)) = true.
Proof.
  assert (G : forall n, hd_sat int_char (group3 (str_N n)) = true
                        /\ hd_sat int_char (rev (group3 (str_N n))) = true).
  { intros n. destruct (group3_ends (str_N n) (str_N_digits n)).
    split; apply (hd_sat_impl is_digit int_char); auto using is_digit_int_char. }
  destruct z as [|p|p]; cbv beta iota delta [format_comma]; try apply G.
  split; [reflexivity|]. rewrite rev_app_distr, hd_sat_app; [apply G|].
  intros E. apply (f_equal (@rev _)) in E. rewrite rev_involutive in E.
  now apply (group3_not_nil (str_N (Npos p)) (str_N_not_nil _)).
Qed.

(** Replacing the separator keeps the ends of the text. *)
Lemma hd_sat_flat_map (f : codepoint -> ustring) t :
  (forall c, int_char c = true -> f c = [c]) ->
  hd_sat int_char t = true -> hd_sat nonspace (flat_map f t) = true.
Proof.
  intros Hf. destruct t as [|c t]; [reflexivity|]. cbn [hd_sat flat_map].
  intros Hc. rewrite (Hf c Hc). now apply int_char_nonspace.
Qed.

Lemma vak_txt_trimmed v : trimmed (vak_txt (Some v)) = true.
Proof.
  unfold vak_txt, trimmed, replace. rewrite flat_map_rev.
  destruct (format_comma_ends (int_of v)) as [Hh Hl].
  apply andb_true_iff. split; apply hd_sat_flat_map; try assumption;
    intros c Hc; now rewrite (int_char_not_comma c Hc).
Qed.

(** [int()] reads no text with a blank inside. *)
Lemma int_digits_blank b s : In SPACE s -> int_digits b s = None.
Proof.
  revert b. induction s as [|c s IH]; intros b; [intros []|].
  intros [->|Hin]; [reflexivity|]. cbn [int_digits]. rewrite !(IH _ Hin).
  now destruct (is_digit c), ((c =? UNDERSCORE)%N && b).
Qed.

Lemma int_ascii_blank s : trimmed s = true -> In SPACE s -> int_ascii s = None.
Proof.
  intros Ht Hin. unfold int_ascii. rewrite (trimmed_strip s Ht).
  destruct s as [|c s]; [reflexivity|].
  assert (Hs : In SPACE s).
  { destruct Hin as [->|Hin]; [|assumption].
    apply andb_true_iff in Ht as [Ht _]. discriminate Ht. }
  unfold int_unsigned. cbn [int_digits]. rewrite !(int_digits_blank _ s Hs).
  destruct (c =? 45)%N, (c =? 43)%N, (is_digit c), ((c =? UNDERSCORE)%N && false);
    reflexivity.
Qed.

Lemma format_comma_comma z : (1000 <= Z.abs z)%Z -> In COMMA (format_comma z).
Proof.
  intros Hz. destruct z as [|p|p]; [lia| |]; cbv beta iota delta [format_comma];
    [|apply in_or_app; right]; apply group3_comma;
    solve [apply str_N_digits | apply str_N_length_ge; lia].
Qed.

Lemma format_comma_short z : (Z.abs z < 1000)%Z -> format_comma z = str_Z z.
Proof.
  intros Hz. destruct z as [|p|p]; [reflexivity| |];
    cbv beta iota delta [format_comma str_Z];
    now rewrite group3_short by (apply str_N_length_le; lia).
Qed.

Lemma str_Z_no_comma z : ~ In COMMA (str_Z z).
Proof.
  intros Hin. pose proof (str_Z_chars z) as Hc. rewrite forallb_forall in Hc.
  apply Hc in Hin. discriminate Hin.
Qed.

(** A population of at most three digits is written as [str()] writes
    it. *)
Lemma vak_txt_short v :
  (Z.abs (int_of v) < 1000)%Z -> vak_txt (Some v) = str_Z (int_of v).
Proof.
  intros Hz. unfold vak_txt. rewrite (format_comma_short _ Hz).
  apply replace_absent, str_Z_no_comma.
Qed.

Lemma vak_txt_no_dash v : ~ In EN_DASH (vak_txt (Some v)).
Proof.
  intros Hin.
  assert (Hf : In EN_DASH (filter not_blank (vak_txt (Some v))))
    by (apply filter_In; split; [exact Hin | reflexivity]).
  unfold vak_txt in Hf. rewrite grouped_filter in Hf.
  pose proof (str_Z_chars (int_of v)) as Hc. rewrite forallb_forall in Hc.
  now apply Hc in Hf.
Qed.

Lemma vak_txt_not_nil v : vak_txt v <> [].
Proof.
  destruct v as [v|]; [|discriminate]. intros E.
  pose proof (grouped_filter (int_of v)) as Hf. unfold vak_txt in E.
  rewrite E in Hf. simpl in Hf.
  destruct (int_of v); simpl in Hf; try discriminate Hf;
    now apply (str_N_not_nil (Npos p)).
Qed.

Lemma last_app_not_nil {A} (l l' : list A) d : l' <> [] -> last (l ++ l') d = last l' d.
Proof.
  intros Hne. destruct (exists_last Hne) as (l0 & a & ->).
  now rewrite app_assoc, !last_last.
Qed.

Lemma last_In {A} (l : list A) d : l <> [] -> In (last l d) l.
Proof.
  intros Hne. destruct (exists_last Hne) as (l0 & a & ->).
  rewrite last_last. apply in_or_app. right. now left.
Qed.

Lemma popup_html_last name ala v :
  last (popup_html name ala v) 0%N = last (vak_txt v) 0%N.
Proof.
  unfold popup_html. now rewrite !app_assoc, last_app_not_nil by apply vak_txt_not_nil.
Qed.

Lemma vak_txt_last_dash v : last (vak_txt v) 0%N = EN_DASH <-> v = None.
Proof.
  split; [|now intros ->]. destruct v as [v|]; [|reflexivity]. intros E.
  destruct (vak_txt_no_dash v). rewrite <- E. apply last_In, vak_txt_not_nil.
Qed.

(** ** Lemmas on rounding *)

Lemma round_half_even_num x :
  (2 * Z.abs (Qnum x - round_half_even x * Zpos (Qden x)) <= Zpos (Qden x))%Z.
Proof.
  unfold round_half_even.
  pose proof (Z.div_mod (Qnum x) (Zpos (Qden x)) ltac:(lia)) as Hdm.
  pose proof (Z.mod_pos_bound (Qnum x) (Zpos (Qden x)) ltac:(lia)) as Hr.
  destruct (Z.compare_spec (2 * (Qnum x mod Z.pos (Qden x))) (Z.pos (Qden x)));
    [destruct (Z.even _)|..]; nia.
Qed.

Lemma quot_nonneg a b : (0 <= a -> 0 < b -> b * (a ÷ b) <= a < b * (a ÷ b) + b)%Z.
Proof.
  intros Ha Hb. rewrite Z.quot_div_nonneg by lia.
  pose proof (Z.div_mod a b ltac:(lia)). pose proof (Z.mod_pos_bound a b Hb). lia.
Qed.

Lemma quot_nonpos a b : (a <= 0 -> 0 < b -> b * (a ÷ b) - b < a <= b * (a ÷ b))%Z.
Proof.
  intros Ha Hb. pose proof (quot_nonneg (- a) b ltac:(lia) Hb) as H.
  rewrite Z.quot_opp_l in H by lia. lia.
Qed.

Lemma str_N_one_digit k :
  (0 <= k < 10)%Z -> exists d, str_N (Z.to_N k) = [d] /\ is_digit d = true.
Proof.
  intros Hk.
  assert (H : (k = 0 \/ k = 1 \/ k = 2 \/ k = 3 \/ k = 4 \/ k = 5 \/ k = 6
               \/ k = 7 \/ k = 8 \/ k = 9)%Z) by lia.
  repeat destruct H as [->|H]; try subst k; eexists; split; reflexivity.
Qed.

(** ** Reading the area text back *)

Lemma round_half_even_nonneg x : 0 <= x -> (0 <= round_half_even x)%Z.
Proof.
  destruct x as [a b]. unfold Qle, round_half_even. cbn [Qnum Qden]. intros Ha.
  pose proof (Z.div_pos a (Zpos b) ltac:(lia) ltac:(lia)).
  destruct (_ ?= _)%Z; [destruct (Z.even _)|..]; lia.
Qed.

Lemma Q_of_1f_digits (neg : bool) (n : Z) :
  (0 <= n)%Z ->
  Q_of_1f ((if neg then u "-" else [] : ustring)
           ++ str_N (Z.to_N (n / 10)) ++ u "." ++ str_N (Z.to_N (n mod 10)))
  = Some (if neg then - (n # 10) else n # 10).
Proof.
  intros Hn.
  destruct (str_N_one_digit (n mod 10)) as (d & Hd & _); [apply Z.mod_pos_bound; lia|].
  pose proof (str_N_roundtrip (Z.to_N (n mod 10))) as Hf. rewrite Hd in Hf.
  pose proof (str_N_roundtrip (Z.to_N (n / 10))) as Hi.
  pose proof (str_N_head_digit (Z.to_N (n / 10))) as Hh.
  pose proof (Z.div_pos n 10 Hn ltac:(lia)) as Hq.
  pose proof (Z.mod_pos_bound n 10 ltac:(lia)) as Hr.
  pose proof (Z.div_mod n 10 ltac:(lia)) as Hdm.
  rewrite Hd. unfold Q_of_1f.
  assert (Hbody : rev (str_N (Z.to_N (n / 10)) ++ u "." ++ [d])
                  = d :: POINT :: rev (str_N (Z.to_N (n / 10)))).
  { rewrite !rev_app_distr. reflexivity. }
  assert (Hval : ((Z.of_N (Z.to_N (n / 10)) * 10 + Z.of_N (Z.to_N (n mod 10))) = n)%Z)
    by (rewrite !Z2N.id by lia; lia).
  destruct neg.
  - change (u "-" ++ ?s) with (45%N :: s). cbn [N.eqb Pos.eqb tl].
    rewrite Hbody, N.eqb_refl, rev_involutive, Hi, Hf. cbv zeta. now rewrite Hval.
  - cbn [app]. destruct (str_N (Z.to_N (n / 10))) as [|c s] eqn:E; [discriminate Hi|].
    cbn [app]. rewrite (proj2 (N.eqb_neq c 45) (Hh c s eq_refl)).
    change (c :: s ++ u "." ++ [d]) with ((c :: s) ++ u "." ++ [d]).
    rewrite <- E in *. rewrite Hbody, N.eqb_refl, rev_involutive, Hi, Hf. cbv zeta.
    now rewrite Hval.
Qed.

Lemma round_half_even_far x :
  (2 * Z.abs (Qnum x - round_half_even x * Zpos (Qden x)) = Zpos (Qden x))%Z ->
  Z.even (round_half_even x) = true.
Proof.
  unfold round_half_even.
  pose proof (Z.div_mod (Qnum x) (Zpos (Qden x)) ltac:(lia)) as Hdm.
  pose proof (Z.mod_pos_bound (Qnum x) (Zpos (Qden x)) ltac:(lia)) as Hr.
  destruct (Z.compare_spec (2 * (Qnum x mod Z.pos (Qden x))) (Z.pos (Qden x)));
    [|intros; exfalso; nia..].
  intros _. destruct (Z.even (Qnum x / Z.pos (Qden x))) eqn:Ev; [exact Ev|].
  rewrite Z.even_add, Ev. reflexivity.
Qed.

Lemma format_1f_read x :
  Q_of_1f (format_1f x)
  = Some ((if (Qnum x <? 0)%Z then - round_half_even (Qabs x * 10)
           else round_half_even (Qabs x * 10))%Z # 10).
Proof.
  unfold format_1f.
  rewrite (Q_of_1f_digits (Qnum x <? 0)%Z (round_half_even (Qabs x * 10))).
  - now destruct (Qnum x <? 0)%Z.
  - apply round_half_even_nonneg.
    apply Qmult_le_0_compat; [apply Qabs_nonneg|discriminate].
Qed.

(** ** Theorems *)

(** A number of n digits is written with (n - 1) / 3 separators. *)
Theorem group3_length ds :
  length (group3 ds) = (length ds + (length ds - 1) / 3)%nat.
Proof.
  unfold group3. rewrite length_rev, group_rev_length, length_rev by lia.
  now rewrite Nat.add_0_r.
Qed.

(** The population shown in a popup is the integer part of the
    value: without its separating spaces the text is [str(int(v))]. *)
Theorem vak_txt_digits v :
  filter not_blank (vak_txt (Some v)) = str_Z (int_of v).
Proof. apply grouped_filter. Qed.

(** C40: the population shown in a popup reads back as the integer
    part of the value: without its separating spaces the text is a
    written integer, and that integer is [int(v)]. *)
Theorem vak_txt_roundtrip v :
  Z_of_str (filter not_blank (vak_txt (Some v))) = Some (int_of v).
Proof.
  unfold vak_txt. rewrite grouped_filter.
  apply Z_of_str_str_Z.
Qed.

(** C37: [int()] reads the population text of a popup back exactly when
    the population has at most three digits: from 1000 on the text has
    a blank between its groups, which [int()] rejects.  A table that
    holds populations as the popups show them makes line 88 raise. *)
Theorem vak_txt_int_ascii v :
  int_ascii (vak_txt (Some v))
  = if (Z.abs (int_of v) <? 1000)%Z then Some (int_of v) else None.
Proof.
  destruct (Z.ltb_spec (Z.abs (int_of v)) 1000) as [Hlt|Hge].
  - rewrite (vak_txt_short v Hlt). apply int_ascii_str_Z.
    pose proof (str_N_length_le (Z.abs_N (int_of v)) ltac:(lia)).
    unfold digits_of, MAX_STR_DIGITS. lia.
  - apply int_ascii_blank; [apply vak_txt_trimmed|]. unfold vak_txt.
    apply replace_In; [now apply format_comma_comma|now left].
Qed.

(** A popup ends with the en dash exactly when the row has no
    population. *)
Theorem popup_html_dash_iff name ala v :
  last (popup_html name ala v) 0%N = EN_DASH <-> v = None.
Proof. rewrite popup_html_last. apply vak_txt_last_dash. Qed.

(** [int(x)] truncates toward zero: it lies between zero and [x]
    and is less than one away from [x]. *)
Theorem int_of_toward_zero x :
  (0 <= x -> inject_Z (int_of x) <= x /\ x < inject_Z (int_of x) + 1) /\
  (x <= 0 -> x <= inject_Z (int_of x) /\ inject_Z (int_of x) - 1 < x).
Proof.
  destruct x as [a b]. unfold int_of, Qle, Qlt, Qminus, Qplus, Qopp, inject_Z.
  cbn [Qnum Qden]. rewrite ?Pos.mul_1_r. split; intros Ha.
  - pose proof (quot_nonneg a (Zpos b) ltac:(lia) ltac:(lia)). lia.
  - pose proof (quot_nonpos a (Zpos b) ltac:(lia) ltac:(lia)). lia.
Qed.

(** C39: the integer chosen by the rounding is at most one half away
    from the number. *)
Theorem round_half_even_error x :
  Qabs (x - inject_Z (round_half_even x)) <= 1 # 2.
Proof.
  pose proof (round_half_even_num x) as H.
  apply Qabs_Qle_condition. destruct x as [a b]. cbn [Qnum Qden] in H.
  unfold Qle, Qminus, Qplus, Qopp, inject_Z. cbn [Qnum Qden].
  rewrite ?Pos.mul_1_r. split; lia.
Qed.

(** C38: the area text reads back as a number with one decimal that is at
    most one twentieth away from the area, and whose last digit is even
    when the area is exactly half way between two such numbers. *)
Theorem format_1f_roundtrip x :
  exists n : Z,
    Q_of_1f (format_1f x) = Some (n # 10)
    /\ Qabs (x - (n # 10)) <= 1 # 20
    /\ (Qabs (x - (n # 10)) == 1 # 20 -> Z.even n = true).
Proof.
  eexists. split; [apply format_1f_read|].
  pose proof (round_half_even_num (Qabs x * 10)) as H.
  pose proof (round_half_even_far (Qabs x * 10)) as Hfar.
  set (r := round_half_even (Qabs x * 10)) in *.
  destruct x as [a b]. unfold Qabs, Qmult in H, Hfar. cbn [Qnum Qden] in H, Hfar.
  rewrite Pos.mul_1_r in H, Hfar. cbn [Qnum].
  split.
  - apply Qabs_Qle_condition.
    destruct (Z.ltb_spec a 0); unfold Qle, Qminus, Qplus, Qopp; cbn [Qnum Qden];
      split; lia.
  - destruct (Z.ltb_spec a 0); rewrite ?Z.even_opp; intros E; apply Hfar;
      unfold Qeq, Qabs, Qminus, Qplus, Qopp in E; cbn [Qnum Qden] in E; lia.
Qed.

(** A number half way between two integers is rounded to the even
    one. *)
Theorem round_half_even_tie x :
  (2 * (Qnum x mod Zpos (Qden x)) = Zpos (Qden x))%Z ->
  Z.even (round_half_even x) = true.
Proof.
  intros E. unfold round_half_even. rewrite E, Z.compare_refl.
  destruct (Z.even (Qnum x / Z.pos (Qden x))) eqn:Ev; [exact Ev|].
  rewrite Z.even_add, Ev. reflexivity.
Qed.

(** The area is written with exactly one digit after the
    point. *)
Theorem format_1f_one_decimal x :
  exists ip d, format_1f x = ip ++ u "." ++ [d] /\ is_digit d = true.
Proof.
  unfold format_1f.
  destruct (str_N_one_digit (round_half_even (Qabs x * 10) mod 10))
    as (d & -> & Hd); [apply Z.mod_pos_bound; lia|].
  eexists _, d. split; [|exact Hd]. now rewrite app_assoc.
Qed.

(** An area that rounds to zero from below keeps its sign, as
    Python's format does. *)
Theorem format_1f_negative_zero : format_1f (- 1 # 100) = u "-0.0".
Proof. reflexivity. Qed.

(** A popup on concrete values: the area is rounded to the even
    digit at a tie, the population is truncated and grouped by threes. *)
Theorem popup_html_example :
  popup_html (PStr (u "Espoo")) (625 # 2) (Some (3140159 # 10))
  = u "<b>Espoo</b><br>Pinta-ala: 312.5 km²<br>Väkiluku: 314 015"
  /\ format_1f (25 # 100) = u "0.2"
  /\ vak_txt (Some (- 12345678 # 1)) = u "-12 345 678"
  /\ vak_txt None = u "–".
Proof. repeat split; vm_compute; reflexivity. Qed.

(** ** Witnesses *)

(** The limit on the digits of a string: 4300 digits are read, leading
    zeros included, and 4301 are not. *)
Example int_ascii_limit_example :
  int_ascii (repeat 48%N 4300) = Some 0%Z
  /\ int_ascii (repeat 48%N 4301) = None
  /\ int_ascii (u "-" ++ repeat 57%N 4301) = None.
Proof. vm_compute. repeat split. Qed.

Lemma round_half_even_tie_witness :
  Z.even (round_half_even (5 # 2)) = true /\ round_half_even (5 # 2) = 2%Z.
Proof. split; [apply (round_half_even_tie (5 # 2)); reflexivity | reflexivity]. Defined.

(** [int()] on strings: blanks at the ends, a sign and single
    underscores between digits are accepted; a point, a doubled
    underscore and a blank between the digits are not, so the text
    that the script writes in a popup for a population of four digits
    or more is not read back by [int()]. *)
Example int_ascii_examples :
  int_ascii (u " 1_000 ") = Some 1000%Z
  /\ int_ascii (u "+7") = Some 7%Z
  /\ int_ascii (u "-12") = Some (-12)%Z
  /\ int_ascii (u "007") = Some 7%Z
  /\ int_ascii (u "1__0") = None
  /\ int_ascii (u "12.0") = None
  /\ int_ascii (u "") = None
  /\ int_ascii (vak_txt (Some (inject_Z 658864))) = None.
Proof. vm_compute. repeat split. Qed.
