(* ===== verification/Geometry.v ===== *)
(** * Areas and coordinate systems (main.py 45-49, 82)

    The script reprojects the boundaries to ETRS-TM35FIN (EPSG:3067, metres),
    stores the area of every boundary in square kilometres, and reprojects
    the frame to WGS84 (EPSG:4326) for the map.  Reprojection, area and
    the representative point are operations of the spatial library: the
    class [Geometry] is what the script uses of them.  A feature of the
    file may have no geometry, or an empty one; such a geometry has no
    representative point ([has_point]), and reprojection keeps it as it
    is.  A float is the rational it stands for, so [/ 1e6] is exact. *)

From Stdlib Require Import List NArith ZArith QArith Qabs Lia Bool.
From S2P Require Import Prelude Frame.
Import ListNotations.

(** ** The spatial library *)

Record point : Type := { pt_x : Q; pt_y : Q }.

(** [has_point g] says that [g.representative_point()] has
    coordinates: [g] is neither missing nor empty.
    [representative_point g] is that point; it is read only where
    [has_point g] holds. *)
Class Geometry (G : Type) : Type := {
  to_crs : N -> G -> G;
  area : G -> Q;
  representative_point : G -> point;
  has_point : G -> bool;
  area_nonneg : forall g, 0 <= area g;
  has_point_to_crs : forall epsg g, has_point (to_crs epsg g) = has_point g
}.

Definition EPSG_TM35FIN : N := 3067.
Definition EPSG_WGS84 : N := 4326.

(** ** The frames of lines 45-49 *)

(** A row of [gdf_metric] and of [gdf]: the row read from the file and the
    column added on line 46. *)
Record area_row (G : Type) : Type := {
  base : raw_row G;
  Pinta_ala_km2 : Q
}.
Arguments base {G} _.
Arguments Pinta_ala_km2 {G} _.

Definition set_geometry {G} (r : raw_row G) (g : G) : raw_row G :=
  {| cell := cell r; geometry := g |}.

Section Frames.
Context {G : Type} `{Geometry G}.

(** [frame.to_crs(epsg=...).copy()] on rows without the added column. *)
Definition frame_to_crs (epsg : N) (rows : list (raw_row G)) : list (raw_row G) :=
  map (fun r => set_geometry r (to_crs epsg (geometry r))) rows.

(** Line 46: [gdf_metric["Pinta_ala_km2"] = gdf_metric.geometry.area / 1e6]. *)
Definition add_area (rows : list (raw_row G)) : list (area_row G) :=
  map (fun r => {| base := r; Pinta_ala_km2 := area (geometry r) / 1000000 |}) rows.

(** Lines 45-46. *)
Definition gdf_metric (gdf_raw : list (raw_row G)) : list (area_row G) :=
  add_area (frame_to_crs EPSG_TM35FIN gdf_raw).

(** Line 49: the frame of the map, its geometries in WGS84 and the other
    columns as they were. *)
Definition gdf_wgs84 (metric : list (area_row G)) : list (area_row G) :=
  map (fun r => {| base := set_geometry (base r) (to_crs EPSG_WGS84 (geometry (base r)));
                   Pinta_ala_km2 := Pinta_ala_km2 r |}) metric.

(** Lines 45-49. *)
Definition gdf_of_raw (gdf_raw : list (raw_row G)) : list (area_row G) :=
  gdf_wgs84 (gdf_metric gdf_raw).

End Frames.

(** ** An instance: boxes in the plane

    A box with its lower left corner, width and height; reprojection to
    metres scales it by the factor the box carries for the target
    system. *)

Record box : Type := { bx : Q; by_ : Q; bw : Q; bh : Q; scale : N -> Q }.

Definition box_to_crs (epsg : N) (b : box) : box :=
  let k := scale b epsg in
  {| bx := bx b * k; by_ := by_ b * k; bw := bw b * k; bh := bh b * k;
     scale := fun e => scale b e / k |}.

Definition box_area (b : box) : Q := Qabs (bw b) * Qabs (bh b).

Definition box_point (b : box) : point :=
  {| pt_x := bx b + bw b / 2; pt_y := by_ b + bh b / 2 |}.

(** ** Lemmas *)

Lemma box_area_nonneg b : 0 <= box_area b.
Proof. apply Qmult_le_0_compat; apply Qabs_nonneg. Qed.

#[export] Instance box_geometry : Geometry box :=
  {| to_crs := box_to_crs; area := box_area; representative_point := box_point;
     has_point := fun _ => true;
     area_nonneg := box_area_nonneg;
     has_point_to_crs := fun _ _ => eq_refl |}.

(** ** An instance: features that may lack a geometry

    [None] is a feature whose geometry is null.  The library computes
    no point for it; its area, which the library gives as NaN, is shown
    by no run, because the marker of the feature raises before the
    popup is used, and is taken as 0 here. *)

Section Nullable.
Context {G : Type} `{Geometry G}.

Definition null_to_crs (epsg : N) (g : option G) : option G :=
  option_map (to_crs epsg) g.

Definition null_area (g : option G) : Q :=
  match g with
  | Some g => area g
  | None => 0
  end.

Definition null_point (g : option G) : point :=
  match g with
  | Some g => representative_point g
  | None => {| pt_x := 0; pt_y := 0 |}
  end.

Definition null_has_point (g : option G) : bool :=
  match g with
  | Some g => has_point g
  | None => false
  end.

Lemma null_area_nonneg g : 0 <= null_area g.
Proof. destruct g; [apply area_nonneg|apply Qle_refl]. Qed.

Lemma null_has_point_to_crs epsg g :
  null_has_point (null_to_crs epsg g) = null_has_point g.
Proof. destruct g; [apply has_point_to_crs|reflexivity]. Qed.

#[export] Instance nullable_geometry : Geometry (option G) :=
  {| to_crs := null_to_crs; area := null_area; representative_point := null_point;
     has_point := null_has_point;
     area_nonneg := null_area_nonneg;
     has_point_to_crs := null_has_point_to_crs |}.

End Nullable.

Section FrameLemmas.
Context {G : Type} `{Geometry G}.

Lemma gdf_of_raw_map (gdf_raw : list (raw_row G)) :
  gdf_of_raw gdf_raw
  = map (fun r =>
      {| base := set_geometry r (to_crs EPSG_WGS84 (to_crs EPSG_TM35FIN (geometry r)));
         Pinta_ala_km2 := area (to_crs EPSG_TM35FIN (geometry r)) / 1000000 |}) gdf_raw.
Proof.
  unfold gdf_of_raw, gdf_wgs84, gdf_metric, add_area, frame_to_crs.
  rewrite !map_map. reflexivity.
Qed.

(** The frame of the map has a point exactly where the file has a
    geometry that is neither missing nor empty. *)
Lemma gdf_of_raw_has_point (gdf_raw : list (raw_row G)) :
  map (fun r => has_point (geometry (base r))) (gdf_of_raw gdf_raw)
  = map (fun r => has_point (geometry r)) gdf_raw.
Proof.
  rewrite gdf_of_raw_map, map_map. apply map_ext. intros r.
  cbn [base geometry set_geometry]. now rewrite !has_point_to_crs.
Qed.

Lemma gdf_of_raw_Forall_has_point (gdf_raw : list (raw_row G)) :
  Forall (fun r => has_point (geometry (base r)) = true) (gdf_of_raw gdf_raw)
  <-> forallb (fun r => has_point (geometry r)) gdf_raw = true.
Proof.
  rewrite forallb_forall, <- Forall_forall.
  rewrite <- (Forall_map (fun r => has_point (geometry (base r))) (fun b => b = true)).
  now rewrite gdf_of_raw_has_point, Forall_map.
Qed.

Lemma gdf_of_raw_length (gdf_raw : list (raw_row G)) :
  length (gdf_of_raw gdf_raw) = length gdf_raw.
Proof. rewrite gdf_of_raw_map. apply length_map. Qed.

Lemma Qdiv_nonneg (a b : Q) : 0 <= a -> 0 < b -> 0 <= a / b.
Proof.
  intros Ha Hb. unfold Qdiv. apply Qmult_le_0_compat; [exact Ha|].
  apply Qlt_le_weak, Qinv_lt_0_compat, Hb.
Qed.

End FrameLemmas.

(** ** Theorems *)

Section Theorems.
Context {G : Type} `{Geometry G}.

(** C33: the area stored for a boundary is the area of its geometry in
    the metric system EPSG:3067, in square kilometres, and not the area of
    the geometry the map shows; the cells of the row are those read from the
    file. *)
Theorem gdf_of_raw_nth (gdf_raw : list (raw_row G)) i r :
  nth_error gdf_raw i = Some r ->
  exists r', nth_error (gdf_of_raw gdf_raw) i = Some r'
    /\ Pinta_ala_km2 r' = area (to_crs EPSG_TM35FIN (geometry r)) / 1000000
    /\ geometry (base r') = to_crs EPSG_WGS84 (to_crs EPSG_TM35FIN (geometry r))
    /\ cell (base r') = cell r.
Proof.
  intros Hi. rewrite gdf_of_raw_map. eexists. split.
  - apply map_nth_error, Hi.
  - repeat split.
Qed.

(** No stored area is negative. *)
Theorem Pinta_ala_km2_nonneg (gdf_raw : list (raw_row G)) r :
  In r (gdf_of_raw gdf_raw) -> 0 <= Pinta_ala_km2 r.
Proof.
  rewrite gdf_of_raw_map, in_map_iff. intros (r0 & <- & _). cbn [Pinta_ala_km2].
  apply Qdiv_nonneg; [apply area_nonneg | reflexivity].
Qed.

End Theorems.

(** ** Witnesses *)

(** A box of one unit by one unit in a system whose unit is 1000 metres. *)
Definition example_box : box :=
  {| bx := 25; by_ := 60; bw := 1; bh := 1;
     scale := fun e => if (e =? EPSG_TM35FIN)%N then 1000 else 1 |}.

Definition example_raw_row : raw_row box :=
  {| cell := fun c => if ustring_eqb c (u "NAMEFIN") then PStr (u "Helsinki") else PNaN;
     geometry := example_box |}.

(** A square of side 1000 metres has the area 1 km², and the geometry kept
    for the map is again the box of side 1. *)
Example gdf_of_raw_unit_square :
  map (fun r => (Qred (Pinta_ala_km2 r), Qred (bw (geometry (base r))),
                 Qred (bh (geometry (base r)))))
    (gdf_of_raw [example_raw_row])
  = [(1, 1, 1)].
Proof. vm_compute. reflexivity. Qed.

Lemma gdf_of_raw_nth_witness :
  exists r', nth_error (gdf_of_raw [example_raw_row]) 0 = Some r'
    /\ Pinta_ala_km2 r' = area (to_crs EPSG_TM35FIN (geometry example_raw_row)) / 1000000
    /\ geometry (base r')
       = to_crs EPSG_WGS84 (to_crs EPSG_TM35FIN (geometry example_raw_row))
    /\ cell (base r') = cell example_raw_row.
Proof. apply (gdf_of_raw_nth [example_raw_row] 0 example_raw_row). reflexivity. Defined.

Lemma Pinta_ala_km2_nonneg_witness :
  0 <= Pinta_ala_km2 (hd {| base := example_raw_row; Pinta_ala_km2 := 0 |}
                         (gdf_of_raw [example_raw_row])).
Proof. apply (Pinta_ala_km2_nonneg [example_raw_row]). left. reflexivity. Defined.
