(* ===== verification/MapBuild.v ===== *)
(** * The map and its markers (main.py 73-100)

    The script creates a map centred on Finland, adds the boundaries as one
    GeoJson layer, then one marker for every row of the merged frame, at
    the representative point of the row's geometry and with the popup of
    [Format], and last the layer control.  A map is its centre, its zoom
    and the list of its children in the order they were added;
    [add_to] is [child.add_to(m)].  The loop of lines 84-98 is a fold over
    the rows zipped with their points.  Here every population is a
    rational or NaN and every geometry has a point, so that no statement
    of the loop raises; [Markers] has the loop on the cells of the table
    and on features without geometry. *)

From Stdlib Require Import List NArith ZArith QArith Lia Bool.
From S2P Require Import Prelude Frame Report Format Geometry.
Import ListNotations.

(** ** Map elements *)

Record Popup : Type := { html : ustring; max_width : N }.

Record Icon : Type := { color : ustring; icon_name : ustring }.

Inductive child (G : Type) : Type :=
| GeoJson (data : list G) (name : ustring)
| Marker (location : Q * Q) (popup : Popup) (icon : Icon)
| LayerControl.
Arguments GeoJson {G} _ _.
Arguments Marker {G} _ _ _.
Arguments LayerControl {G}.

Record Map (G : Type) : Type := {
  location : Q * Q;
  zoom_start : N;
  children : list (child G)
}.
Arguments location {G} _.
Arguments zoom_start {G} _.
Arguments children {G} _.

(** [child.add_to(m)]: the child becomes the last child of the map. *)
Definition add_to {G} (c : child G) (m : Map G) : Map G :=
  {| location := location m; zoom_start := zoom_start m;
     children := children m ++ [c] |}.

Definition is_marker {G} (c : child G) : bool :=
  match c with Marker _ _ _ => true | _ => false end.

(** A marker whose popup ends with the en dash. *)
Definition shows_dash {G} (c : child G) : bool :=
  match c with
  | Marker _ p _ => (last (html p) 0 =? EN_DASH)%N
  | _ => false
  end.

(** A row of the merged frame is a pair of the boundary row and its
    population. *)

Section Build.
Context {G : Type} `{Geometry G} (name_col : ustring).

(** Line 73. *)
Definition new_map : Map G :=
  {| location := (129 # 2, 26 # 1); zoom_start := 5; children := [] |}.

(** Lines 76-79: the layer of the geometries, [gdf[["geometry"]]]. *)
Definition boundary_layer {V} (gdf : list (area_row G * V)) : child G :=
  GeoJson (map (fun r => geometry (base (fst r))) gdf) (u "Kuntarajat").

(** Line 82. *)
Definition points {V} (gdf : list (area_row G * V)) : list point :=
  map (fun r => representative_point (geometry (base (fst r)))) gdf.

(** Lines 85-98: the marker of one row. *)
Definition marker (row : area_row G * option Q) (pt : point) : child G :=
  let kunta := cell (base (fst row)) name_col in
  let ala := Pinta_ala_km2 (fst row) in
  let vakiluku := snd row in
  let popup := {| html := popup_html kunta ala vakiluku; max_width := 320 |} in
  Marker (pt_y pt, pt_x pt) popup {| color := u "blue"; icon_name := u "info-sign" |}.

(** Lines 84-98: the loop over [zip(gdf.iterrows(), points)]. *)
Definition add_markers (gdf : list (area_row G * option Q)) (pts : list point) (m : Map G)
  : Map G :=
  fold_left (fun m rp => add_to (marker (fst rp) (snd rp)) m) (combine gdf pts) m.

(** Lines 73-100. *)
Definition build_map (gdf : list (area_row G * option Q)) : Map G :=
  let m := new_map in
  let m := add_to (boundary_layer gdf) m in
  let points := points gdf in
  let m := add_markers gdf points m in
  add_to LayerControl m.

(** The marker the loop adds for a row. *)
Definition marker_of (row : area_row G * option Q) : child G :=
  marker row (representative_point (geometry (base (fst row)))).

End Build.

(** ** Lemmas *)

Section BuildLemmas.
Context {G : Type} `{Geometry G} (name_col : ustring).

Lemma add_markers_fold (rps : list ((area_row G * option Q) * point)) (m : Map G) :
  let m' := fold_left (fun m rp => add_to (marker name_col (fst rp) (snd rp)) m) rps m in
  children m' = children m ++ map (fun rp => marker name_col (fst rp) (snd rp)) rps
  /\ location m' = location m /\ zoom_start m' = zoom_start m.
Proof.
  revert m. induction rps as [|rp rps IH]; intros m; simpl.
  - now rewrite app_nil_r.
  - destruct (IH (add_to (marker name_col (fst rp) (snd rp)) m)) as (Hc & Hl & Hz).
    rewrite Hc, Hl, Hz. simpl. now rewrite <- app_assoc.
Qed.

Lemma combine_points (gdf : list (area_row G * option Q)) :
  map (fun rp => marker name_col (fst rp) (snd rp)) (combine gdf (points gdf))
  = map (marker_of name_col) gdf.
Proof. induction gdf as [|r gdf IH]; simpl; [reflexivity | now rewrite IH]. Qed.

Lemma add_markers_children gdf (m : Map G) :
  children (add_markers name_col gdf (points gdf) m)
  = children m ++ map (marker_of name_col) gdf.
Proof.
  unfold add_markers.
  destruct (add_markers_fold (combine gdf (points gdf)) m) as (-> & _).
  now rewrite combine_points.
Qed.

Lemma filter_is_marker_map (gdf : list (area_row G * option Q)) :
  filter is_marker (map (marker_of name_col) gdf) = map (marker_of name_col) gdf.
Proof. induction gdf as [|r gdf IH]; simpl; [reflexivity | now rewrite IH]. Qed.

Lemma shows_dash_marker_of (row : area_row G * option Q) :
  shows_dash (marker_of name_col row) = true <-> snd row = None.
Proof.
  unfold marker_of, marker, shows_dash. cbn [html].
  rewrite N.eqb_eq, popup_html_last. apply vak_txt_last_dash.
Qed.

Lemma boundary_layer_fst {V W} (gdf : list (area_row G * V)) (rows : list (area_row G * W)) :
  map fst rows = map fst gdf -> boundary_layer rows = boundary_layer gdf.
Proof.
  intros E. unfold boundary_layer. f_equal.
  rewrite <- (map_map fst (fun r => geometry (base r)) rows), E.
  apply map_map.
Qed.

Lemma points_fst {V W} (gdf : list (area_row G * V)) (rows : list (area_row G * W)) :
  map fst rows = map fst gdf -> points rows = points gdf.
Proof.
  intros E. unfold points.
  rewrite <- (map_map fst (fun r => representative_point (geometry (base r))) rows), E.
  apply map_map.
Qed.

Lemma Map_eq (m m' : Map G) :
  location m = location m' -> zoom_start m = zoom_start m' ->
  children m = children m' -> m = m'.
Proof. destruct m, m'; simpl; now intros -> -> ->. Qed.

Lemma build_map_unfold (gdf : list (area_row G * option Q)) :
  build_map name_col gdf
  = {| location := (129 # 2, 26 # 1); zoom_start := 5;
       children := boundary_layer gdf :: map (marker_of name_col) gdf ++ [LayerControl] |}.
Proof.
  apply Map_eq; unfold build_map; cbn [add_to location zoom_start children].
  - unfold add_markers. now destruct (add_markers_fold (combine gdf (points gdf))
                                        (add_to (boundary_layer gdf) new_map)) as (_ & -> & _).
  - unfold add_markers. now destruct (add_markers_fold (combine gdf (points gdf))
                                        (add_to (boundary_layer gdf) new_map)) as (_ & _ & ->).
  - now rewrite add_markers_children.
Qed.

Lemma build_map_filter (f : child G -> bool) (gdf : list (area_row G * option Q)) :
  f (boundary_layer gdf) = false -> f LayerControl = false ->
  filter f (children (build_map name_col gdf))
  = filter f (map (marker_of name_col) gdf).
Proof.
  intros Hl Hc. rewrite build_map_unfold. cbn [children filter].
  rewrite Hl, filter_app. cbn [filter]. now rewrite Hc, app_nil_r.
Qed.

Lemma build_map_marker_length (gdf : list (area_row G * option Q)) :
  length (filter is_marker (children (build_map name_col gdf))) = length gdf.
Proof.
  rewrite build_map_filter by reflexivity.
  now rewrite filter_is_marker_map, length_map.
Qed.

End BuildLemmas.

(** ** Theorems *)

Section Theorems.
Context {G : Type} `{Geometry G} (name_col : ustring).

(** The finished map has, in this order, the layer of all
    boundaries, one marker for every row of the merged frame in frame
    order, and the layer control, which is added after all layers. *)
Theorem build_map_children (gdf : list (area_row G * option Q)) :
  children (build_map name_col gdf)
  = boundary_layer gdf :: map (marker_of name_col) gdf ++ [LayerControl].
Proof.
  unfold build_map. cbn [add_to children].
  rewrite add_markers_children. reflexivity.
Qed.

(** The loop changes neither the centre nor the zoom of the map:
    the map saved is centred at latitude 64.5, longitude 26.0, zoom 5. *)
Theorem build_map_view (gdf : list (area_row G * option Q)) :
  location (build_map name_col gdf) = (129 # 2, 26 # 1)
  /\ zoom_start (build_map name_col gdf) = 5%N.
Proof. now rewrite build_map_unfold. Qed.

(** C32: the marker of the i-th row stands at the representative point of
    that row's geometry, latitude first, and its popup shows that row's
    name, area and population. *)
Theorem build_map_marker_nth (gdf : list (area_row G * option Q)) i row :
  nth_error gdf i = Some row ->
  let pt := representative_point (geometry (base (fst row))) in
  nth_error (children (build_map name_col gdf)) (S i)
  = Some (Marker (pt_y pt, pt_x pt)
            {| html := popup_html (cell (base (fst row)) name_col)
                         (Pinta_ala_km2 (fst row)) (snd row);
               max_width := 320 |}
            {| color := u "blue"; icon_name := u "info-sign" |}).
Proof.
  intros Hi pt. rewrite build_map_unfold. cbn [children nth_error].
  rewrite nth_error_app1 by (rewrite length_map; apply nth_error_Some; congruence).
  now rewrite (map_nth_error _ _ _ Hi).
Qed.

End Theorems.

(** ** Witnesses *)

Definition example_row : area_row box * option Q :=
  ({| base := example_raw_row; Pinta_ala_km2 := 1 |}, Some 100).

Lemma build_map_marker_nth_witness :
  let pt := representative_point (geometry (base (fst example_row))) in
  nth_error (children (build_map (u "NAMEFIN") [example_row])) 1
  = Some (Marker (pt_y pt, pt_x pt)
            {| html := popup_html (cell (base (fst example_row)) (u "NAMEFIN"))
                         (Pinta_ala_km2 (fst example_row)) (snd example_row);
               max_width := 320 |}
            {| color := u "blue"; icon_name := u "info-sign" |}).
Proof.
  apply (build_map_marker_nth (u "NAMEFIN") [example_row] 0 example_row). reflexivity.
Defined.
