(* ===== verification/Markers.v ===== *)
(** * The marker loop on the frame as it is read (main.py 82-100)

    [MapBuild] has the loop on rows that cannot fail.  On the frame that
    the script really merges a statement of the loop can raise: [int()]
    on line 88, for a population that is an infinity or a text that
    writes no integer, and [pt.y] on line 95, for a feature whose
    geometry is missing or empty, which has no point with coordinates.
    The loop stops at the first such row, in the order of the frame,
    and no map is built.  The layer of the boundaries (lines 76-79)
    takes such a feature as it is: nothing reads its coordinates before
    the loop does.  [checked_rows] is the frame as [MapBuild]
    sees it, when no row raises; the theorems say that the loop is then
    the loop of [MapBuild], and which exception it raises otherwise. *)

From Stdlib Require Import List NArith ZArith QArith Lia Bool.
From S2P Require Import Prelude Frame Report Format Geometry MapBuild.
Import ListNotations.

(** What an iteration of the loop raises: the exception of [int()], or
    that of the point without coordinates. *)
Inductive marker_error : Type :=
| IntRaised (e : int_error)
| NoPoint.

Section Loop.
Context {G : Type} `{Geometry G} `{IntStr} (name_col : ustring).

(** [g.representative_point()] as the loop reads it: [None] where the
    library gives no point with coordinates. *)
Definition point_py (g : G) : option point :=
  if has_point g then Some (representative_point g) else None.

(** Line 82. *)
Definition points_py {V} (gdf : list (area_row G * V)) : list (option point) :=
  map (fun r => point_py (geometry (base (fst r)))) gdf.

(** Lines 85-98 on a row of the merged table: the popup is built first,
    with the exception of [int()], then the marker, with the exception
    of [pt.y]. *)
Definition marker_py (row : area_row G * option popcell) (pt : option point)
  : result marker_error (child G) :=
  let kunta := cell (base (fst row)) name_col in
  let ala := Pinta_ala_km2 (fst row) in
  let vakiluku := snd row in
  match popup_html_py kunta ala vakiluku with
  | Err e => Err (IntRaised e)
  | Ok html =>
    let popup := {| html := html; max_width := 320 |} in
    match pt with
    | Some pt =>
        Ok (Marker (pt_y pt, pt_x pt) popup
              {| color := u "blue"; icon_name := u "info-sign" |})
    | None => Err NoPoint
    end
  end.

(** Lines 84-98 on such rows: the loop stops at the first row for which
    a statement raises. *)
Fixpoint add_markers_py (rps : list ((area_row G * option popcell) * option point))
    (m : Map G) : result marker_error (Map G) :=
  match rps with
  | [] => Ok m
  | rp :: rps' =>
    match marker_py (fst rp) (snd rp) with
    | Ok c => add_markers_py rps' (add_to c m)
    | Err e => Err e
    end
  end.

(** Lines 73-100 on such rows. *)
Definition build_map_py (gdf : list (area_row G * option popcell))
  : result marker_error (Map G) :=
  let m := new_map in
  let m := add_to (boundary_layer gdf) m in
  let points := points_py gdf in
  res_map (add_to LayerControl) (add_markers_py (combine gdf points) m).

(** ** The rows on which no statement raises *)

(** [int()] returns on the population of the row and its geometry has a
    point. *)
Definition row_ok (row : area_row G * option popcell) : Prop :=
  (forall x, snd row = Some x -> exists z, int_py x = Ok z)
  /\ has_point (geometry (base (fst row))) = true.

(** The iteration of the row raises [e]: the exception of [int()] on
    its population, or, when [int()] returns, that of the missing
    point. *)
Definition row_raises (row : area_row G * option popcell) (e : marker_error) : Prop :=
  (exists x e', snd row = Some x /\ int_py x = Err e' /\ e = IntRaised e')
  \/ ((forall x, snd row = Some x -> exists z, int_py x = Ok z)
      /\ has_point (geometry (base (fst row))) = false /\ e = NoPoint).

(** The row with its population as a rational, or what its iteration
    raises. *)
Definition checked_row (row : area_row G * option popcell)
  : result marker_error (area_row G * option Q) :=
  match finite (snd row) with
  | Err e => Err (IntRaised e)
  | Ok v =>
    if has_point (geometry (base (fst row))) then Ok (fst row, v) else Err NoPoint
  end.

(** The frame with its populations as rationals, or the exception of
    the first row that raises. *)
Definition checked_rows (gdf : list (area_row G * option popcell))
  : result marker_error (list (area_row G * option Q)) :=
  res_mapM checked_row gdf.

End Loop.

(** ** Lemmas *)

Section LoopLemmas.
Context {G : Type} `{Geometry G} `{IntStr} (name_col : ustring).
Implicit Types (row : area_row G * option popcell) (gdf : list (area_row G * option popcell)).

Lemma checked_row_fst row r : checked_row row = Ok r -> fst r = fst row.
Proof.
  unfold checked_row. destruct (finite (snd row)); [|discriminate].
  destruct (has_point _); [|discriminate]. now intros [= <-].
Qed.

Lemma checked_row_Ok_iff row : (exists r, checked_row row = Ok r) <-> row_ok row.
Proof.
  unfold checked_row, row_ok. rewrite <- finite_Ok_iff.
  destruct (finite (snd row)) as [v|e]; [destruct (has_point _)|]; split.
  - intros _. split; [now exists v|reflexivity].
  - intros _. now exists (fst row, v).
  - now intros [r [=]].
  - now intros [_ [=]].
  - now intros [r [=]].
  - now intros [[q [=]] _].
Qed.

Lemma row_raises_finite row e :
  row_raises row e <->
  (exists e', finite (snd row) = Err e' /\ e = IntRaised e')
  \/ ((exists q, finite (snd row) = Ok q)
      /\ has_point (geometry (base (fst row))) = false /\ e = NoPoint).
Proof.
  unfold row_raises. rewrite <- finite_Ok_iff. apply or_iff_compat_r. split.
  - intros (x & e' & Hx & He & ->). exists e'. split; [|reflexivity].
    apply finite_Err_iff. eauto.
  - intros (e' & (x & Hx & He)%finite_Err_iff & ->). eauto.
Qed.

Lemma checked_row_Err_iff row e : checked_row row = Err e <-> row_raises row e.
Proof.
  rewrite row_raises_finite. unfold checked_row.
  destruct (finite (snd row)) as [v|e']; [destruct (has_point _)|]; split.
  - discriminate.
  - now intros [(e' & [=] & _)|(_ & [=] & _)].
  - intros [= <-]. right. repeat split. now exists v.
  - now intros [(e' & [=] & _)|(_ & _ & ->)].
  - intros [= <-]. left. now exists e'.
  - now intros [(e'' & [= <-] & ->)|([q [=]] & _)].
Qed.

(** The statements of one iteration are the marker of [MapBuild] on the
    checked row. *)
Lemma marker_py_checked row :
  marker_py name_col row (point_py (geometry (base (fst row))))
  = res_map (marker_of name_col) (checked_row row).
Proof.
  unfold marker_py, checked_row, point_py. rewrite popup_html_py_finite.
  destruct (finite (snd row)) as [v|e]; [|reflexivity]. cbn [res_map].
  now destruct (has_point _).
Qed.

Lemma marker_py_is_marker row pt c :
  marker_py name_col row pt = Ok c -> exists l p i, c = Marker l p i.
Proof.
  unfold marker_py. destruct (popup_html_py _ _ _); [|discriminate].
  destruct pt; [|discriminate]. intros [= <-]. eauto.
Qed.

Lemma checked_rows_fst gdf rows :
  checked_rows gdf = Ok rows -> map fst rows = map fst gdf.
Proof.
  intros Hr%res_mapM_Forall2. induction Hr as [|row r gdf rows Hrow _ IH]; [reflexivity|].
  simpl. now rewrite IH, (checked_row_fst row r Hrow).
Qed.

Lemma checked_rows_length gdf rows :
  checked_rows gdf = Ok rows -> length rows = length gdf.
Proof. apply res_mapM_length. Qed.

Lemma add_markers_cons (r : area_row G * option Q) rows (m : Map G) :
  add_markers name_col (r :: rows) (points (r :: rows)) m
  = add_markers name_col rows (points rows) (add_to (marker_of name_col r) m).
Proof. reflexivity. Qed.

(** The loop on the frame as it is read is the loop of [MapBuild] on
    the checked rows, and raises what the first row that raises
    does. *)
Lemma add_markers_py_checked gdf (m : Map G) :
  add_markers_py name_col (combine gdf (points_py gdf)) m
  = res_map (fun rows => add_markers name_col rows (points rows) m) (checked_rows gdf).
Proof.
  revert m. induction gdf as [|row gdf IH]; intros m; [reflexivity|].
  unfold checked_rows. cbn [points_py map combine add_markers_py res_mapM fst snd].
  rewrite marker_py_checked. fold (points_py gdf). fold (checked_rows gdf).
  destruct (checked_row row) as [r|e]; [|reflexivity].
  cbn [res_map]. rewrite IH. now destruct (checked_rows gdf).
Qed.

Lemma build_map_py_checked gdf :
  build_map_py name_col gdf = res_map (build_map name_col) (checked_rows gdf).
Proof.
  unfold build_map_py. rewrite add_markers_py_checked.
  destruct (checked_rows gdf) as [rows|] eqn:E; [|reflexivity].
  cbn [res_map]. unfold build_map.
  now rewrite (boundary_layer_fst gdf rows (checked_rows_fst gdf rows E)).
Qed.

Lemma Forall_row_ok gdf :
  Forall (fun row => exists r, checked_row row = Ok r) gdf <-> Forall row_ok gdf.
Proof.
  split; apply Forall_impl; intros row; apply checked_row_Ok_iff.
Qed.

(** The loop returns exactly when no row raises. *)
Lemma build_map_py_Ok_iff gdf :
  (exists m, build_map_py name_col gdf = Ok m) <-> Forall row_ok gdf.
Proof.
  rewrite build_map_py_checked, <- Forall_row_ok.
  unfold checked_rows. rewrite <- res_mapM_Ok_iff.
  destruct (res_mapM checked_row gdf) as [rows|e]; split; intros [x Hx];
    try discriminate; eauto. now exists (build_map name_col rows).
Qed.

(** The exception of the loop is that of a row of the frame. *)
Lemma build_map_py_Err_In gdf e :
  build_map_py name_col gdf = Err e -> exists row, In row gdf /\ row_raises row e.
Proof.
  rewrite build_map_py_checked.
  destruct (checked_rows gdf) as [rows|e'] eqn:E; [discriminate|].
  intros [= <-]. apply res_mapM_Err_In in E as (row & Hin & He).
  exists row. split; [assumption|now apply checked_row_Err_iff].
Qed.

(** A row that raises makes the loop raise. *)
Lemma build_map_py_In_Err gdf row e :
  In row gdf -> row_raises row e -> exists e', build_map_py name_col gdf = Err e'.
Proof.
  intros Hin He%checked_row_Err_iff.
  destruct (res_mapM_In_Err checked_row gdf row e Hin He) as [e' E].
  exists e'. rewrite build_map_py_checked. unfold checked_rows. now rewrite E.
Qed.

(** When the loop ends the map has one marker for every row. *)
Lemma build_map_py_marker_length gdf m :
  build_map_py name_col gdf = Ok m ->
  length (filter is_marker (children m)) = length gdf.
Proof.
  rewrite build_map_py_checked. destruct (checked_rows gdf) as [rows|] eqn:E; [|discriminate].
  intros [= <-]. rewrite build_map_marker_length. now apply checked_rows_length.
Qed.

End LoopLemmas.

(** ** Theorems *)

Section Theorems.
Context {G : Type} `{Geometry G} `{IntStr} (name_col : ustring).
Implicit Types (row : area_row G * option popcell) (gdf : list (area_row G * option popcell)).

(** C18: the marker loop raises [e] exactly when the iteration of some
    row raises [e] and no row before it in the frame raises: the
    exception of a run is that of the first row on whose population
    [int()] raises or whose geometry has no point, [int()] going first
    within a row, and no map is built. *)
Theorem build_map_py_first_error gdf e :
  build_map_py name_col gdf = Err e <->
  exists before row after,
    gdf = before ++ row :: after
    /\ Forall row_ok before
    /\ row_raises row e.
Proof.
  rewrite build_map_py_checked.
  setoid_rewrite <- Forall_row_ok. setoid_rewrite <- checked_row_Err_iff.
  rewrite <- res_mapM_first_error. fold (checked_rows gdf).
  destruct (checked_rows gdf); simpl; split; congruence.
Qed.

(** On a frame of which no row raises the loop builds the map of
    [MapBuild]: the boundary layer, a marker for every row at the point
    of its geometry, with the popup of its integer population, and the
    layer control. *)
Theorem build_map_py_children gdf m :
  build_map_py name_col gdf = Ok m ->
  exists rows, checked_rows gdf = Ok rows
    /\ children m = boundary_layer gdf :: map (marker_of name_col) rows ++ [LayerControl].
Proof.
  rewrite build_map_py_checked. destruct (checked_rows gdf) as [rows|] eqn:E; [|discriminate].
  intros [= <-]. exists rows. split; [reflexivity|].
  rewrite build_map_unfold. cbn [children].
  now rewrite (boundary_layer_fst gdf rows (checked_rows_fst gdf rows E)).
Qed.

End Theorems.

(** ** Examples *)

(** A row of the example with the given population and geometry. *)
Definition row_with (v : option popcell) (g : option box)
  : area_row (option box) * option popcell :=
  ({| base := {| cell := fun _ => PStr (u "Espoo"); geometry := g |};
      Pinta_ala_km2 := 1 |}, v).

(** A feature without geometry raises at its marker; an infinity in
    the same row raises first, and one in a later row is not reached. *)
Example build_map_py_null_geometry :
  build_map_py (u "NAMEFIN") [row_with (Some (Finite 5)) None] = Err NoPoint
  /\ build_map_py (u "NAMEFIN") [row_with (Some (Infinite false)) None]
     = Err (IntRaised OverflowError)
  /\ build_map_py (u "NAMEFIN")
       [row_with None None; row_with (Some (Infinite false)) (Some example_box)]
     = Err NoPoint.
Proof. repeat split. Qed.
