(* ===== verification/Pipeline.v ===== *)
(** * The whole run (main.py 32-102)

    [main] composes the steps of the script in the order of the file: the
    choice of the name column (or the [ValueError]), the areas and the
    reprojection, the keys and the merge with the alias table of the
    script, the list of missing populations and its report, the map.
    The frames read from the two files are the arguments; the result is
    the exception, or the lines printed and the map that is saved.  The
    populations are rationals or NaN and every geometry has its point,
    so that the marker loop cannot raise; [Script] has the run on what
    the files may hold and reduces to [main] on such frames. *)

From stdpp Require Import gmap list.
From Stdlib Require Import QArith.
From S2P Require Import Prelude Unicode Normalize Alias Frame Join Report.
From S2P Require Import Format Geometry MapBuild.
Local Close Scope Q_scope.

(** Line 13. *)
Definition OUTPUT : ustring := u "suomen_kunnat.html".

(** What a run that ends leaves: the lines on standard output and the
    map written to [OUTPUT]. *)
Record output (G : Type) : Type := {
  stdout : list ustring;
  saved : Map G
}.
Arguments stdout {G} _.
Arguments saved {G} _.

Section Main.
Context `{CF : CaseFold} {G : Type} `{GE : Geometry G}.

(** Lines 45-61: the merged frame for the chosen name column. *)
Definition merged {V : Type} (name_col : ustring) (gdf_raw : raw_frame G)
    (vak : list (vak_row V)) : list (area_row G * option V) :=
  let gdf := gdf_of_raw (rows gdf_raw) in
  join_vakiluku (fun r => cell (base r) name_col) ALIASES gdf vak.

(** Lines 45-102, after the name column is chosen and its line printed. *)
Definition run_with (name_col line : ustring) (gdf_raw : raw_frame G)
    (vak : list (vak_row Q)) : output G :=
  let gdf := merged name_col gdf_raw vak in
  let puuttuvat := puuttuvat (fun r => cell (base r) name_col) gdf in
  let m := build_map name_col gdf in
  {| stdout := [line] ++ report puuttuvat ++ [u "OK → " ++ OUTPUT];
     saved := m |}.

(** Lines 32-102. *)
Definition main (gdf_raw : raw_frame G) (vak : list (vak_row Q))
  : result error (output G) :=
  (p <- pick_name_col (columns gdf_raw) ;;
   Ok (run_with (fst p) (snd p) gdf_raw vak))%res.

End Main.

(** ** Lemmas *)

Lemma length_filter_map {A B} (f : B -> bool) (g : A -> B) (P : A -> Prop)
    `{!forall x, Decision (P x)} (l : list A) :
  (forall x, f (g x) = true <-> P x) ->
  length (List.filter f (List.map g l)) = length (filter P l).
Proof.
  intros Hfg. induction l as [|a l IH]; [done|]. simpl.
  destruct (decide (P a)) as [Hp|Hp].
  - rewrite filter_cons_True by done. rewrite (proj2 (Hfg a) Hp). simpl. by rewrite IH.
  - rewrite filter_cons_False by done. destruct (f (g a)) eqn:E; [|done].
    by apply Hfg in E.
Qed.

Section MainLemmas.
Context `{CF : CaseFold} {G : Type} `{GE : Geometry G}.
Implicit Types (gdf_raw : raw_frame G) (vak : list (vak_row Q)).

Lemma main_unfold gdf_raw vak :
  main gdf_raw vak
  = match resolve_field CANDIDATES (columns gdf_raw) with
    | Some c => Ok (run_with c (u "Käytetään kunnannimi-saraketta: " ++ c) gdf_raw vak)
    | None => Err (ValueError (u "Kunnan nimi -saraketta ei löytynyt. Sarakkeet: ")
                     (columns gdf_raw))
    end.
Proof.
  unfold main, pick_name_col. rewrite name_col_expr_resolve.
  by destruct (resolve_field CANDIDATES (columns gdf_raw)).
Qed.

Lemma OK_line : u "OK → " ++ OUTPUT = u "OK → suomen_kunnat.html".
Proof. vm_compute. reflexivity. Qed.

Lemma run_with_stdout c line gdf_raw vak :
  stdout (run_with c line gdf_raw vak)
  = line :: report (puuttuvat (fun r => cell (base r) c) (merged c gdf_raw vak))
    ++ [u "OK → suomen_kunnat.html"].
Proof.
  unfold run_with. cbn [stdout app]. rewrite OK_line. reflexivity.
Qed.

Lemma run_with_saved c line gdf_raw vak :
  saved (run_with c line gdf_raw vak) = build_map c (merged c gdf_raw vak).
Proof. reflexivity. Qed.

Lemma output_eq (o o' : output G) :
  stdout o = stdout o' -> saved o = saved o' -> o = o'.
Proof. destruct o, o'; cbn [stdout saved]. by intros -> ->. Qed.

Lemma merged_map_row {V W} (g : V -> W) name_col gdf_raw (rows : list (vak_row V)) :
  merged name_col gdf_raw (map_row g <$> rows) = map_value g <$> merged name_col gdf_raw rows.
Proof. apply join_vakiluku_map_row. Qed.

Lemma merged_length_ge {V} name_col gdf_raw (vak : list (vak_row V)) :
  length (rows gdf_raw) <= length (merged name_col gdf_raw vak).
Proof.
  unfold merged. rewrite <- (gdf_of_raw_length (rows gdf_raw)).
  induction (gdf_of_raw (rows gdf_raw)) as [|r gdf IH]; [done|].
  rewrite join_vakiluku_cons, length_app, row_out_length. cbn [length]. lia.
Qed.

Lemma merged_length_unique name_col gdf_raw vak :
  NoDup (vak_key ALIASES vak) ->
  length (merged name_col gdf_raw vak) = length (rows gdf_raw).
Proof.
  intros Hnd. rewrite <- vak2_keys in Hnd.
  unfold merged. rewrite <- (gdf_of_raw_length (rows gdf_raw)).
  induction (gdf_of_raw (rows gdf_raw)) as [|r gdf IH]; [done|].
  rewrite join_vakiluku_cons, length_app, row_out_length, IH.
  pose proof (matches_unique (normalize (cell (base r) name_col)) _ Hnd).
  cbn [length]. lia.
Qed.

Lemma dash_markers_length name_col (gdf : list (area_row G * option Q)) :
  length (List.filter shows_dash (children (build_map name_col gdf)))
  = length (puuttuvat (fun r => cell (base r) name_col) gdf).
Proof.
  rewrite build_map_filter by done. unfold puuttuvat. rewrite length_fmap.
  apply length_filter_map. intros row. apply shows_dash_marker_of.
Qed.

End MainLemmas.

(** ** Theorems *)

Section Theorems.
Context `{CF : CaseFold} {G : Type} `{GE : Geometry G}.
Implicit Types (gdf_raw : raw_frame G) (vak : list (vak_row Q)).

(** The run ends with the [ValueError] exactly when the boundary
    frame has none of the columns NAMEFIN, Kunta and name; nothing is
    printed and no map is written then. *)
Theorem main_error_iff gdf_raw vak e :
  main gdf_raw vak = Err e <->
  (forall x, In x CANDIDATES -> ~ In x (columns gdf_raw))
  /\ e = ValueError (u "Kunnan nimi -saraketta ei löytynyt. Sarakkeet: ")
           (columns gdf_raw).
Proof.
  rewrite main_unfold, <- resolve_field_None.
  destruct (resolve_field CANDIDATES (columns gdf_raw)); split;
    [done | by intros [? _] | by intros [= <-] | by intros [_ ->]].
Qed.

(** C21: a run on a frame that has one of the three columns ends
    normally; it prints the line that names the first of them the frame
    has, then the report of the missing populations, then the line
    "OK → suomen_kunnat.html", and saves the map built from the merged
    frame. *)
Theorem main_ok_iff gdf_raw vak out :
  main gdf_raw vak = Ok out <->
  exists c before after,
    CANDIDATES = before ++ c :: after /\ In c (columns gdf_raw)
    /\ (forall x, In x before -> ~ In x (columns gdf_raw))
    /\ stdout out
       = (u "Käytetään kunnannimi-saraketta: " ++ c)
         :: report (puuttuvat (fun r => cell (base r) c) (merged c gdf_raw vak))
         ++ [u "OK → suomen_kunnat.html"]
    /\ saved out = build_map c (merged c gdf_raw vak).
Proof.
  rewrite main_unfold. split.
  - destruct (resolve_field _ _) as [c|] eqn:E; [|discriminate]. intros [= <-].
    apply resolve_field_Some in E as (b & a & E1 & E2 & E3). exists c, b, a.
    rewrite run_with_stdout, run_with_saved. auto.
  - intros (c & b & a & E1 & E2 & E3 & Hs & Hm).
    rewrite (proj2 (resolve_field_Some _ _ c)) by eauto. f_equal.
    apply output_eq; by rewrite ?run_with_stdout, ?run_with_saved.
Qed.

(** C30: every boundary gets at least one marker on the saved map, and
    exactly one when the keys of the population table are pairwise
    distinct. *)
Theorem main_markers gdf_raw vak out :
  main gdf_raw vak = Ok out ->
  let markers := List.filter is_marker (children (saved out)) in
  length (rows gdf_raw) <= length markers
  /\ (NoDup (vak_key ALIASES vak) -> length markers = length (rows gdf_raw)).
Proof.
  rewrite main_unfold. destruct (resolve_field _ _) as [c|]; [|done].
  intros [= <-]. cbv zeta. rewrite run_with_saved, build_map_marker_length.
  split; [apply merged_length_ge | apply merged_length_unique].
Qed.

(** C31: the report and the map agree: the names listed as missing on
    standard output are as many as the markers whose popup shows the en
    dash for the population. *)
Theorem main_report_matches_map gdf_raw vak out :
  main gdf_raw vak = Ok out ->
  exists line missing,
    stdout out = line :: report missing ++ [u "OK → suomen_kunnat.html"]
    /\ length missing = length (List.filter shows_dash (children (saved out))).
Proof.
  rewrite main_unfold. destruct (resolve_field _ _) as [c|]; [|done].
  intros [= <-]. eexists _, _. split; [apply run_with_stdout|].
  by rewrite run_with_saved, dash_markers_length.
Qed.

End Theorems.

(** ** Witnesses *)

Definition espoo_row : raw_row box :=
  {| cell := fun c => if ustring_eqb c (u "NAMEFIN") then PStr (u "Espoo") else PNaN;
     geometry := {| bx := 24; by_ := 60; bw := 2; bh := 1; scale := scale example_box |} |}.

Definition example_frame : raw_frame box :=
  {| columns := [u "NAMEFIN"; u "geometry"]; rows := [example_raw_row; espoo_row] |}.

Definition example_table : list (vak_row Q) :=
  [ {| Kunta := PStr (u "HELSINKI"); Vakiluku := Some (inject_Z 100) |} ].

Definition example_out : output box :=
  run_with (u "NAMEFIN") (u "Käytetään kunnannimi-saraketta: NAMEFIN")
    example_frame example_table.

Lemma example_main : main example_frame example_table = Ok example_out.
Proof. rewrite main_unfold. reflexivity. Qed.

Lemma main_markers_witness :
  let markers := List.filter is_marker (children (saved example_out)) in
  length (rows example_frame) <= length markers
  /\ (NoDup (vak_key ALIASES example_table) ->
      length markers = length (rows example_frame)).
Proof. apply (main_markers example_frame example_table), example_main. Defined.

Lemma main_report_matches_map_witness :
  exists line missing,
    stdout example_out = line :: report missing ++ [u "OK → suomen_kunnat.html"]
    /\ length missing = length (List.filter shows_dash (children (saved example_out))).
Proof.
  apply (main_report_matches_map example_frame example_table), example_main.
Defined.

(** The scenario of the design document, end to end: Helsinki (1 km²) is
    matched through its upper-case spelling, Espoo (2 km²) is reported and
    its marker shows the dash. *)
Example main_scenario :
  stdout example_out
  = [u "Käytetään kunnannimi-saraketta: NAMEFIN"; NOTICE; u " - Espoo";
     u "OK → suomen_kunnat.html"]
  /\ List.map (fun c => match c with Marker _ p _ => html p | _ => [] end)
       (List.filter is_marker (children (saved example_out)))
     = [u "<b>Helsinki</b><br>Pinta-ala: 1.0 km²<br>Väkiluku: 100";
        u "<b>Espoo</b><br>Pinta-ala: 2.0 km²<br>Väkiluku: –"].
Proof. split; vm_compute; reflexivity. Qed.
