(* ===== verification/World.v ===== *)
(** * Files, standard output and exceptions (main.py 32, 41, 52, 55, 58,
    64, 88, 95, 101, and every [print])

    The script reads two files, prints lines and writes one file; any of
    its library calls may raise.  A [world] is what the script can see
    and change: the files by name and the lines printed so far.  A file
    is what the library that opens it reads from it: the boundary frame
    that [gpd.read_file] returns, the table that [pd.read_csv] returns,
    or the map that [Map.save] wrote.  A computation of type [io G A]
    takes a world and returns a value or an exception together with the
    world it leaves; an exception keeps what was printed before it. *)

From stdpp Require Import gmap list.
From Stdlib Require Import QArith.
From S2P Require Import Prelude Frame Join Format Geometry MapBuild Markers.
Local Close Scope Q_scope.

(** ** Tables, files and worlds *)

(** What [pd.read_csv] returns: the column index, and of every row the
    cells of the two columns that the script reads.  A population of
    the table is a float (a rational, an infinity or NaN) or, in a
    column that the reader left as text, a string or NaN. *)
Record csv_frame : Type := {
  csv_columns : list ustring;
  csv_rows : list (vak_row popcell)
}.

(** The type that the reader gives the column Väkiluku: floats when
    every cell is a number or empty, and text when some cell is not a
    number. *)
Definition float_column (t : csv_frame) : bool :=
  forallb (fun a => match Vakiluku a with Some (Text _) => false | _ => true end)
    (csv_rows t).

Definition text_column (t : csv_frame) : bool :=
  forallb (fun a => match Vakiluku a with
                    | Some (Finite _) | Some (Infinite _) => false
                    | _ => true
                    end)
    (csv_rows t).

(** The rows of a table all of whose numbers are finite. *)
Definition finite_table (vak : list (vak_row Q)) : list (vak_row popcell) :=
  map_row Finite <$> vak.

Inductive file (G : Type) : Type :=
| Boundaries (f : raw_frame G)
| Table (t : csv_frame)
| Page (m : Map G).
Arguments Boundaries {G} f.
Arguments Table {G} t.
Arguments Page {G} m.

Record world (G : Type) : Type := {
  files : gmap ustring (file G);
  out : list ustring
}.
Arguments files {G} _.
Arguments out {G} _.

(** The exceptions of a run: the [ValueError] of line 41, the [KeyError]
    of a column that a frame does not have, the exception of the
    library that cannot read a file, what [int()] raises on a cell of
    the table (line 88), and the exception of line 95 for a point
    without coordinates. *)
Inductive exn : Type :=
| Raised (e : error)
| KeyError (key : ustring)
| ReadError (path : ustring)
| IntError (e : int_error)
| PointError.

(** The exception of an iteration of the marker loop. *)
Definition marker_exn (e : marker_error) : exn :=
  match e with
  | IntRaised e => IntError e
  | NoPoint => PointError
  end.

(** ** Computations *)

Definition io (G A : Type) : Type := world G -> result exn A * world G.

Definition io_ret {G A} (a : A) : io G A := fun w => (Ok a, w).

Definition io_bind {G A B} (m : io G A) (k : A -> io G B) : io G B :=
  fun w =>
    match m w with
    | (Ok a, w') => k a w'
    | (Err e, w') => (Err e, w')
    end.

Definition raise {G A} (e : exn) : io G A := fun w => (Err e, w).

Declare Scope io_scope.
Delimit Scope io_scope with io.
Bind Scope io_scope with io.
Notation "x <- m ;; k" := (io_bind m (fun x => k))
  (at level 60, m at next level, right associativity) : io_scope.
Notation "m ;;; k" := (io_bind m (fun _ => k))
  (at level 60, right associativity) : io_scope.

(** ** The primitive actions *)

(** The world after some lines are printed. *)
Definition printed {G} (w : world G) (lines : list ustring) : world G :=
  {| files := files w; out := out w ++ lines |}.

(** The world after a map is written to a file. *)
Definition written {G} (w : world G) (path : ustring) (m : Map G) : world G :=
  {| files := <[path := Page m]> (files w); out := out w |}.

Section Actions.
Context {G : Type}.

(** [print(line)]. *)
Definition print (line : ustring) : io G unit :=
  fun w => (Ok tt, printed w [line]).

(** Line 32, [gpd.read_file(path)]. *)
Definition read_file (path : ustring) : io G (raw_frame G) :=
  fun w =>
    match files w !! path with
    | Some (Boundaries f) => (Ok f, w)
    | _ => (Err (ReadError path), w)
    end.

(** Line 52, [pd.read_csv(path)]. *)
Definition read_csv (path : ustring) : io G csv_frame :=
  fun w =>
    match files w !! path with
    | Some (Table t) => (Ok t, w)
    | _ => (Err (ReadError path), w)
    end.

(** Line 101, [m.save(path)]. *)
Definition save (path : ustring) (m : Map G) : io G unit :=
  fun w => (Ok tt, written w path m).

(** Line 55, [vak["Kunta"]]. *)
Definition getitem_Kunta (vak : csv_frame) : io G (list pyval) :=
  if has_column (csv_columns vak) (u "Kunta")
  then io_ret (Kunta <$> csv_rows vak)
  else raise (KeyError (u "Kunta")).

(** Line 58, [vak["Väkiluku"]]. *)
Definition getitem_Vakiluku (vak : csv_frame) : io G (list (option popcell)) :=
  if has_column (csv_columns vak) (u "Väkiluku")
  then io_ret (Vakiluku <$> csv_rows vak)
  else raise (KeyError (u "Väkiluku")).

(** Line 64, [gdf["Väkiluku"]] on the merged frame, given the columns of
    the boundary frame: when the boundary frame has a column of that name
    the merge calls it "Väkiluku_x" and the one of the table "Väkiluku_y",
    and the column asked for does not exist. *)
Definition merged_getitem_Vakiluku (cols : list ustring) : io G unit :=
  if has_column cols (u "Väkiluku")
  then raise (KeyError (u "Väkiluku"))
  else io_ret tt.

(** Printing lines one after the other. *)
Fixpoint print_all (lines : list ustring) : io G unit :=
  match lines with
  | [] => io_ret tt
  | l :: lines' => (print l ;;; print_all lines')%io
  end.

End Actions.

(** ** Observations on worlds *)

(** A run from [w] to [w'] wrote no file but [path]. *)
Definition same_files_but {G} (path : ustring) (w w' : world G) : Prop :=
  forall p, p <> path -> files w' !! p = files w !! p.

(** What was printed in [w] is still the beginning of what is printed in
    [w']. *)
Definition out_grows {G} (w w' : world G) : Prop := out w `prefix_of` out w'.

(** Both: the only changes from [w] to [w'] are lines added to the
    output and, at most, the file [path]. *)
Definition extends {G} (path : ustring) (w w' : world G) : Prop :=
  same_files_but path w w' /\ out_grows w w'.

(** A computation that changes the world only along [R]. *)
Definition io_keeps {G A} (R : relation (world G)) (m : io G A) : Prop :=
  forall w, R w (m w).2.

(** ** Lemmas *)

Section Laws.
Context {G : Type}.
Implicit Types (w : world G).

Lemma io_bind_ret_l {A B} (a : A) (k : A -> io G B) w :
  io_bind (io_ret a) k w = k a w.
Proof. done. Qed.

Lemma io_bind_ret_r {A} (m : io G A) w : io_bind m io_ret w = m w.
Proof. unfold io_bind. by destruct (m w) as [[a|e] w']. Qed.

Lemma io_bind_assoc {A B C} (m : io G A) (k : A -> io G B) (h : B -> io G C) w :
  io_bind (io_bind m k) h w = io_bind m (fun a => io_bind (k a) h) w.
Proof. unfold io_bind. by destruct (m w) as [[a|e] w']. Qed.

Lemma io_bind_ext {A B} (m : io G A) (k k' : A -> io G B) w :
  (forall a w', k a w' = k' a w') -> io_bind m k w = io_bind m k' w.
Proof. intros Hk. unfold io_bind. by destruct (m w) as [[a|e] w']. Qed.

Lemma io_bind_raise {A B} (e : exn) (k : A -> io G B) w :
  io_bind (raise e) k w = (Err e, w).
Proof. done. Qed.

Lemma io_bind_ok {A B} (m : io G A) (k : A -> io G B) w a w' :
  m w = (Ok a, w') -> io_bind m k w = k a w'.
Proof. unfold io_bind. by intros ->. Qed.

Lemma io_bind_err {A B} (m : io G A) (k : A -> io G B) w e w' :
  m w = (Err e, w') -> io_bind m k w = (Err e, w').
Proof. unfold io_bind. by intros ->. Qed.

Lemma printed_nil w : printed w [] = w.
Proof. unfold printed. rewrite app_nil_r. by destruct w. Qed.

Lemma printed_app w l1 l2 : printed (printed w l1) l2 = printed w (l1 ++ l2).
Proof. unfold printed. simpl. by rewrite app_assoc. Qed.

Lemma print_all_spec lines w : print_all lines w = (Ok tt, printed w lines).
Proof.
  revert w. induction lines as [|l lines IH]; intros w.
  - simpl. unfold io_ret. by rewrite printed_nil.
  - simpl. unfold io_bind, print. by rewrite IH, printed_app.
Qed.

Lemma print_all_app l1 l2 w :
  print_all (l1 ++ l2) w = (print_all l1 ;;; print_all l2)%io w.
Proof.
  unfold io_bind. rewrite (print_all_spec (l1 ++ l2)), (print_all_spec l1).
  by rewrite print_all_spec, printed_app.
Qed.

#[export] Instance same_files_but_refl path : Reflexive (@same_files_but G path).
Proof. by intros w p _. Qed.

#[export] Instance same_files_but_trans path : Transitive (@same_files_but G path).
Proof. intros w1 w2 w3 H12 H23 p Hp. by rewrite H23, H12. Qed.

#[export] Instance out_grows_preorder : PreOrder (@out_grows G).
Proof. unfold out_grows. split; [by intros w | intros w1 w2 w3; apply transitivity]. Qed.

Lemma written_extends path m w : extends path w (written w path m).
Proof. split; [|by unfold out_grows]. intros p Hp. simpl. by rewrite lookup_insert_ne. Qed.

Lemma printed_extends path lines w : extends path w (printed w lines).
Proof. split; [by intros p|]. unfold out_grows. simpl. by apply prefix_app_r. Qed.

#[export] Instance extends_preorder path : PreOrder (@extends G path).
Proof.
  split.
  - by intros w.
  - intros w1 w2 w3 [F12 O12] [F23 O23]. split; by etrans.
Qed.

Lemma io_keeps_bind {A B} (R : relation (world G)) `{!PreOrder R}
    (m : io G A) (k : A -> io G B) :
  io_keeps R m -> (forall a, io_keeps R (k a)) -> io_keeps R (io_bind m k).
Proof.
  intros Hm Hk w. unfold io_bind. specialize (Hm w).
  destruct (m w) as [[a|e] w']; [|done]. by etrans; [|apply Hk].
Qed.

Lemma io_keeps_pure {A} (R : relation (world G)) `{!Reflexive R} (m : io G A) :
  (forall w, (m w).2 = w) -> io_keeps R m.
Proof. intros Hm w. by rewrite Hm. Qed.

Lemma read_file_world path w : (read_file path w).2 = w.
Proof. unfold read_file. by repeat case_match. Qed.

Lemma read_csv_world path w : (read_csv (G := G) path w).2 = w.
Proof. unfold read_csv. by repeat case_match. Qed.

Lemma getitem_Kunta_world vak w : (getitem_Kunta (G := G) vak w).2 = w.
Proof. unfold getitem_Kunta. by case_match. Qed.

Lemma getitem_Vakiluku_world vak w : (getitem_Vakiluku (G := G) vak w).2 = w.
Proof. unfold getitem_Vakiluku. by case_match. Qed.

Lemma merged_getitem_Vakiluku_world cols w :
  (merged_getitem_Vakiluku (G := G) cols w).2 = w.
Proof. unfold merged_getitem_Vakiluku. by case_match. Qed.

Lemma print_extends path line : io_keeps (extends path) (print (G := G) line).
Proof. intros w. apply printed_extends. Qed.

Lemma print_all_extends path lines :
  io_keeps (extends path) (print_all (G := G) lines).
Proof. intros w. rewrite print_all_spec. apply printed_extends. Qed.

Lemma save_extends path m : io_keeps (extends path) (save (G := G) path m).
Proof. intros w. apply written_extends. Qed.

End Laws.

#[export] Hint Rewrite @io_bind_ret_l @io_bind_raise @print_all_spec
  @printed_nil @printed_app : paikannus_rw.
#[export] Hint Resolve written_extends printed_extends : paikannus.
#[export] Hint Resolve print_extends print_all_extends save_extends : paikannus.
#[export] Hint Resolve read_file_world read_csv_world getitem_Kunta_world
  getitem_Vakiluku_world merged_getitem_Vakiluku_world : paikannus.

(** Splits a goal [io_keeps R m] along the binds and the case
    distinctions of [m] and closes the goals of the primitive actions
    with the hints. *)
Ltac io_keeps :=
  repeat first
    [ apply io_keeps_bind; [apply _ | | intros ?]
    | progress cbv zeta
    | solve [eauto with paikannus]
    | solve [apply io_keeps_pure; [apply _ | intros ?; eauto with paikannus]]
    | lazymatch goal with
      | |- io_keeps _ (match ?x with _ => _ end) => destruct x
      end ].
