(* ===== verification/Script.v ===== *)
(** * The script as a program over the world (main.py 11-12, 32-102)

    [script] is the body of the file in the monad of [World], in the
    sections that the comments of the file number: reading the boundaries
    and choosing the name column, the areas, reading the table and joining
    it, the map.  It reads the two files named by [GEOJSON] and [CSV],
    prints, and writes the file named by [OUTPUT].  Where [Pipeline.main]
    takes the two frames as arguments and assumes that the table has its
    two columns, [script] finds the frames in the world and raises what
    the libraries raise when a file or a column is missing, and what the
    marker loop raises: the exception of [int()] on a population, or
    that of a feature without a point.  [outcome] lists the ways
    a run can end; the theorems say that the script ends in one of them,
    when it ends normally, relate it to [main], and bound what any run
    can change. *)

From stdpp Require Import gmap list.
From Stdlib Require Import QArith.
From S2P Require Import Prelude Unicode Normalize Alias Frame Join Meet Report.
From S2P Require Import Format Geometry MapBuild Markers Pipeline World.
Local Close Scope Q_scope.

(** Lines 11-12. *)
Definition GEOJSON : ustring := u "kuntarajat-2018-raw.geojson".
Definition CSV : ustring := u "vakiluku.csv".

Section Script.
Context `{CF : CaseFold} {G : Type} `{GE : Geometry G} `{IS : IntStr}.

(** Lines 35-42: the name column, with the [ValueError] raised or the
    line printed. *)
Definition choose_name_col (gdf_raw : raw_frame G) : io G ustring :=
  match pick_name_col (columns gdf_raw) with
  | Err e => raise (Raised e)
  | Ok (name_col, line) => (print line ;;; io_ret name_col)%io
  end.

(** Section 1 of the script, lines 32-42. *)
Definition read_boundaries : io G (raw_frame G * ustring) :=
  (gdf_raw <- read_file GEOJSON ;;
   name_col <- choose_name_col gdf_raw ;;
   io_ret (gdf_raw, name_col))%io.

(** Section 4, lines 52-70: the table, the keys, the merge, the list of
    the missing populations and its report.  [cols] are the columns of
    the boundary frame. *)
Definition join_population (cols : list ustring) (name_col : ustring)
    (gdf : list (area_row G)) : io G (list (area_row G * option popcell)) :=
  (vak <- read_csv CSV ;;
   kunta <- getitem_Kunta vak ;;
   let vak_key := replace_aliases ALIASES (normalize <$> kunta) in
   let name_of := fun r : area_row G => cell (base r) name_col in
   vakiluku <- getitem_Vakiluku vak ;;
   let vak2 := zip vak_key vakiluku in
   let gdf := merge_left (with_key name_of gdf) vak2 in
   merged_getitem_Vakiluku cols ;;;
   let puuttuvat := puuttuvat name_of gdf in
   print_all (report puuttuvat) ;;;
   io_ret gdf)%io.

(** Section 5, lines 73-102: the map is built, with the exception of
    the marker loop when a row raises, and only then saved. *)
Definition draw_map (name_col : ustring) (gdf : list (area_row G * option popcell))
  : io G unit :=
  match build_map_py name_col gdf with
  | Ok m =>
      (save OUTPUT m ;;;
       print (u "OK → " ++ OUTPUT))%io
  | Err e => raise (marker_exn e)
  end.

(** Lines 32-102. *)
Definition script : io G unit :=
  (r <- read_boundaries ;;
   let gdf_raw := r.1 in
   let name_col := r.2 in
   let gdf := gdf_of_raw (rows gdf_raw) in
   gdf <- join_population (columns gdf_raw) name_col gdf ;;
   draw_map name_col gdf)%io.

(** The worlds in which only the choice of the name column and the
    marker loop can fail: both files are there, the table has its two
    columns and the boundary frame has no column called "Väkiluku". *)
Definition good_world (w : world G) (f : raw_frame G) (t : csv_frame) : Prop :=
  files w !! GEOJSON = Some (Boundaries f)
  /\ files w !! CSV = Some (Table t)
  /\ has_column (csv_columns t) (u "Kunta") = true
  /\ has_column (csv_columns t) (u "Väkiluku") = true
  /\ has_column (columns f) (u "Väkiluku") = false.

(** Some row of the table has the words of the name of a boundary, up
    to the alias, and a population on which [int()] raises [e]. *)
Definition meets_rejected (name_col : ustring) (f : raw_frame G) (t : csv_frame)
    (e : int_error) : Prop :=
  exists r a x, r ∈ gdf_of_raw (rows f) /\ a ∈ csv_rows t
    /\ same_words (cell (base r) name_col) (Kunta a)
    /\ Vakiluku a = Some x /\ int_py x = Err e.

(** Every feature of the boundary file has a geometry that is neither
    missing nor empty. *)
Definition has_points (f : raw_frame G) : bool :=
  forallb (fun r => has_point (geometry r)) (rows f).

(** What a run of [Pipeline.main] means for the world. *)
Definition lift_main (r : result error (output G)) : io G unit :=
  fun w =>
    match r with
    | Ok o => (Ok tt, written (printed w (stdout o)) OUTPUT (saved o))
    | Err e => (Err (Raised e), w)
    end.

(** What a run computes from the content of its two input files: the
    result, the lines it prints and the map it saves, if any. *)
Definition script_on (geojson csv : option (file G))
  : result exn unit * list ustring * option (Map G) :=
  match geojson with
  | Some (Boundaries f) =>
      match pick_name_col (columns f) with
      | Err e => (Err (Raised e), [], None)
      | Ok (c, line) =>
          match csv with
          | Some (Table t) =>
              if negb (has_column (csv_columns t) (u "Kunta"))
              then (Err (KeyError (u "Kunta")), [line], None)
              else if negb (has_column (csv_columns t) (u "Väkiluku"))
              then (Err (KeyError (u "Väkiluku")), [line], None)
              else if has_column (columns f) (u "Väkiluku")
              then (Err (KeyError (u "Väkiluku")), [line], None)
              else
                let gdf := merged c f (csv_rows t) in
                let lines := line :: report (puuttuvat (fun r => cell (base r) c) gdf) in
                match build_map_py c gdf with
                | Ok m => (Ok tt, lines ++ [u "OK → " ++ OUTPUT], Some m)
                | Err e => (Err (marker_exn e), lines, None)
                end
          | _ => (Err (ReadError CSV), [line], None)
          end
      end
  | _ => (Err (ReadError GEOJSON), [], None)
  end.

(** Two directories with the same input files. *)
Definition same_inputs (w1 w2 : world G) : Prop :=
  files w1 !! GEOJSON = files w2 !! GEOJSON /\ files w1 !! CSV = files w2 !! CSV.

(** The world after a run that printed [lines] and saved [m]. *)
Definition after (w : world G) (lines : list ustring) (m : option (Map G))
  : world G :=
  match m with
  | Some m => written (printed w lines) OUTPUT m
  | None => printed w lines
  end.

(** The ways a run from [w] can end, in the order in which the script
    meets them. *)
Inductive outcome (w : world G) : result exn unit * world G -> Prop :=
| no_boundaries :
    (forall f, files w !! GEOJSON <> Some (Boundaries f)) ->
    outcome w (Err (ReadError GEOJSON), w)
| no_name_column f e :
    files w !! GEOJSON = Some (Boundaries f) ->
    pick_name_col (columns f) = Err e ->
    outcome w (Err (Raised e), w)
| no_table f c line :
    files w !! GEOJSON = Some (Boundaries f) ->
    pick_name_col (columns f) = Ok (c, line) ->
    (forall t, files w !! CSV <> Some (Table t)) ->
    outcome w (Err (ReadError CSV), printed w [line])
| no_Kunta f c line t :
    files w !! GEOJSON = Some (Boundaries f) ->
    pick_name_col (columns f) = Ok (c, line) ->
    files w !! CSV = Some (Table t) ->
    has_column (csv_columns t) (u "Kunta") = false ->
    outcome w (Err (KeyError (u "Kunta")), printed w [line])
| no_Vakiluku f c line t :
    files w !! GEOJSON = Some (Boundaries f) ->
    pick_name_col (columns f) = Ok (c, line) ->
    files w !! CSV = Some (Table t) ->
    has_column (csv_columns t) (u "Kunta") = true ->
    has_column (csv_columns t) (u "Väkiluku") = false ->
    outcome w (Err (KeyError (u "Väkiluku")), printed w [line])
| clash_Vakiluku f c line t :
    files w !! GEOJSON = Some (Boundaries f) ->
    pick_name_col (columns f) = Ok (c, line) ->
    files w !! CSV = Some (Table t) ->
    has_column (csv_columns t) (u "Kunta") = true ->
    has_column (csv_columns t) (u "Väkiluku") = true ->
    has_column (columns f) (u "Väkiluku") = true ->
    outcome w (Err (KeyError (u "Väkiluku")), printed w [line])
| marker_raises f c line t e :
    good_world w f t ->
    pick_name_col (columns f) = Ok (c, line) ->
    build_map_py c (merged c f (csv_rows t)) = Err e ->
    outcome w
      (Err (marker_exn e),
       printed w
         (line :: report (puuttuvat (fun r => cell (base r) c) (merged c f (csv_rows t)))))
| completed f c line t m :
    good_world w f t ->
    pick_name_col (columns f) = Ok (c, line) ->
    build_map_py c (merged c f (csv_rows t)) = Ok m ->
    outcome w
      (Ok tt,
       written
         (printed w
            (line :: report (puuttuvat (fun r => cell (base r) c) (merged c f (csv_rows t)))
               ++ [u "OK → " ++ OUTPUT]))
         OUTPUT m).

End Script.

(** ** Lemmas *)

Section ScriptLemmas.
Context `{CF : CaseFold} {G : Type} `{GE : Geometry G} `{IS : IntStr}.
Implicit Types (w : world G) (f : raw_frame G) (t : csv_frame).

Lemma merge_left_merged {V} name_col f (vak : list (vak_row V)) :
  merge_left
    (with_key (fun r : area_row G => cell (base r) name_col) (gdf_of_raw (rows f)))
    (zip (replace_aliases ALIASES (normalize <$> (Kunta <$> vak))) (Vakiluku <$> vak))
  = merged name_col f vak.
Proof.
  unfold merged, join_vakiluku, vak2, vak_key. by rewrite <- list_fmap_compose.
Qed.

(** Section 1 on every world. *)
Lemma read_boundaries_spec w :
  read_boundaries w
  = match files w !! GEOJSON with
    | Some (Boundaries f) =>
        match pick_name_col (columns f) with
        | Ok (c, line) => (Ok (f, c), printed w [line])
        | Err e => (Err (Raised e), w)
        end
    | _ => (Err (ReadError GEOJSON), w)
    end.
Proof.
  unfold read_boundaries, io_bind, read_file, choose_name_col.
  destruct (files w !! GEOJSON) as [[f|t|m]|]; try done.
  by destruct (pick_name_col (columns f)) as [[c line]|e].
Qed.

(** Section 4 on every world. *)
Lemma join_population_spec f c w :
  join_population (columns f) c (gdf_of_raw (rows f)) w
  = match files w !! CSV with
    | Some (Table t) =>
        if negb (has_column (csv_columns t) (u "Kunta"))
        then (Err (KeyError (u "Kunta")), w)
        else if negb (has_column (csv_columns t) (u "Väkiluku"))
        then (Err (KeyError (u "Väkiluku")), w)
        else if has_column (columns f) (u "Väkiluku")
        then (Err (KeyError (u "Väkiluku")), w)
        else
          let gdf := merged c f (csv_rows t) in
          (Ok gdf, printed w (report (puuttuvat (fun r => cell (base r) c) gdf)))
    | _ => (Err (ReadError CSV), w)
    end.
Proof.
  unfold join_population, io_bind at 1, read_csv.
  destruct (files w !! CSV) as [[f'|t|m]|]; try done.
  unfold io_bind at 1, getitem_Kunta.
  destruct (has_column (csv_columns t) (u "Kunta")); [|done].
  unfold io_bind at 1, getitem_Vakiluku, io_ret at 1.
  destruct (has_column (csv_columns t) (u "Väkiluku")); [|done].
  unfold io_bind at 1, merged_getitem_Vakiluku, io_ret at 1.
  destruct (has_column (columns f) (u "Väkiluku")); [done|].
  cbv beta iota zeta. unfold io_ret at 1, io_bind.
  by rewrite merge_left_merged, print_all_spec.
Qed.

Lemma draw_map_spec c gdf w :
  draw_map c gdf w
  = match build_map_py c gdf with
    | Ok m => (Ok tt, printed (written w OUTPUT m) [u "OK → " ++ OUTPUT])
    | Err e => (Err (marker_exn e), w)
    end.
Proof. unfold draw_map. by destruct (build_map_py c gdf). Qed.

(** The rows of the merged frame have points exactly when the features
    of the file have. *)
Lemma has_points_merged {V} c f (vak : list (vak_row V)) :
  Forall (fun row => has_point (geometry (base row.1)) = true) (merged c f vak)
  <-> has_points f = true.
Proof.
  unfold has_points, merged. rewrite <- gdf_of_raw_Forall_has_point, !Forall_forall.
  setoid_rewrite <- (elem_of_join_fst (fun r => cell (base r) c) ALIASES _ vak).
  setoid_rewrite list_elem_of_fmap. split.
  - intros Hm r ([r' v] & -> & Hin). by apply (Hm _ Hin).
  - intros Hr row Hin. apply Hr. eauto.
Qed.

(** A table of finite numbers on boundaries with points: the merged
    frame is the one of the rationals, no row raises, and the same names
    are missing. *)
Lemma checked_rows_map_value (rows : list (area_row G * option Q)) :
  Forall (fun row => has_point (geometry (base row.1)) = true) rows ->
  checked_rows (map_value Finite <$> rows) = Ok rows.
Proof.
  unfold checked_rows. induction 1 as [|[r v] rows Hr _ IH]; [done|].
  csimpl. unfold checked_row at 1. cbn [fst snd map_value] in *.
  rewrite Hr, IH. by destruct v.
Qed.

Lemma build_map_py_finite_table c f (vak : list (vak_row Q)) :
  has_points f = true ->
  build_map_py c (merged c f (finite_table vak)) = Ok (build_map c (merged c f vak)).
Proof.
  intros Hf%(has_points_merged c f vak). unfold finite_table.
  by rewrite build_map_py_checked, merged_map_row, checked_rows_map_value.
Qed.

(** A cell of the merged frame is the population of a table row that
    has met a boundary. *)
Lemma elem_of_merged_Some c f t r x :
  In (r, Some x) (merged c f (csv_rows t)) <->
  r ∈ gdf_of_raw (rows f) /\
  exists a, a ∈ csv_rows t /\ same_words (cell (base r) c) (Kunta a) /\ Vakiluku a = Some x.
Proof.
  unfold merged. rewrite <- list_elem_of_In, elem_of_join_Some.
  by setoid_rewrite meet_same_words.
Qed.

(** [int()] returns on every cell of the merged frame exactly when no
    population that meets a boundary is rejected. *)
Lemma merged_accepted_iff c f t :
  Forall (fun row => forall x, row.2 = Some x -> exists z, int_py x = Ok z)
    (merged c f (csv_rows t))
  <-> forall e, ~ meets_rejected c f t e.
Proof.
  rewrite Forall_forall. setoid_rewrite list_elem_of_In. split.
  - intros Hm e (r & a & x & Hr & Ha & Hs & Hv & Hx).
    destruct (Hm (r, Some x)) with (x := x) as [z Hz]; [|done|congruence].
    apply elem_of_merged_Some. eauto.
  - intros Hm [r v] Hin x [= ->]. destruct (int_py x) as [z|e] eqn:Hx; [eauto|].
    destruct (Hm e). apply elem_of_merged_Some in Hin as (Hr & a & Ha & Hs & Hv).
    by exists r, a, x.
Qed.

(** The marker loop returns exactly when [int()] accepts every
    population that meets a boundary and every feature has a point. *)
Lemma build_map_py_merged_Ok_iff c f t :
  (exists m, build_map_py c (merged c f (csv_rows t)) = Ok m)
  <-> (forall e, ~ meets_rejected c f t e) /\ has_points f = true.
Proof.
  rewrite build_map_py_Ok_iff. unfold row_ok. rewrite Forall_and.
  by rewrite merged_accepted_iff, has_points_merged.
Qed.

(** The exception of the marker loop is that of [int()] on a population
    that has met a boundary, or that of a feature without a point. *)
Lemma build_map_py_merged_Err c f t e :
  build_map_py c (merged c f (csv_rows t)) = Err e ->
  match e with
  | IntRaised e => meets_rejected c f t e
  | NoPoint => has_points f = false
  end.
Proof.
  intros ([r v] & Hin & He)%build_map_py_Err_In.
  destruct He as [(x & e' & Hv & Hx & ->)|(_ & Hp & ->)]; cbn [fst snd] in *.
  - subst v. apply elem_of_merged_Some in Hin as (Hr & a & Ha & Hs & Hv).
    by exists r, a, x.
  - destruct (has_points f) eqn:Hf; [|done].
    apply (has_points_merged c f (csv_rows t)) in Hf.
    rewrite Forall_forall in Hf. apply list_elem_of_In, Hf in Hin. simpl in Hin. congruence.
Qed.

(** The marker loop raises when [int()] rejects a population that has
    met a boundary, and when a feature has no point. *)
Lemma build_map_py_merged_raises c f t :
  (exists e, meets_rejected c f t e) \/ has_points f = false ->
  exists e, build_map_py c (merged c f (csv_rows t)) = Err e.
Proof.
  intros Hbad. destruct (build_map_py c _) as [m|e] eqn:E; [|eauto].
  destruct (proj1 (build_map_py_merged_Ok_iff c f t)) as [Hm Hf]; [eauto|].
  destruct Hbad as [[e He]|Hp]; [by destruct (Hm e)|congruence].
Qed.

Lemma puuttuvat_finite_table c f (vak : list (vak_row Q)) :
  puuttuvat (fun r : area_row G => cell (base r) c) (merged c f (finite_table vak))
  = puuttuvat (fun r => cell (base r) c) (merged c f vak).
Proof. unfold finite_table. by rewrite merged_map_row, puuttuvat_map_value. Qed.

Lemma written_printed w lines path (m : Map G) :
  printed (written w path m) lines = written (printed w lines) path m.
Proof. done. Qed.

Lemma script_unfold w :
  script w
  = match read_boundaries w with
    | (Ok (f, c), w1) =>
        match join_population (columns f) c (gdf_of_raw (rows f)) w1 with
        | (Ok gdf, w2) => draw_map c gdf w2
        | (Err e, w2) => (Err e, w2)
        end
    | (Err e, w1) => (Err e, w1)
    end.
Proof. unfold script, io_bind. by destruct (read_boundaries w) as [[[f c]|e] w1]. Qed.

(** The script in a world where nothing but the choice of the name
    column can fail. *)
Lemma script_good w f t :
  good_world w f t ->
  script w
  = match pick_name_col (columns f) with
    | Ok (c, line) =>
        let gdf := merged c f (csv_rows t) in
        let lines := line :: report (puuttuvat (fun r => cell (base r) c) gdf) in
        match build_map_py c gdf with
        | Ok m => (Ok tt, written (printed w (lines ++ [u "OK → " ++ OUTPUT])) OUTPUT m)
        | Err e => (Err (marker_exn e), printed w lines)
        end
    | Err e => (Err (Raised e), w)
    end.
Proof.
  intros (Hg & Hc & Hk & Hv & Hf). rewrite script_unfold, read_boundaries_spec, Hg.
  destruct (pick_name_col (columns f)) as [[c line]|e]; [|done].
  rewrite join_population_spec. cbn [files printed]. rewrite Hc, Hk, Hv, Hf.
  cbn [negb]. cbv zeta. rewrite draw_map_spec, !printed_app.
  destruct (build_map_py c _); [|done].
  by rewrite written_printed, !printed_app.
Qed.

(** In a good world the exception of [int()] is that of a population
    that has met a boundary. *)
Lemma script_IntError_rejected w f t c line e :
  good_world w f t -> pick_name_col (columns f) = Ok (c, line) ->
  (script w).1 = Err (IntError e) -> meets_rejected c f t e.
Proof.
  intros Hw Hp. rewrite (script_good w f t Hw), Hp. cbv zeta.
  pose proof (build_map_py_merged_Err c f t) as Herr.
  destruct (build_map_py c _) as [m|[e'|]]; [done| |done].
  intros [= <-]. by apply (Herr (IntRaised e')).
Qed.

(** The same with a table of finite numbers and a point in every
    feature: no exception but that of the name column. *)
Lemma script_finite w f t (vak : list (vak_row Q)) :
  good_world w f t -> csv_rows t = finite_table vak -> has_points f = true ->
  script w
  = match pick_name_col (columns f) with
    | Ok (c, line) =>
        let gdf := merged c f vak in
        (Ok tt,
         written
           (printed w (line :: report (puuttuvat (fun r => cell (base r) c) gdf)
                         ++ [u "OK → " ++ OUTPUT]))
           OUTPUT (build_map c gdf))
    | Err e => (Err (Raised e), w)
    end.
Proof.
  intros Hw Ht Hf. rewrite (script_good w f t Hw), Ht.
  destruct (pick_name_col (columns f)) as [[c line]|e]; [|done].
  cbv zeta. by rewrite build_map_py_finite_table, puuttuvat_finite_table.
Qed.

#[export] Instance same_inputs_equiv : Equivalence (@same_inputs G).
Proof.
  unfold same_inputs. split.
  - by intros w.
  - by intros w1 w2 [-> ->].
  - by intros w1 w2 w3 [-> ->] [-> ->].
Qed.

Lemma after_nil w : after w [] None = w.
Proof. apply printed_nil. Qed.

(** The script is a function of the content of the two input files: the
    rest of the world only receives what the run prints and saves. *)
Lemma script_on_eq w :
  script w
  = let '(r, lines, m) := script_on (files w !! GEOJSON) (files w !! CSV) in
    (r, after w lines m).
Proof.
  rewrite script_unfold, read_boundaries_spec. unfold script_on.
  destruct (files w !! GEOJSON) as [[f|t|m]|]; try by rewrite after_nil.
  destruct (pick_name_col (columns f)) as [[c line]|e]; [|by rewrite after_nil].
  rewrite join_population_spec. cbn [files printed].
  destruct (files w !! CSV) as [[f'|t|m]|]; try done.
  destruct (has_column (csv_columns t) (u "Kunta")); [|done].
  destruct (has_column (csv_columns t) (u "Väkiluku")); [|done].
  destruct (has_column (columns f) (u "Väkiluku")); [done|].
  cbn [negb]. cbv beta iota zeta. rewrite draw_map_spec, !printed_app.
  destruct (build_map_py c _); [|done].
  unfold after. by rewrite written_printed, !printed_app.
Qed.

Lemma script_on_saved geojson csv :
  (script_on geojson csv).1.1 = Ok tt -> is_Some (script_on geojson csv).2.
Proof. unfold script_on. repeat case_match; by eauto. Qed.

Lemma script_on_lines geojson csv : length (script_on geojson csv).1.2 <= 24.
Proof.
  unfold script_on. repeat case_match; simpl; try lia;
    rewrite ?length_app; simpl;
    match goal with |- context [report ?p] => pose proof (report_length_le p) end;
    lia.
Qed.

(** A run that ends normally started in a good world. *)
Lemma script_ok_good w :
  (script w).1 = Ok tt ->
  exists f t c line, good_world w f t /\ pick_name_col (columns f) = Ok (c, line).
Proof.
  rewrite script_on_eq. unfold script_on, good_world.
  destruct (files w !! GEOJSON) as [[f|?|?]|] eqn:Hg; try discriminate.
  destruct (pick_name_col (columns f)) as [[c line]|e] eqn:Hp; [|discriminate].
  destruct (files w !! CSV) as [[?|t|?]|] eqn:Hc; try discriminate.
  destruct (has_column (csv_columns t) (u "Kunta")) eqn:Hk; [|discriminate].
  destruct (has_column (csv_columns t) (u "Väkiluku")) eqn:Hv; [|discriminate].
  destruct (has_column (columns f) (u "Väkiluku")) eqn:Hf; [discriminate|].
  intros _. by exists f, t, c, line.
Qed.

Lemma out_after w lines m : out (after w lines m) = out w ++ lines.
Proof. by destruct m. Qed.

(** The output file is neither of the input files, so a run leaves its
    inputs as they were. *)
Lemma same_inputs_after w lines m : same_inputs w (after w lines m).
Proof.
  unfold same_inputs, after. destruct m; cbn [files written printed]; [|done].
  by rewrite !lookup_insert_ne by (vm_compute; discriminate).
Qed.

(** The result of a run respects [same_inputs]. *)
Lemma script_result_proper :
  Proper (same_inputs ==> eq) (fun w : world G => (script w).1).
Proof.
  intros w1 w2 [Hg Hc]. rewrite (script_on_eq w1), (script_on_eq w2), Hg, Hc.
  by destruct (script_on _ _) as [[r lines] m].
Qed.

Lemma main_pick f (vak : list (vak_row Q)) :
  main f vak
  = match pick_name_col (columns f) with
    | Ok (c, line) => Ok (run_with c line f vak)
    | Err e => Err e
    end.
Proof. unfold main, bind. by destruct (pick_name_col (columns f)) as [[c line]|e]. Qed.

End ScriptLemmas.

(** ** Theorems *)

Section Theorems.
Context `{CF : CaseFold} {G : Type} `{GE : Geometry G} `{IS : IntStr}.
Implicit Types (w : world G) (f : raw_frame G) (t : csv_frame).

(** C19: in a world where both files are there, the table has its two
    columns and finite numbers only, and the boundary frame has no column
    "Väkiluku" and a point in every feature, the script does what [main]
    computes from the two frames: it raises the
    [ValueError] of [main] and changes nothing, or it prints the lines
    of [main] after what was printed before and writes the map of [main]
    to the output file. *)
Theorem script_refines_main w f t (vak : list (vak_row Q)) :
  good_world w f t -> csv_rows t = finite_table vak -> has_points f = true ->
  script w = lift_main (main f vak) w.
Proof.
  intros Hw Ht Hf. rewrite (script_finite w f t vak Hw Ht Hf), main_pick. unfold lift_main.
  destruct (pick_name_col (columns f)) as [[c line]|e]; [|done].
  unfold run_with. cbn [stdout saved]. reflexivity.
Qed.

(** C15: every run ends in one of the eight ways of [outcome]: the
    exception of a file that cannot be read, the [ValueError] of the name
    column, the [KeyError] of a column that the table lacks or that the
    merge renamed, the exception of the marker loop (that of [int()] on
    line 88 for an infinite population or a text that is not an integer,
    or that of line 95 for a feature without a point) after the report
    is printed, each with what was printed before it and no file
    written, or the normal end with the report printed and the map
    written. *)
Theorem script_outcome w : outcome w (script w).
Proof.
  rewrite script_unfold, read_boundaries_spec.
  destruct (files w !! GEOJSON) as [[f|t|m]|] eqn:Hg;
    try (apply no_boundaries; congruence).
  destruct (pick_name_col (columns f)) as [[c line]|e] eqn:Hp;
    [|by eapply no_name_column].
  rewrite join_population_spec. cbn [files printed].
  destruct (files w !! CSV) as [[f'|t|m]|] eqn:Hc;
    try (eapply no_table; [done..|congruence]).
  destruct (has_column (csv_columns t) (u "Kunta")) eqn:Hk;
    [|by eapply no_Kunta].
  destruct (has_column (csv_columns t) (u "Väkiluku")) eqn:Hv;
    [|by eapply no_Vakiluku].
  destruct (has_column (columns f) (u "Väkiluku")) eqn:Hf;
    [by eapply clash_Vakiluku|].
  assert (Hw : good_world w f t) by done.
  cbn [negb]. cbv zeta. rewrite draw_map_spec, !printed_app.
  destruct (build_map_py c _) as [m|e] eqn:Hm; [|by eapply marker_raises].
  rewrite written_printed, !printed_app. by eapply completed.
Qed.

(** C27: whatever the world and however the run ends, the script
    touches no file but the output file, and what was printed before the
    run is still there, in front of what the run printed. *)
Theorem script_frame w :
  same_files_but OUTPUT w (script w).2 /\ out_grows w (script w).2.
Proof.
  revert w. change (io_keeps (extends OUTPUT) script).
  unfold script, read_boundaries, choose_name_col, join_population, draw_map.
  io_keeps.
Qed.

(** C28: a run depends on the directory only through the content of
    the two input files: in two directories that agree on them the script
    ends in the same way, prints the same lines after whatever was printed
    before, and, when it ends normally, leaves the same map in the output
    file. *)
Theorem script_reads_inputs_only w1 w2 :
  same_inputs w1 w2 ->
  (script w1).1 = (script w2).1
  /\ drop (length (out w1)) (out (script w1).2)
     = drop (length (out w2)) (out (script w2).2)
  /\ ((script w1).1 = Ok tt ->
      files (script w1).2 !! OUTPUT = files (script w2).2 !! OUTPUT).
Proof.
  intros Hw. split; [by apply script_result_proper|]. destruct Hw as [Hg Hc].
  rewrite (script_on_eq w1), (script_on_eq w2), Hg, Hc.
  pose proof (script_on_saved (files w2 !! GEOJSON) (files w2 !! CSV)) as Hs.
  destruct (script_on _ _) as [[r lines] m]. cbn [fst snd] in *.
  rewrite !out_after, !drop_app_length. repeat split.
  intros Hr. destruct (Hs Hr) as [m' ->]. simpl. by rewrite !lookup_insert_eq.
Qed.

(** C17: in a world where both files are there, with the columns of the
    table and a name column, the run raises what [int()] raises on line
    88, the [OverflowError] of an infinity or the [ValueError] of a text
    that is not an integer, only for a population of a table row that
    has the words of the name of a boundary, up to the alias; it raises
    the exception of line 95 only when a feature of the boundary file has
    no point; and it does raise one of the two when there is such a
    population or such a feature.  A row that meets no boundary does no
    harm, whatever its population. *)
Theorem script_marker_error w f t c line :
  good_world w f t -> pick_name_col (columns f) = Ok (c, line) ->
  (forall e, (script w).1 = Err (IntError e) -> meets_rejected c f t e)
  /\ ((script w).1 = Err PointError -> has_points f = false)
  /\ ((exists e, meets_rejected c f t e) \/ has_points f = false ->
      exists e, (script w).1 = Err (marker_exn e)).
Proof.
  intros Hw Hp. rewrite (script_good w f t Hw), Hp. cbv zeta.
  pose proof (build_map_py_merged_Err c f t) as Herr.
  pose proof (build_map_py_merged_raises c f t) as Hraises.
  destruct (build_map_py c _) as [m|e']; repeat split; try done.
  - intros Hbad. by destruct (Hraises Hbad).
  - intros e Hr. destruct e'; simplify_eq/=. by apply (Herr (IntRaised e)).
  - intros Hr. destruct e'; simplify_eq/=. by apply (Herr NoPoint).
  - eauto.
Qed.

(** The exception of line 88 by the type of the column: in a column of
    floats it is the [OverflowError] of an infinity, in a column that the
    reader left as text it is the [ValueError] of a string of the
    column. *)
Theorem script_error_by_dtype w f t c line e :
  good_world w f t -> pick_name_col (columns f) = Ok (c, line) ->
  (script w).1 = Err (IntError e) ->
  (float_column t = true -> e = OverflowError)
  /\ (text_column t = true ->
      exists a s, a ∈ csv_rows t /\ Vakiluku a = Some (Text s) /\ e = InvalidLiteral s).
Proof.
  intros Hw Hp Hr.
  destruct (script_IntError_rejected w f t c line e Hw Hp Hr)
    as (r & a & x & _ & Ha & _ & Hv & Hx).
  unfold float_column, text_column. rewrite !forallb_forall.
  split; intros Hcol; specialize (Hcol a (proj1 (list_elem_of_In _ _) Ha));
    rewrite Hv in Hcol; destruct x as [q|b|s]; simplify_eq/=; [done|].
  exists a, s. repeat split; [done..|]. destruct (int_str s); by simplify_eq.
Qed.

(** C16: the run ends normally exactly when both files are there, the
    table has its two columns, the boundary frame has a name column and
    no column "Väkiluku", [int()] accepts every population that meets a
    boundary, and every feature has a point. *)
Theorem script_ok_iff w :
  (script w).1 = Ok tt <->
  exists f t c line, good_world w f t /\ pick_name_col (columns f) = Ok (c, line)
    /\ (forall e, ~ meets_rejected c f t e) /\ has_points f = true.
Proof.
  split.
  - intros Hr. destruct (script_ok_good w Hr) as (f & t & c & line & Hw & Hp).
    exists f, t, c, line. split; [done|]. split; [done|].
    apply build_map_py_merged_Ok_iff.
    rewrite (script_good w f t Hw), Hp in Hr. cbv zeta in Hr.
    destruct (build_map_py c _) as [m|e]; [eauto|done].
  - intros (f & t & c & line & Hw & Hp & [m Hm]%build_map_py_merged_Ok_iff).
    rewrite (script_good w f t Hw), Hp. cbv zeta. by rewrite Hm.
Qed.

(** C29: the script can be run again in the directory it has left: the
    second run ends the same way, prints the same lines once more, and
    leaves every file as the first run left it, the output file
    rewritten with the same map. *)
Theorem script_rerun w :
  let w' := (script w).2 in
  (script w').1 = (script w).1
  /\ files (script w').2 = files w'
  /\ out (script w').2 = out w' ++ drop (length (out w)) (out w').
Proof.
  cbv zeta. rewrite (script_on_eq (script w).2), (script_on_eq w).
  destruct (script_on (files w !! GEOJSON) (files w !! CSV)) as [[r lines] m] eqn:E.
  cbn [fst snd]. destruct (same_inputs_after w lines m) as [<- <-]. rewrite E.
  cbn [fst snd]. rewrite !out_after, drop_app_length. split; [done|]. split; [|done].
  destruct m; cbn [after files written printed]; [apply insert_insert_eq|done].
Qed.

(** C34: a run prints at most 24 lines: the line of the name column,
    at most 22 lines of report, and the OK line. *)
Theorem script_prints_at_most w :
  length (out (script w).2) <= length (out w) + 24.
Proof.
  rewrite script_on_eq.
  pose proof (script_on_lines (files w !! GEOJSON) (files w !! CSV)) as Hl.
  destruct (script_on _ _) as [[r lines] m]. cbn [fst snd] in *.
  rewrite out_after, length_app. lia.
Qed.

End Theorems.

(** ** Witnesses *)

Definition example_csv : csv_frame :=
  {| csv_columns := [u "Kunta"; u "Väkiluku"];
     csv_rows := finite_table example_table |}.

(** A directory with the two input files. *)
Definition example_world : world box :=
  {| files := <[GEOJSON := Boundaries example_frame]>
                (<[CSV := Table example_csv]> ∅);
     out := [] |}.

(** An empty directory. *)
Definition empty_world : world box := {| files := ∅; out := [] |}.

Lemma example_world_good : good_world example_world example_frame example_csv.
Proof. repeat split; vm_compute; reflexivity. Qed.

Lemma script_refines_main_witness :
  script example_world = lift_main (main example_frame example_table) example_world.
Proof.
  apply (script_refines_main example_world example_frame example_csv example_table).
  - exact example_world_good.
  - reflexivity.
  - reflexivity.
Defined.

(** The example directory with one more file and with lines printed
    before the run. *)
Definition busy_world : world box :=
  {| files := <[u "muistio.html" := Page new_map]> (files example_world);
     out := [u "aiemmin"] |}.

Lemma script_reads_inputs_only_witness :
  (script example_world).1 = (script busy_world).1
  /\ drop (length (out example_world)) (out (script example_world).2)
     = drop (length (out busy_world)) (out (script busy_world).2)
  /\ ((script example_world).1 = Ok tt ->
      files (script example_world).2 !! OUTPUT
      = files (script busy_world).2 !! OUTPUT).
Proof.
  apply (script_reads_inputs_only example_world busy_world).
  split; vm_compute; reflexivity.
Defined.

(** In an empty directory the script raises at line 32 and prints
    nothing. *)
Example script_empty_world :
  script empty_world = (Err (ReadError GEOJSON), empty_world).
Proof. reflexivity. Qed.

(** With the boundaries but without the table, the line of the name
    column is printed before the exception of line 52. *)
Example script_no_table :
  let w := {| files := {[ GEOJSON := Boundaries example_frame ]}; out := [] |} in
  script w
  = (Err (ReadError CSV), printed w [u "Käytetään kunnannimi-saraketta: NAMEFIN"]).
Proof. vm_compute. reflexivity. Qed.

(** A table in which the population of Espoo is an infinity. *)
Definition overflow_csv : csv_frame :=
  {| csv_columns := [u "Kunta"; u "Väkiluku"];
     csv_rows := [ {| Kunta := PStr (u "HELSINKI"); Vakiluku := Some (Finite (inject_Z 100)) |};
                   {| Kunta := PStr (u "espoo"); Vakiluku := Some (Infinite false) |} ] |}.

Definition overflow_world : world box :=
  {| files := <[GEOJSON := Boundaries example_frame]>
                (<[CSV := Table overflow_csv]> ∅);
     out := [] |}.

Lemma overflow_world_good : good_world overflow_world example_frame overflow_csv.
Proof. repeat split; vm_compute; reflexivity. Qed.

(** An infinity is not a missing value: nothing is reported, and the
    run raises at line 88 when it reaches the row of Espoo, with the
    marker of Helsinki already added and nothing saved. *)
Example script_overflow :
  script overflow_world
  = (Err (IntError OverflowError),
     printed overflow_world [u "Käytetään kunnannimi-saraketta: NAMEFIN"]).
Proof. vm_compute. reflexivity. Qed.

Lemma script_marker_error_witness :
  (forall e, (script overflow_world).1 = Err (IntError e) ->
     meets_rejected (u "NAMEFIN") example_frame overflow_csv e)
  /\ ((script overflow_world).1 = Err PointError -> has_points example_frame = false)
  /\ ((exists e, meets_rejected (u "NAMEFIN") example_frame overflow_csv e)
      \/ has_points example_frame = false ->
      exists e, (script overflow_world).1 = Err (marker_exn e)).
Proof.
  apply (script_marker_error overflow_world example_frame overflow_csv (u "NAMEFIN")
           (u "Käytetään kunnannimi-saraketta: NAMEFIN") overflow_world_good).
  reflexivity.
Defined.

(** The directory of the example with the given rows in the table. *)
Definition world_with (rows : list (vak_row popcell)) : world box :=
  {| files := <[GEOJSON := Boundaries example_frame]>
                (<[CSV := Table {| csv_columns := [u "Kunta"; u "Väkiluku"];
                                   csv_rows := rows |}]> ∅);
     out := [] |}.

(** An infinity in a row that meets no boundary does no harm. *)
Example script_stray_infinity :
  (script (world_with [ {| Kunta := PStr (u "Vantaa");
                           Vakiluku := Some (Infinite true) |} ])).1 = Ok tt.
Proof. vm_compute. reflexivity. Qed.

(** A column that was left as text: the run ends normally when every
    population that meets a boundary writes an integer, and raises the
    [ValueError] of [int()] for a population written with a blank
    between the thousands, as the popups of the script write it. *)
Example script_text_column :
  (script (world_with [ {| Kunta := PStr (u "Helsinki"); Vakiluku := Some (Text (u "658864")) |};
                        {| Kunta := PStr (u "Vantaa"); Vakiluku := Some (Text (u "ei tietoa")) |} ])).1
  = Ok tt
  /\ (script (world_with [ {| Kunta := PStr (u "Helsinki");
                              Vakiluku := Some (Text (u "658 864")) |} ])).1
     = Err (IntError (InvalidLiteral (u "658 864"))).
Proof. split; vm_compute; reflexivity. Qed.

(** The boundaries of the example as a file may hold them, with a
    feature of which the geometry is null. *)
Definition null_frame : raw_frame (option box) :=
  {| columns := columns example_frame;
     rows := map (fun r => {| cell := cell r; geometry := Some (geometry r) |})
               (rows example_frame)
             ++ [ {| cell := fun c => if ustring_eqb c (u "NAMEFIN")
                                      then PStr (u "Sottunga") else PNaN;
                     geometry := None |} ] |}.

Definition null_world : world (option box) :=
  {| files := <[GEOJSON := Boundaries null_frame]>
                (<[CSV := Table example_csv]> ∅);
     out := [] |}.

(** A feature without geometry: its area is computed without complaint
    and its name is reported as missing from the table like that of any
    other boundary; the run raises at line 95, when the loop reaches the
    feature, with the markers before it added and nothing saved. *)
Example script_null_geometry :
  script null_world
  = (Err PointError,
     printed null_world
       [u "Käytetään kunnannimi-saraketta: NAMEFIN";
        NOTICE; u " - Espoo"; u " - Sottunga"]).
Proof. vm_compute. reflexivity. Qed.
