(* ===== verification/Machine.v ===== *)
(** * The script as a machine (main.py 32-102, one step per statement)

    The run of the script as a transition system.  A configuration is a
    control point, named after the line that is executed next and
    carrying the variables that are live there, and a world.  [step] has
    one rule for every statement and for every way a statement can go:
    the two branches of a test, one iteration or the exit of a loop, the
    normal return or the exception of a library call.  [next] is the
    same machine as a function.  The theorems say that the two agree,
    that every run ends, that a configuration that is not final can
    always move, and what holds of every configuration a run can
    reach. *)

From stdpp Require Import gmap list relations well_founded.
From Stdlib Require Import QArith Lexicographic_Product Relation_Operators.
From S2P Require Import Prelude Unicode Normalize Alias Frame Join Report.
From S2P Require Import Format Geometry MapBuild Markers Pipeline World Script.
Local Close Scope Q_scope.

(** ** Control points *)

Inductive control (G : Type) : Type :=
| L32
| L35 (gdf_raw : raw_frame G)
| L40 (gdf_raw : raw_frame G) (name_col : option ustring)
| L42 (gdf_raw : raw_frame G) (name_col : ustring)
| L45 (gdf_raw : raw_frame G) (name_col : ustring)
| L52 (cols : list ustring) (name_col : ustring) (gdf : list (area_row G))
| L55 (cols : list ustring) (name_col : ustring) (gdf : list (area_row G))
      (vak : csv_frame)
| L58 (cols : list ustring) (name_col : ustring) (gdf : list (area_row G))
      (vak : csv_frame) (vak_key : list ustring)
| L59 (cols : list ustring) (name_col : ustring) (gdf : list (area_row G))
      (vak2 : list (ustring * option popcell))
| L64 (cols : list ustring) (name_col : ustring)
      (gdf : list (area_row G * option popcell))
| L65 (name_col : ustring) (gdf : list (area_row G * option popcell))
      (puuttuvat : list pyval)
| L66 (name_col : ustring) (gdf : list (area_row G * option popcell))
      (puuttuvat : list pyval)
| L67 (name_col : ustring) (gdf : list (area_row G * option popcell))
      (puuttuvat : list pyval) (todo : list pyval)
| L69 (name_col : ustring) (gdf : list (area_row G * option popcell))
      (puuttuvat : list pyval)
| L70 (name_col : ustring) (gdf : list (area_row G * option popcell))
      (puuttuvat : list pyval)
| L73 (name_col : ustring) (gdf : list (area_row G * option popcell))
| L76 (name_col : ustring) (gdf : list (area_row G * option popcell)) (m : Map G)
| L82 (name_col : ustring) (gdf : list (area_row G * option popcell)) (m : Map G)
| L84 (name_col : ustring) (todo : list ((area_row G * option popcell) * option point))
      (m : Map G)
| L100 (m : Map G)
| L101 (m : Map G)
| L102
| Done
| Crashed (e : exn).
Arguments L32 {G}.
Arguments L35 {G} _.
Arguments L40 {G} _ _.
Arguments L42 {G} _ _.
Arguments L45 {G} _ _.
Arguments L52 {G} _ _ _.
Arguments L55 {G} _ _ _ _.
Arguments L58 {G} _ _ _ _ _.
Arguments L59 {G} _ _ _ _.
Arguments L64 {G} _ _ _.
Arguments L65 {G} _ _ _.
Arguments L66 {G} _ _ _.
Arguments L67 {G} _ _ _ _.
Arguments L69 {G} _ _ _.
Arguments L70 {G} _ _ _.
Arguments L73 {G} _ _.
Arguments L76 {G} _ _ _.
Arguments L82 {G} _ _ _.
Arguments L84 {G} _ _ _.
Arguments L100 {G} _.
Arguments L101 {G} _.
Arguments L102 {G}.
Arguments Done {G}.
Arguments Crashed {G} _.

(** The run is over: it reached the end of the file or raised. *)
Definition is_final {G} (c : control G) : bool :=
  match c with
  | Done | Crashed _ => true
  | _ => false
  end.

(** The order of the control points in the file, last first, and the
    number of iterations that a loop has left. *)
Definition rank {G} (c : control G) : nat :=
  match c with
  | L32 => 23 | L35 _ => 22 | L40 _ _ => 21 | L42 _ _ => 20 | L45 _ _ => 19
  | L52 _ _ _ => 18 | L55 _ _ _ _ => 17 | L58 _ _ _ _ _ => 16
  | L59 _ _ _ _ => 15 | L64 _ _ _ => 14 | L65 _ _ _ => 13 | L66 _ _ _ => 12
  | L67 _ _ _ _ => 11 | L69 _ _ _ => 10 | L70 _ _ _ => 9 | L73 _ _ => 8
  | L76 _ _ _ => 7 | L82 _ _ _ => 6 | L84 _ _ _ => 5 | L100 _ => 4
  | L101 _ => 3 | L102 => 2 | Done => 0 | Crashed _ => 0
  end.

Definition todo_length {G} (c : control G) : nat :=
  match c with
  | L67 _ _ _ todo => length todo
  | L84 _ todo _ => length todo
  | _ => 0
  end.

Definition measure {G} (cw : control G * world G) : nat * nat :=
  (rank cw.1, todo_length cw.1).

(** The output file is not yet written at this control point. *)
Definition before_save {G} (c : control G) : bool :=
  match c with
  | L102 | Done => false
  | _ => true
  end.

(** ** Shape of the map under construction *)

(** Markers only, then the layer control when the map is closed. *)
Fixpoint markers_then_control {G} (closed : bool) (cs : list (child G)) : bool :=
  match cs with
  | [] => negb closed
  | Marker _ _ _ :: cs' => markers_then_control closed cs'
  | LayerControl :: cs' => closed && bool_decide (length cs' = 0)
  | GeoJson _ _ :: _ => false
  end.

Definition map_shape {G} (closed : bool) (m : Map G) : bool :=
  match children m with
  | GeoJson _ _ :: cs => markers_then_control closed cs
  | _ => false
  end.

Definition map_view {G} (m : Map G) : Prop :=
  location m = (129 # 2, 26 # 1)%Q /\ zoom_start m = 5%N.

(** What holds of the variables at every control point that a run
    reaches, and of the output file once it is written. *)
Definition wf_config {G} (cw : control G * world G) : Prop :=
  match cw.1 with
  | L66 _ _ p | L69 _ _ p => p <> []
  | L67 _ _ p todo => p <> [] /\ length todo <= 20
  | L70 _ _ p => 20 < length p
  | L76 _ _ m => map_view m /\ children m = []
  | L82 _ _ m => map_view m /\ map_shape false m = true
  | L84 _ _ m => map_view m /\ map_shape false m = true
  | L100 m => map_view m /\ map_shape false m = true
  | L101 m => map_view m /\ map_shape true m = true
  | L102 | Done =>
      exists m, files cw.2 !! OUTPUT = Some (Page m)
                /\ map_view m /\ map_shape true m = true
  | _ => True
  end.

(** ** Steps *)

Section Machine.
Context `{CF : CaseFold} {G : Type} `{GE : Geometry G} `{IS : IntStr}.

Inductive step : relation (control G * world G) :=
(* line 32 *)
| step_read_file w f :
    files w !! GEOJSON = Some (Boundaries f) ->
    step (L32, w) (L35 f, w)
| step_read_file_raises w :
    (forall f, files w !! GEOJSON <> Some (Boundaries f)) ->
    step (L32, w) (Crashed (ReadError GEOJSON), w)
(* lines 35-39 *)
| step_name_col w f :
    step (L35 f, w) (L40 f (name_col_expr (columns f)), w)
(* lines 40-41 *)
| step_no_name_col w f :
    step (L40 f None, w)
         (Crashed (Raised (ValueError
            (u "Kunnan nimi -saraketta ei löytynyt. Sarakkeet: ") (columns f))), w)
| step_has_name_col w f c :
    step (L40 f (Some c), w) (L42 f c, w)
(* line 42 *)
| step_print_name_col w f c :
    step (L42 f c, w)
         (L45 f c, printed w [u "Käytetään kunnannimi-saraketta: " ++ c])
(* lines 45-49 *)
| step_areas w f c :
    step (L45 f c, w) (L52 (columns f) c (gdf_of_raw (rows f)), w)
(* line 52 *)
| step_read_csv w cols c gdf t :
    files w !! CSV = Some (Table t) ->
    step (L52 cols c gdf, w) (L55 cols c gdf t, w)
| step_read_csv_raises w cols c gdf :
    (forall t, files w !! CSV <> Some (Table t)) ->
    step (L52 cols c gdf, w) (Crashed (ReadError CSV), w)
(* line 55 *)
| step_vak_key w cols c gdf t :
    has_column (csv_columns t) (u "Kunta") = true ->
    step (L55 cols c gdf t, w)
         (L58 cols c gdf t
            (replace_aliases ALIASES (normalize <$> (Kunta <$> csv_rows t))), w)
| step_vak_key_raises w cols c gdf t :
    has_column (csv_columns t) (u "Kunta") = false ->
    step (L55 cols c gdf t, w) (Crashed (KeyError (u "Kunta")), w)
(* line 58 *)
| step_vak2 w cols c gdf t vak_key :
    has_column (csv_columns t) (u "Väkiluku") = true ->
    step (L58 cols c gdf t vak_key, w)
         (L59 cols c gdf (zip vak_key (Vakiluku <$> csv_rows t)), w)
| step_vak2_raises w cols c gdf t vak_key :
    has_column (csv_columns t) (u "Väkiluku") = false ->
    step (L58 cols c gdf t vak_key, w) (Crashed (KeyError (u "Väkiluku")), w)
(* lines 56-61 *)
| step_merge w cols c gdf vak2 :
    step (L59 cols c gdf vak2, w)
         (L64 cols c (merge_left (with_key (fun r => cell (base r) c) gdf) vak2), w)
(* line 64 *)
| step_puuttuvat w cols c gdf :
    has_column cols (u "Väkiluku") = false ->
    step (L64 cols c gdf, w)
         (L65 c gdf (puuttuvat (fun r => cell (base r) c) gdf), w)
| step_puuttuvat_raises w cols c gdf :
    has_column cols (u "Väkiluku") = true ->
    step (L64 cols c gdf, w) (Crashed (KeyError (u "Väkiluku")), w)
(* line 65 *)
| step_if_puuttuvat w c gdf p :
    p <> [] ->
    step (L65 c gdf p, w) (L66 c gdf p, w)
| step_if_not_puuttuvat w c gdf :
    step (L65 c gdf [], w) (L73 c gdf, w)
(* line 66 *)
| step_notice w c gdf p :
    step (L66 c gdf p, w) (L67 c gdf p (take 20 p), printed w [NOTICE])
(* lines 67-68 *)
| step_name w c gdf p n todo :
    step (L67 c gdf p (n :: todo), w) (L67 c gdf p todo, printed w [name_line n])
| step_names_done w c gdf p :
    step (L67 c gdf p [], w) (L69 c gdf p, w)
(* line 69 *)
| step_if_more w c gdf p :
    20 < length p ->
    step (L69 c gdf p, w) (L70 c gdf p, w)
| step_if_not_more w c gdf p :
    length p <= 20 ->
    step (L69 c gdf p, w) (L73 c gdf, w)
(* line 70 *)
| step_more w c gdf p :
    step (L70 c gdf p, w) (L73 c gdf, printed w [more_line (length p)])
(* line 73 *)
| step_new_map w c gdf :
    step (L73 c gdf, w) (L76 c gdf new_map, w)
(* lines 76-79 *)
| step_layer w c gdf m :
    step (L76 c gdf m, w) (L82 c gdf (add_to (boundary_layer gdf) m), w)
(* line 82 *)
| step_points w c gdf m :
    step (L82 c gdf m, w) (L84 c (combine gdf (points_py gdf)) m, w)
(* lines 84-98 *)
| step_marker w c r pt todo m mk :
    marker_py c r pt = Ok mk ->
    step (L84 c ((r, pt) :: todo) m, w) (L84 c todo (add_to mk m), w)
| step_marker_raises w c r pt todo m e :
    marker_py c r pt = Err e ->
    step (L84 c ((r, pt) :: todo) m, w) (Crashed (marker_exn e), w)
| step_markers_done w c m :
    step (L84 c [] m, w) (L100 m, w)
(* line 100 *)
| step_layer_control w m :
    step (L100 m, w) (L101 (add_to LayerControl m), w)
(* line 101 *)
| step_save w m :
    step (L101 m, w) (L102, written w OUTPUT m)
(* line 102 *)
| step_print_ok w :
    step (L102, w) (Done, printed w [u "OK → " ++ OUTPUT]).

(** The machine as a function: the configuration after one step, or
    nothing when the run is over. *)
Definition next (cw : control G * world G) : option (control G * world G) :=
  let w := cw.2 in
  match cw.1 with
  | L32 =>
      match files w !! GEOJSON with
      | Some (Boundaries f) => Some (L35 f, w)
      | _ => Some (Crashed (ReadError GEOJSON), w)
      end
  | L35 f => Some (L40 f (name_col_expr (columns f)), w)
  | L40 f None =>
      Some (Crashed (Raised (ValueError
              (u "Kunnan nimi -saraketta ei löytynyt. Sarakkeet: ") (columns f))), w)
  | L40 f (Some c) => Some (L42 f c, w)
  | L42 f c => Some (L45 f c, printed w [u "Käytetään kunnannimi-saraketta: " ++ c])
  | L45 f c => Some (L52 (columns f) c (gdf_of_raw (rows f)), w)
  | L52 cols c gdf =>
      match files w !! CSV with
      | Some (Table t) => Some (L55 cols c gdf t, w)
      | _ => Some (Crashed (ReadError CSV), w)
      end
  | L55 cols c gdf t =>
      if has_column (csv_columns t) (u "Kunta")
      then Some (L58 cols c gdf t
                   (replace_aliases ALIASES (normalize <$> (Kunta <$> csv_rows t))), w)
      else Some (Crashed (KeyError (u "Kunta")), w)
  | L58 cols c gdf t vak_key =>
      if has_column (csv_columns t) (u "Väkiluku")
      then Some (L59 cols c gdf (zip vak_key (Vakiluku <$> csv_rows t)), w)
      else Some (Crashed (KeyError (u "Väkiluku")), w)
  | L59 cols c gdf vak2 =>
      Some (L64 cols c (merge_left (with_key (fun r => cell (base r) c) gdf) vak2), w)
  | L64 cols c gdf =>
      if has_column cols (u "Väkiluku")
      then Some (Crashed (KeyError (u "Väkiluku")), w)
      else Some (L65 c gdf (puuttuvat (fun r => cell (base r) c) gdf), w)
  | L65 c gdf [] => Some (L73 c gdf, w)
  | L65 c gdf p => Some (L66 c gdf p, w)
  | L66 c gdf p => Some (L67 c gdf p (take 20 p), printed w [NOTICE])
  | L67 c gdf p (n :: todo) => Some (L67 c gdf p todo, printed w [name_line n])
  | L67 c gdf p [] => Some (L69 c gdf p, w)
  | L69 c gdf p =>
      if bool_decide (20 < length p) then Some (L70 c gdf p, w) else Some (L73 c gdf, w)
  | L70 c gdf p => Some (L73 c gdf, printed w [more_line (length p)])
  | L73 c gdf => Some (L76 c gdf new_map, w)
  | L76 c gdf m => Some (L82 c gdf (add_to (boundary_layer gdf) m), w)
  | L82 c gdf m => Some (L84 c (combine gdf (points_py gdf)) m, w)
  | L84 c ((r, pt) :: todo) m =>
      match marker_py c r pt with
      | Ok mk => Some (L84 c todo (add_to mk m), w)
      | Err e => Some (Crashed (marker_exn e), w)
      end
  | L84 c [] m => Some (L100 m, w)
  | L100 m => Some (L101 (add_to LayerControl m), w)
  | L101 m => Some (L102, written w OUTPUT m)
  | L102 => Some (Done, printed w [u "OK → " ++ OUTPUT])
  | Done | Crashed _ => None
  end.

(** [n] steps of the machine, or fewer when the run ends before. *)
Fixpoint run (n : nat) (cw : control G * world G) : control G * world G :=
  match n with
  | 0 => cw
  | S n' => match next cw with Some cw' => run n' cw' | None => cw end
  end.

End Machine.

(** ** Lemmas *)

Section ShapeLemmas.
Context {G : Type}.
Implicit Types (m : Map G) (cs : list (child G)).

Lemma map_view_add_to (x : child G) m : map_view m -> map_view (add_to x m).
Proof. done. Qed.

Lemma markers_then_control_marker cs l p i :
  markers_then_control false cs = true ->
  markers_then_control false (cs ++ [Marker l p i]) = true.
Proof. induction cs as [|[d n|l' p' i'|] cs IH]; simpl; auto. Qed.

Lemma markers_then_control_close cs :
  markers_then_control false cs = true ->
  markers_then_control true (cs ++ [LayerControl]) = true.
Proof. induction cs as [|[d n|l' p' i'|] cs IH]; simpl; auto; done. Qed.

Lemma map_shape_first (x : child G) m :
  children m = [] -> is_marker x = false -> x <> LayerControl ->
  map_shape false (add_to x m) = true.
Proof. unfold map_shape, add_to. simpl. intros ->. by destruct x. Qed.

Lemma map_shape_marker m l p i :
  map_shape false m = true -> map_shape false (add_to (Marker l p i) m) = true.
Proof.
  unfold map_shape, add_to. simpl.
  destruct (children m) as [|[d n|l' p' i'|] cs]; simpl; try done.
  apply markers_then_control_marker.
Qed.

Lemma map_shape_close m :
  map_shape false m = true -> map_shape true (add_to LayerControl m) = true.
Proof.
  unfold map_shape, add_to. simpl.
  destruct (children m) as [|[d n|l' p' i'|] cs]; simpl; try done.
  apply markers_then_control_close.
Qed.

End ShapeLemmas.

#[export] Hint Resolve map_view_add_to map_shape_marker map_shape_close : paikannus.

Section MachineLemmas.
Context `{CF : CaseFold} {G : Type} `{GE : Geometry G} `{IS : IntStr}.
Implicit Types (c : control G) (w : world G) (cw : control G * world G).

Lemma step_next cw cw' : step cw cw' -> next cw = Some cw'.
Proof.
  destruct 1; unfold next; cbn [fst snd];
    repeat match goal with
    | H : _ = _ |- _ => rewrite H
    | H : forall x, _ <> _ |- _ => case_match; [case_match|]; try reflexivity; by edestruct H
    end; try reflexivity.
  - by destruct p.
  - by rewrite bool_decide_eq_true_2.
  - by rewrite bool_decide_eq_false_2 by lia.
Qed.

Lemma next_step cw cw' : next cw = Some cw' -> step cw cw'.
Proof.
  destruct cw as [c w]. unfold next. cbn [fst snd].
  destruct c; repeat case_match; intros; simplify_eq; try by constructor.
  all: try (constructor; congruence).
  - apply step_if_more. by case_bool_decide.
  - apply step_if_not_more. case_bool_decide; [done|lia].
Qed.

Lemma step_measure cw cw' :
  step cw cw' -> slexprod nat nat lt lt (measure cw') (measure cw).
Proof.
  destruct 1; unfold measure; cbn [fst snd rank todo_length];
    first [ apply right_slex; simpl; lia | apply left_slex; lia ].
Qed.

Lemma next_final cw : next cw = None <-> is_final cw.1 = true.
Proof.
  destruct cw as [c w]. unfold next. cbn [fst snd].
  destruct c; cbn [is_final]; repeat case_match; split; congruence.
Qed.

Lemma run_rtc n cw : rtc step cw (run n cw).
Proof.
  revert cw. induction n as [|n IH]; intros cw; simpl; [done|].
  destruct (next cw) as [cw'|] eqn:E; [|done].
  eapply rtc_l; [by apply next_step|apply IH].
Qed.

Lemma run_stuck n cw : next cw = None -> run n cw = cw.
Proof. intros E. destruct n; simpl; [done|]. by rewrite E. Qed.

(** [run n] takes [n] steps when it has not stopped before. *)
Lemma run_nsteps n cw :
  is_final (run (pred n) cw).1 = false -> nsteps step n cw (run n cw).
Proof.
  revert cw. induction n as [|n IH]; intros cw Hf; [constructor|].
  cbn [pred] in Hf. cbn [run]. destruct (next cw) as [cw'|] eqn:E.
  - eapply nsteps_l; [by apply next_step|].
    destruct n as [|n']; [constructor|]. apply IH.
    cbn [pred]. cbn [run] in Hf. by rewrite E in Hf.
  - rewrite (run_stuck n cw E) in Hf. apply next_final in E. congruence.
Qed.

Lemma step_extends cw cw' : step cw cw' -> extends OUTPUT cw.2 cw'.2.
Proof. destruct 1; cbn [snd]; first [reflexivity | auto with paikannus]. Qed.

Lemma step_before_save cw cw' :
  step cw cw' -> before_save cw'.1 = true ->
  before_save cw.1 = true /\ files cw'.2 = files cw.2.
Proof. by destruct 1. Qed.

Lemma step_wf_config cw cw' : step cw cw' -> wf_config cw -> wf_config cw'.
Proof.
  destruct 1; unfold wf_config; cbn [fst snd]; intros Hwf; try done.
  - split; [done|]. rewrite length_take. lia.
  - destruct Hwf as [? Hl]. simpl in Hl. split; [done|lia].
  - by destruct Hwf.
  - destruct Hwf as [? Hc]. split; [done|]. by apply map_shape_first.
  - destruct Hwf. apply marker_py_is_marker in H as (l & p & i & ->).
    split; auto with paikannus.
  - destruct Hwf. split; auto with paikannus.
  - exists m. simpl. by rewrite lookup_insert_eq.
Qed.

Lemma rtc_wf_config cw cw' : rtc step cw cw' -> wf_config cw -> wf_config cw'.
Proof. induction 1; eauto using step_wf_config. Qed.

Lemma rtc_before_save cw cw' :
  rtc step cw cw' -> before_save cw'.1 = true ->
  before_save cw.1 = true /\ files cw'.2 = files cw.2.
Proof.
  induction 1 as [cw|cw cw1 cw' Hs _ IH]; [done|]. intros Hb.
  destruct (IH Hb) as [Hb1 ->]. by apply step_before_save.
Qed.

Lemma rtc_extends cw cw' : rtc step cw cw' -> extends OUTPUT cw.2 cw'.2.
Proof.
  induction 1 as [cw|cw cw1 cw' Hs _ IH]; [reflexivity|].
  etrans; [by apply step_extends|done].
Qed.

Lemma step_acc : well_founded (flip (@step CF G GE IS)).
Proof.
  apply (wf_projected (slexprod nat nat lt lt) measure).
  - intros cw cw' Hs. by apply step_measure.
  - apply wf_slexprod; apply lt_wf.
Qed.

Lemma run_final cw : exists n, is_final (run n cw).1 = true.
Proof.
  induction (step_acc cw) as [cw _ IH].
  destruct (next cw) as [cw'|] eqn:E.
  - destruct (IH cw') as [n Hn]; [by apply next_step|].
    exists (S n). simpl. by rewrite E.
  - exists 0. by apply next_final.
Qed.

Lemma final_step c w cw' : is_final c = true -> ~ step (c, w) cw'.
Proof. intros Hf Hs. apply step_next in Hs. apply (next_final (c, w)) in Hf. congruence. Qed.

End MachineLemmas.

(** ** The length of a run *)

Section RunLength.
Context `{CF : CaseFold} {G : Type} `{GE : Geometry G} `{IS : IntStr}.
Implicit Types (c : control G) (w : world G) (cw : control G * world G).

(** A run is not longer than the run to a final configuration. *)
Lemma nsteps_final_le n N cw cw' cwf :
  nsteps step n cw cw' -> nsteps step N cw cwf -> is_final cwf.1 = true -> n <= N.
Proof.
  intros Hn. revert N. induction Hn as [cw|n cw cw1 cw' Hs Hn IH]; intros N HN Hf; [lia|].
  inversion HN as [|N' ? cw1' ? Hs' HN']; subst.
  - destruct cwf as [c w]. by destruct (final_step c w cw1).
  - pose proof (step_next _ _ Hs) as E. pose proof (step_next _ _ Hs') as E'.
    rewrite E in E'. injection E' as <-. specialize (IH _ HN' Hf). lia.
Qed.

(** Lines 67-68: one step for every name. *)
Lemma names_loop name_col gdf p todo w :
  nsteps step (length todo) (L67 name_col gdf p todo, w)
    (L67 name_col gdf p [], printed w (map name_line todo)).
Proof.
  revert w. induction todo as [|n todo IH]; intros w; simpl.
  - rewrite printed_nil. constructor.
  - eapply nsteps_l; [apply step_name|].
    replace (name_line n :: map name_line todo) with ([name_line n] ++ map name_line todo)
      by done.
    rewrite <- printed_app. apply IH.
Qed.

(** Lines 84-98: one step for every row, up to the first row for
    which a statement raises. *)
Lemma markers_loop name_col todo (m : Map G) w :
  match add_markers_py name_col todo m with
  | Ok m' => nsteps step (length todo) (L84 name_col todo m, w) (L84 name_col [] m', w)
  | Err e => exists n, n <= length todo
      /\ nsteps step n (L84 name_col todo m, w) (Crashed (marker_exn e), w)
  end.
Proof.
  revert m. induction todo as [|[r pt] todo IH]; intros m; cbn [add_markers_py fst snd].
  - constructor.
  - destruct (marker_py name_col r pt) as [mk|e] eqn:E.
    + specialize (IH (add_to mk m)). destruct (add_markers_py name_col todo _).
      * eapply nsteps_l; [by apply step_marker|]. exact IH.
      * destruct IH as (n & Hn & IH). exists (S n). split; [simpl; lia|].
        eapply nsteps_l; [by apply step_marker|]. exact IH.
    + exists 1. split; [simpl; lia|]. by apply nsteps_once, step_marker_raises.
Qed.

(** Lines 65-70 take at most 25 steps. *)
Lemma report_phase name_col gdf p w :
  exists n w', n <= 25 /\ nsteps step n (L65 name_col gdf p, w) (L73 name_col gdf, w').
Proof.
  destruct p as [|x p].
  { exists 1, w. split; [lia|]. apply nsteps_once, step_if_not_puuttuvat. }
  set (q := x :: p).
  assert (Hq : q <> []) by done.
  assert (Ht : length (take 20 q) <= 20) by (rewrite length_take; lia).
  pose proof (names_loop name_col gdf q (take 20 q) (printed w [NOTICE])) as Hloop.
  destruct (decide (20 < length q)) as [Hlt|Hge].
  - eexists (2 + length (take 20 q) + 3), _. split; [lia|].
    eapply nsteps_l; [by apply step_if_puuttuvat|].
    eapply nsteps_l; [apply step_notice|].
    eapply nsteps_trans; [exact Hloop|].
    eapply nsteps_l; [apply step_names_done|].
    eapply nsteps_l; [by apply step_if_more|].
    apply nsteps_once, step_more.
  - eexists (2 + length (take 20 q) + 2), _. split; [lia|].
    eapply nsteps_l; [by apply step_if_puuttuvat|].
    eapply nsteps_l; [apply step_notice|].
    eapply nsteps_trans; [exact Hloop|].
    eapply nsteps_l; [apply step_names_done|].
    apply nsteps_once, step_if_not_more. lia.
Qed.

Lemma length_combine_points {V} (gdf : list (area_row G * V)) :
  length (combine gdf (points_py gdf)) = length gdf.
Proof. rewrite length_combine. unfold points_py. rewrite length_map. lia. Qed.

(** Lines 73-102 take at most seven steps and one for every row, and
    end at the last line or at the exception of the loop. *)
Lemma map_phase name_col gdf w :
  exists n cw', n <= 3 + length gdf + 4
    /\ nsteps step n (L73 name_col gdf, w) cw' /\ is_final cw'.1 = true.
Proof.
  pose proof (markers_loop name_col (combine gdf (points_py gdf))
                (add_to (boundary_layer gdf) new_map) w) as Hloop.
  rewrite length_combine_points in Hloop.
  assert (Hhead : nsteps step 3 (L73 name_col gdf, w)
            (L84 name_col (combine gdf (points_py gdf))
               (add_to (boundary_layer gdf) new_map), w)).
  { eapply nsteps_l; [apply step_new_map|].
    eapply nsteps_l; [apply step_layer|].
    apply nsteps_once, step_points. }
  destruct (add_markers_py _ _ _) as [m'|e].
  - eexists (3 + length gdf + 4), (Done, _). split; [lia|]. split; [|done].
    eapply nsteps_trans; [eapply nsteps_trans; [exact Hhead|exact Hloop]|].
    eapply nsteps_l; [apply step_markers_done|].
    eapply nsteps_l; [apply step_layer_control|].
    eapply nsteps_l; [apply step_save|].
    apply nsteps_once, step_print_ok.
  - destruct Hloop as (n & Hn & Hloop).
    exists (3 + n), (Crashed (marker_exn e), w). split; [lia|]. split; [|done].
    eapply nsteps_trans; [exact Hhead|exact Hloop].
Qed.

(** Lines 32-64 in a directory where nothing is missing: ten steps. *)
Lemma join_phase w f t name_col line :
  good_world w f t -> pick_name_col (columns f) = Ok (name_col, line) ->
  nsteps step 10 (L32, w)
    (L65 name_col (merged name_col f (csv_rows t))
       (puuttuvat (fun r => cell (base r) name_col) (merged name_col f (csv_rows t))),
     printed w [line]).
Proof.
  intros (Hg & Hc & Hk & Hv & Hf) Hp. unfold pick_name_col in Hp.
  destruct (name_col_expr (columns f)) as [c|] eqn:Hn; simplify_eq.
  rewrite <- merge_left_merged.
  eapply nsteps_l; [by apply step_read_file|].
  eapply nsteps_l; [apply step_name_col|]. rewrite Hn.
  eapply nsteps_l; [apply step_has_name_col|].
  eapply nsteps_l; [apply step_print_name_col|].
  eapply nsteps_l; [apply step_areas|].
  eapply nsteps_l; [by apply step_read_csv|].
  eapply nsteps_l; [by apply step_vak_key|].
  eapply nsteps_l; [by apply step_vak2|].
  eapply nsteps_l; [apply step_merge|].
  by apply nsteps_once, step_puuttuvat.
Qed.

(** The whole run in such a directory. *)
Lemma good_run w f t name_col line :
  good_world w f t -> pick_name_col (columns f) = Ok (name_col, line) ->
  exists n cw', n <= 42 + length (merged name_col f (csv_rows t))
    /\ nsteps step n (L32, w) cw' /\ is_final cw'.1 = true.
Proof.
  intros Hw Hp. set (gdf := merged name_col f (csv_rows t)).
  destruct (report_phase name_col gdf (puuttuvat (fun r => cell (base r) name_col) gdf)
              (printed w [line])) as (n & w1 & Hn & Hr).
  destruct (map_phase name_col gdf w1) as (k & cw' & Hk & Hm & Hf).
  exists (10 + (n + k)), cw'. split; [lia|]. split; [|done].
  eapply nsteps_trans; [by apply join_phase|].
  eapply nsteps_trans; [exact Hr|exact Hm].
Qed.

End RunLength.

(** ** Theorems *)

Section MachineTheorems.
Context `{CF : CaseFold} {G : Type} `{GE : Geometry G} `{IS : IntStr}.
Implicit Types (c : control G) (w : world G) (cw : control G * world G).

(** The rules of [step] and the function [next] are the same
    machine: a configuration steps to another exactly when [next]
    returns it. *)
Theorem step_next_iff cw cw' : step cw cw' <-> next cw = Some cw'.
Proof.
  split.
  - apply step_next.
  - apply next_step.
Qed.

(** Every configuration has at most one successor. *)
Theorem step_deterministic cw cw1 cw2 : step cw cw1 -> step cw cw2 -> cw1 = cw2.
Proof. intros H1%step_next H2%step_next. congruence. Qed.

(** C8: every run ends, from every configuration and in every world:
    there is no infinite sequence of steps, and iterating [next] often
    enough reaches the end of the file or an exception.  The two loops
    are the only steps that stay at their line, and each of them shortens
    the list that it walks. *)
Theorem machine_terminates cw :
  sn step cw /\ exists n, is_final (run n cw).1 = true.
Proof.
  split.
  - apply step_acc.
  - apply run_final.
Qed.

(** A run is never stuck: the configurations that cannot move are
    exactly those at the end of the file or at a raised exception. *)
Theorem machine_never_stuck cw : nf step cw <-> is_final cw.1 = true.
Proof.
  unfold nf, red. split.
  - intros Hn. destruct (next cw) as [cw'|] eqn:E; [|by apply next_final].
    exfalso. apply Hn. exists cw'. by apply next_step.
  - intros Hf [cw' Hs]. destruct cw as [c w]. by eapply final_step.
Qed.

(** C26: the variables are what their lines expect at every control
    point that a run from the first line reaches: the report is entered
    only with names to report, its loop has at most 20 names left, the
    count line is reached only with more than 20; the map has the centre
    and the zoom of line 73, the boundary layer first, then markers only,
    and the layer control last once it is closed; after line 101 the
    output file holds such a closed map. *)
Theorem reachable_wf_config w cw : rtc step (L32, w) cw -> wf_config cw.
Proof.
  intros Hr. apply (rtc_wf_config (L32, w)); [exact Hr|].
  exact I.
Qed.

(** C22: a run that raises has written nothing: from every
    configuration, the files at the exception are the files at the
    start. *)
Theorem crash_writes_nothing c w e w' :
  rtc step (c, w) (Crashed e, w') -> files w' = files w.
Proof.
  intros Hr. apply rtc_before_save in Hr; [|done].
  by destruct Hr as [_ Hf].
Qed.

(** Between any two configurations of a run no file but the output
    file changes, and the lines printed at the first are the beginning
    of the lines printed at the second. *)
Theorem run_extends cw cw' :
  rtc step cw cw' ->
  same_files_but OUTPUT cw.2 cw'.2 /\ out_grows cw.2 cw'.2.
Proof.
  intros Hr. change (extends OUTPUT cw.2 cw'.2).
  by apply rtc_extends.
Qed.

(** C36: in a directory that holds both input files, with the two
    columns in the table, a name column and no column "Väkiluku" in the
    boundary file, no run from the first line is longer than 42 steps
    and one step for every row of the merged frame: ten statements up to
    the merge, at most 25 for the report, seven around the marker loop.
    So [run] with that many steps always reaches the end. *)
Theorem run_length_bound w f t name_col line n cw :
  good_world w f t -> pick_name_col (columns f) = Ok (name_col, line) ->
  nsteps step n (L32, w) cw ->
  n <= 42 + length (merged name_col f (csv_rows t)).
Proof.
  intros Hw Hp Hn.
  destruct (good_run w f t name_col line Hw Hp) as (N & cwf & HN & Hd & Hf).
  pose proof (nsteps_final_le n N (L32, w) cw cwf Hn Hd Hf). lia.
Qed.

End MachineTheorems.

(** ** Witnesses *)

Lemma reachable_wf_config_witness : wf_config (run 12 (L32, example_world)).
Proof.
  apply (reachable_wf_config example_world (run 12 (L32, example_world))).
  apply run_rtc.
Defined.

(** The run of the table with an infinity: it raises in the marker loop
    after 16 steps. *)
Lemma overflow_run :
  rtc step (L32, overflow_world)
    (Crashed (IntError OverflowError), (run 16 (L32, overflow_world)).2).
Proof.
  replace (Crashed (IntError OverflowError), (run 16 (L32, overflow_world)).2)
    with (run 16 (L32, overflow_world)) by (vm_compute; reflexivity).
  apply run_rtc.
Qed.

Lemma crash_writes_nothing_witness :
  files (run 16 (L32, overflow_world)).2 = files overflow_world.
Proof.
  apply (crash_writes_nothing L32 overflow_world (IntError OverflowError)
           (run 16 (L32, overflow_world)).2).
  exact overflow_run.
Defined.

Lemma run_extends_witness :
  same_files_but OUTPUT example_world (run 12 (L32, example_world)).2
  /\ out_grows example_world (run 12 (L32, example_world)).2.
Proof.
  apply (run_extends (L32, example_world) (run 12 (L32, example_world))).
  apply run_rtc.
Defined.

(** The whole run of the example, 24 steps, against the bound of 44. *)
Lemma example_nsteps :
  nsteps step 24 (L32, example_world) (run 24 (L32, example_world)).
Proof. apply run_nsteps. vm_compute. reflexivity. Qed.

Lemma run_length_bound_witness :
  24 <= 42 + length (merged (u "NAMEFIN") example_frame (csv_rows example_csv)).
Proof.
  apply (run_length_bound example_world example_frame example_csv (u "NAMEFIN")
           (u "Käytetään kunnannimi-saraketta: NAMEFIN") 24
           (run 24 (L32, example_world)) example_world_good).
  - reflexivity.
  - exact example_nsteps.
Defined.

(** The run of the example: 24 steps from the first line to the end of
    the file, with three lines printed before the OK line. *)
Example machine_scenario :
  (run 24 (L32, example_world)).1 = Done
  /\ is_final (run 23 (L32, example_world)).1 = false
  /\ out (run 24 (L32, example_world)).2
     = [u "Käytetään kunnannimi-saraketta: NAMEFIN"; NOTICE; u " - Espoo";
        u "OK → suomen_kunnat.html"].
Proof. vm_compute. repeat split. Qed.
