(* ===== verification/Simulation.v ===== *)
(** * The machine runs the script (main.py 32-102)

    [rest c] is the script from the control point [c] on, in the monad
    of [World]: what is left of the file when the statement of that line
    is the next one, with the variables of [c].  A step of [Machine]
    does not change what the rest of the run computes, the rest at the
    first line is [Script.script], and the rest at a final configuration
    is its result; so the runs of the machine, statement by statement,
    end exactly as [script] says.  With termination this gives the run
    of every world: in a good world the run that reaches the last line
    or the exception of the marker loop, and for every run that reaches
    the last line the map it has written. *)

From stdpp Require Import gmap list relations.
From Stdlib Require Import QArith.
From S2P Require Import Prelude Unicode Normalize Alias Frame Join Report.
From S2P Require Import Format Geometry MapBuild Markers Pipeline World Script Machine.
Local Close Scope Q_scope.

Section Rest.
Context `{CF : CaseFold} {G : Type} `{GE : Geometry G} `{IS : IntStr}.

(** The file from line 102, from line 101, and so on back to line 32. *)
Definition at_L102 : io G unit := print (u "OK → " ++ OUTPUT).

Definition at_L101 (m : Map G) : io G unit := (save OUTPUT m ;;; at_L102)%io.

Definition at_L100 (m : Map G) : io G unit := at_L101 (add_to LayerControl m).

Definition at_L84 (c : ustring) (todo : list ((area_row G * option popcell) * option point))
    (m : Map G) : io G unit :=
  match add_markers_py c todo m with
  | Ok m' => at_L100 m'
  | Err e => raise (marker_exn e)
  end.

Definition at_L82 (c : ustring) (gdf : list (area_row G * option popcell)) (m : Map G)
  : io G unit :=
  at_L84 c (combine gdf (points_py gdf)) m.

Definition at_L76 (c : ustring) (gdf : list (area_row G * option popcell)) (m : Map G)
  : io G unit :=
  at_L82 c gdf (add_to (boundary_layer gdf) m).

Definition at_L73 (c : ustring) (gdf : list (area_row G * option popcell)) : io G unit :=
  at_L76 c gdf new_map.

Definition at_L70 (c : ustring) (gdf : list (area_row G * option popcell))
    (p : list pyval) : io G unit :=
  (print (more_line (length p)) ;;; at_L73 c gdf)%io.

Definition at_L69 (c : ustring) (gdf : list (area_row G * option popcell))
    (p : list pyval) : io G unit :=
  if (20 <? length p)%nat then at_L70 c gdf p else at_L73 c gdf.

Definition at_L67 (c : ustring) (gdf : list (area_row G * option popcell))
    (p todo : list pyval) : io G unit :=
  (print_all (map name_line todo) ;;; at_L69 c gdf p)%io.

Definition at_L66 (c : ustring) (gdf : list (area_row G * option popcell))
    (p : list pyval) : io G unit :=
  (print NOTICE ;;; at_L67 c gdf p (firstn 20 p))%io.

Definition at_L65 (c : ustring) (gdf : list (area_row G * option popcell))
    (p : list pyval) : io G unit :=
  match p with
  | [] => at_L73 c gdf
  | _ => at_L66 c gdf p
  end.

Definition at_L64 (cols : list ustring) (c : ustring)
    (gdf : list (area_row G * option popcell)) : io G unit :=
  (merged_getitem_Vakiluku cols ;;;
   at_L65 c gdf (puuttuvat (fun r => cell (base r) c) gdf))%io.

Definition at_L59 (cols : list ustring) (c : ustring) (gdf : list (area_row G))
    (vak2 : list (ustring * option popcell)) : io G unit :=
  at_L64 cols c (merge_left (with_key (fun r => cell (base r) c) gdf) vak2).

Definition at_L58 (cols : list ustring) (c : ustring) (gdf : list (area_row G))
    (vak : csv_frame) (vak_key : list ustring) : io G unit :=
  (vakiluku <- getitem_Vakiluku vak ;; at_L59 cols c gdf (zip vak_key vakiluku))%io.

Definition at_L55 (cols : list ustring) (c : ustring) (gdf : list (area_row G))
    (vak : csv_frame) : io G unit :=
  (kunta <- getitem_Kunta vak ;;
   at_L58 cols c gdf vak (replace_aliases ALIASES (normalize <$> kunta)))%io.

Definition at_L52 (cols : list ustring) (c : ustring) (gdf : list (area_row G))
  : io G unit :=
  (vak <- read_csv CSV ;; at_L55 cols c gdf vak)%io.

Definition at_L45 (f : raw_frame G) (c : ustring) : io G unit :=
  at_L52 (columns f) c (gdf_of_raw (rows f)).

Definition at_L42 (f : raw_frame G) (c : ustring) : io G unit :=
  (print (u "Käytetään kunnannimi-saraketta: " ++ c) ;;; at_L45 f c)%io.

Definition at_L40 (f : raw_frame G) (name_col : option ustring) : io G unit :=
  match name_col with
  | None =>
      raise (Raised (ValueError
               (u "Kunnan nimi -saraketta ei löytynyt. Sarakkeet: ") (columns f)))
  | Some c => at_L42 f c
  end.

Definition at_L35 (f : raw_frame G) : io G unit :=
  at_L40 f (name_col_expr (columns f)).

Definition at_L32 : io G unit := (f <- read_file GEOJSON ;; at_L35 f)%io.

(** The script from a control point on. *)
Definition rest (c : control G) : io G unit :=
  match c with
  | L32 => at_L32
  | L35 f => at_L35 f
  | L40 f o => at_L40 f o
  | L42 f c => at_L42 f c
  | L45 f c => at_L45 f c
  | L52 cols c gdf => at_L52 cols c gdf
  | L55 cols c gdf vak => at_L55 cols c gdf vak
  | L58 cols c gdf vak vak_key => at_L58 cols c gdf vak vak_key
  | L59 cols c gdf vak2 => at_L59 cols c gdf vak2
  | L64 cols c gdf => at_L64 cols c gdf
  | L65 c gdf p => at_L65 c gdf p
  | L66 c gdf p => at_L66 c gdf p
  | L67 c gdf p todo => at_L67 c gdf p todo
  | L69 c gdf p => at_L69 c gdf p
  | L70 c gdf p => at_L70 c gdf p
  | L73 c gdf => at_L73 c gdf
  | L76 c gdf m => at_L76 c gdf m
  | L82 c gdf m => at_L82 c gdf m
  | L84 c todo m => at_L84 c todo m
  | L100 m => at_L100 m
  | L101 m => at_L101 m
  | L102 => at_L102
  | Done => io_ret tt
  | Crashed e => raise e
  end.

(** How a run that stopped at [c] in the world [w] ended. *)
Definition outcome_of (c : control G) (w : world G)
  : option (result exn unit * world G) :=
  match c with
  | Done => Some (Ok tt, w)
  | Crashed e => Some (Err e, w)
  | _ => None
  end.

End Rest.

(** ** Lemmas *)

(** Unfolds the continuation at the head of the left-hand side. *)
Ltac head_of t := lazymatch t with ?f _ => head_of f | _ => t end.
Ltac unfold_lhs :=
  lazymatch goal with |- ?l = _ => let h := head_of l in unfold h at 1 end.

Section RestLemmas.
Context `{CF : CaseFold} {G : Type} `{GE : Geometry G} `{IS : IntStr}.
Implicit Types (c : control G) (w : world G) (cw : control G * world G).

(** A step leaves the rest of the run as it was. *)
Lemma step_rest cw cw' : step cw cw' -> rest cw.1 cw.2 = rest cw'.1 cw'.2.
Proof.
  destruct 1; cbn [rest fst snd]; unfold_lhs; cbn [add_markers_py fst snd];
    unfold io_bind, read_file, read_csv, getitem_Kunta, getitem_Vakiluku,
      merged_getitem_Vakiluku, io_ret, raise, print, save;
    repeat match goal with
    | H : _ = _ |- _ => rewrite H
    | H : forall x, ?l <> _ |- _ =>
        destruct l as [[?|?|?]|] eqn:?; try reflexivity; by edestruct H
    end; try reflexivity.
  - by destruct p.
  - by rewrite (proj2 (Nat.ltb_lt _ _)).
  - by rewrite (proj2 (Nat.ltb_ge _ _)).
Qed.

Lemma rtc_rest cw cw' : rtc step cw cw' -> rest cw.1 cw.2 = rest cw'.1 cw'.2.
Proof.
  induction 1 as [cw|cw cw1 cw' Hs _ IH]; [done|].
  by rewrite (step_rest _ _ Hs).
Qed.

Lemma rest_final c w : is_final c = true -> outcome_of c w = Some (rest c w).
Proof. by destruct c. Qed.

(** A run that has stopped ended as the rest of the script at its
    first configuration says. *)
Lemma rtc_outcome cw c w' :
  rtc step cw (c, w') -> is_final c = true ->
  outcome_of c w' = Some (rest cw.1 cw.2).
Proof.
  intros Hr Hf. rewrite (rest_final c w' Hf). f_equal. symmetry. exact (rtc_rest _ _ Hr).
Qed.

(** Lines 65-70 are the lines of [Report.report]. *)
Lemma at_L65_report name_col gdf p w :
  at_L65 name_col gdf p w = (print_all (report p) ;;; at_L73 name_col gdf)%io w.
Proof.
  destruct p as [|n p]; [done|]. rewrite report_cons.
  unfold at_L65, at_L66, at_L67, at_L69, at_L70, io_bind, print.
  rewrite !print_all_spec, printed_app.
  destruct (20 <? length (n :: p))%nat.
  - by rewrite printed_app, <- app_assoc.
  - by rewrite app_nil_r.
Qed.

(** Lines 73-102 are [Script.draw_map]. *)
Lemma at_L73_draw_map name_col gdf w : at_L73 name_col gdf w = draw_map name_col gdf w.
Proof.
  unfold at_L73, at_L76, at_L82, at_L84, draw_map, build_map_py.
  by destruct (add_markers_py _ _ _).
Qed.

(** Lines 52-102 are sections 4 and 5 of the script. *)
Lemma at_L52_script cols name_col gdf w :
  at_L52 cols name_col gdf w
  = (gdf <- join_population cols name_col gdf ;; draw_map name_col gdf)%io w.
Proof.
  unfold at_L52, join_population. rewrite io_bind_assoc.
  apply io_bind_ext. intros t w1. unfold at_L55. rewrite io_bind_assoc.
  apply io_bind_ext. intros kunta w2. unfold at_L58. cbv zeta. rewrite io_bind_assoc.
  apply io_bind_ext. intros vakiluku w3. unfold at_L59, at_L64. rewrite io_bind_assoc.
  apply io_bind_ext. intros [] w4. rewrite at_L65_report, io_bind_assoc.
  apply io_bind_ext. intros [] w5. apply at_L73_draw_map.
Qed.

(** Lines 35-102 after the boundaries are read. *)
Lemma at_L35_script f w :
  at_L35 f w
  = (name_col <- choose_name_col f ;;
     gdf <- join_population (columns f) name_col (gdf_of_raw (rows f)) ;;
     draw_map name_col gdf)%io w.
Proof.
  unfold at_L35, at_L40, choose_name_col, pick_name_col.
  destruct (name_col_expr (columns f)) as [c|]; [|done].
  unfold at_L42, at_L45. rewrite io_bind_assoc.
  apply io_bind_ext. intros [] w1. by rewrite at_L52_script.
Qed.

(** The rest of the run at the first line is the script. *)
Lemma at_L32_script w : at_L32 w = script w.
Proof.
  unfold at_L32, script, read_boundaries. rewrite io_bind_assoc.
  apply io_bind_ext. intros f w1. rewrite at_L35_script, io_bind_assoc.
  by apply io_bind_ext.
Qed.

(** Whether a configuration can move is decided by [next]. *)
#[export] Instance red_step_dec cw : Decision (red step cw).
Proof.
  refine (cast_if (decide (is_Some (next cw)))); unfold red.
  - destruct i as [cw' E]. exists cw'. by apply next_step.
  - intros [cw' Hs]. apply n. exists cw'. by apply step_next.
Defined.

(** Every configuration has a run to a configuration that cannot move. *)
Lemma machine_normalizes cw : wn step cw.
Proof. apply sn_wn. apply step_acc. Qed.

(** Every world has a run from the first line to a final configuration,
    and it ends as the script says. *)
Lemma script_run w :
  exists c w', rtc step (L32, w) (c, w') /\ outcome_of c w' = Some (script w).
Proof.
  destruct (run_final (L32, w)) as [n Hn].
  pose proof (run_rtc n (L32, w)) as Hr.
  destruct (run n (L32, w)) as [c w']. exists c, w'. split; [done|].
  rewrite <- at_L32_script. exact (rtc_outcome (L32, w) c w' Hr Hn).
Qed.

(** A run that reached the end of the file started in a good world and
    wrote the map of the merged frame. *)
Lemma done_written w w' :
  rtc step (L32, w) (Done, w') ->
  exists f t nc line m, good_world w f t /\ pick_name_col (columns f) = Ok (nc, line)
    /\ build_map_py nc (merged nc f (csv_rows t)) = Ok m
    /\ w' = written
              (printed w
                 (line :: report (puuttuvat (fun r => cell (base r) nc)
                                    (merged nc f (csv_rows t)))
                  ++ [u "OK → " ++ OUTPUT]))
              OUTPUT m.
Proof.
  intros Hr. pose proof (rtc_outcome (L32, w) Done w' Hr eq_refl) as Ho.
  cbn [outcome_of rest fst snd] in Ho. rewrite at_L32_script in Ho.
  injection Ho as Ho. symmetry in Ho.
  destruct (script_ok_good w) as (f & t & nc & line & Hw & Hp); [by rewrite Ho|].
  exists f, t, nc, line. rewrite (script_good w f t Hw), Hp in Ho. cbv zeta in Ho.
  destruct (build_map_py nc _) as [m|]; [|done]. exists m. by simplify_eq.
Qed.

End RestLemmas.

(** ** Theorems *)

Section SimulationTheorems.
Context `{CF : CaseFold} {G : Type} `{GE : Geometry G} `{IS : IntStr}.
Implicit Types (c : control G) (w : world G) (f : raw_frame G) (t : csv_frame).

(** C5: a run of the machine from the first line that has stopped, at
    the end of the file or at an exception, has the result and has left
    the world that [script] computes: the statements executed one by one
    do what the script does as a whole. *)
Theorem machine_refines_script w c w' :
  rtc step (L32, w) (c, w') -> is_final c = true ->
  outcome_of c w' = Some (script w).
Proof.
  intros Hr Hf. rewrite <- at_L32_script.
  exact (rtc_outcome (L32, w) c w' Hr Hf).
Qed.

(** C23: in a world where both files are there, the table has its two
    columns, the boundary frame has a name column and no column
    "Väkiluku", and the marker loop raises on no row of the merged
    frame, the run reaches the end of the file, with the result of
    [script]: the output file then holds the map of the merged frame
    and the last line printed is the OK line. *)
Theorem machine_reaches_done w f t name_col line m :
  good_world w f t -> pick_name_col (columns f) = Ok (name_col, line) ->
  build_map_py name_col (merged name_col f (csv_rows t)) = Ok m ->
  exists w', rtc step (L32, w) (Done, w')
    /\ outcome_of Done w' = Some (script w)
    /\ files w' !! OUTPUT = Some (Page m)
    /\ last (out w') = Some (u "OK → " ++ OUTPUT).
Proof.
  intros Hw Hp Hm. destruct (script_run w) as (c & w' & Hr & Ho).
  pose proof Ho as Hs.
  rewrite (script_good w f t Hw), Hp in Ho. cbv beta iota zeta in Ho.
  rewrite Hm in Ho. destruct c; cbn [outcome_of] in Ho; simplify_eq.
  eexists. split; [exact Hr|]. split; [exact Hs|]. cbn [files out written printed].
  split; [by rewrite lookup_insert_eq|].
  by rewrite app_assoc, last_snoc.
Qed.

(** C24: in such a world where a row of the merged frame raises, by [int()]
    on its population or for want of a point, the run ends at that
    exception, raised in the marker loop after the line of the name
    column and the whole report are printed, and no file is written. *)
Theorem machine_marker_error w f t name_col line e :
  good_world w f t -> pick_name_col (columns f) = Ok (name_col, line) ->
  build_map_py name_col (merged name_col f (csv_rows t)) = Err e ->
  exists w', rtc step (L32, w) (Crashed (marker_exn e), w')
    /\ files w' = files w
    /\ out w' = out w ++ line ::
         report (puuttuvat (fun r => cell (base r) name_col)
                   (merged name_col f (csv_rows t))).
Proof.
  intros Hw Hp Hm. destruct (script_run w) as (c & w' & Hr & Ho).
  rewrite (script_good w f t Hw), Hp in Ho. cbv beta iota zeta in Ho.
  rewrite Hm in Ho. destruct c; cbn [outcome_of] in Ho; simplify_eq.
  eexists. split; [exact Hr|]. done.
Qed.

(** C25: whatever the world, a run that reaches the end of the file has
    read a boundary file and has left, in the output file, a map with
    the boundary layer first, the layer control last, and between them
    markers only, at least one for every boundary of the file; the last
    line printed is the OK line, and the world is the one that [script]
    leaves with its normal result. *)
Theorem done_page_markers w w' :
  rtc step (L32, w) (Done, w') ->
  outcome_of Done w' = Some (script w)
  /\ exists f m, files w !! GEOJSON = Some (Boundaries f)
    /\ files w' !! OUTPUT = Some (Page m)
    /\ map_shape true m = true
    /\ length (rows f) <= length (List.filter is_marker (children m))
    /\ last (out w') = Some (u "OK → " ++ OUTPUT).
Proof.
  intros Hr. pose proof (rtc_wf_config (L32, w) (Done, w') Hr I) as Hs.
  split; [rewrite <- at_L32_script; exact (rtc_outcome (L32, w) Done w' Hr eq_refl)|].
  destruct (done_written w w' Hr) as (f & t & nc & line & m & Hw & Hp & Hm & ->).
  exists f, m. cbn [files out written printed]. split; [apply Hw|].
  split; [by rewrite lookup_insert_eq|]. split; [|split].
  - destruct Hs as (m' & Hf & _ & Hs). cbn [snd files written] in Hf.
    rewrite lookup_insert_eq in Hf. by simplify_eq.
  - rewrite (build_map_py_marker_length nc _ m Hm). apply merged_length_ge.
  - by rewrite app_comm_cons, !app_assoc, last_snoc.
Qed.

End SimulationTheorems.

(** ** Witnesses *)

Lemma example_run :
  rtc step (L32, example_world) (Done, (run 40 (L32, example_world)).2).
Proof.
  replace (Done, (run 40 (L32, example_world)).2) with (run 40 (L32, example_world))
    by (vm_compute; reflexivity).
  apply run_rtc.
Qed.

Lemma machine_refines_script_witness :
  outcome_of Done (run 40 (L32, example_world)).2 = Some (script example_world).
Proof.
  apply (machine_refines_script example_world Done
           (run 40 (L32, example_world)).2 example_run).
  reflexivity.
Defined.

Lemma machine_reaches_done_witness :
  exists w', rtc step (L32, example_world) (Done, w')
    /\ outcome_of Done w' = Some (script example_world)
    /\ files w' !! OUTPUT
       = Some (Page (build_map (u "NAMEFIN")
                       (merged (u "NAMEFIN") example_frame example_table)))
    /\ last (out w') = Some (u "OK → " ++ OUTPUT).
Proof.
  apply (machine_reaches_done example_world example_frame example_csv (u "NAMEFIN")
           (u "Käytetään kunnannimi-saraketta: NAMEFIN") _ example_world_good).
  - reflexivity.
  - vm_compute. reflexivity.
Defined.

Lemma machine_marker_error_witness :
  exists w', rtc step (L32, overflow_world) (Crashed (IntError OverflowError), w')
    /\ files w' = files overflow_world
    /\ out w' = out overflow_world ++ u "Käytetään kunnannimi-saraketta: NAMEFIN" ::
         report (puuttuvat (fun r => cell (base r) (u "NAMEFIN"))
                   (merged (u "NAMEFIN") example_frame (csv_rows overflow_csv))).
Proof.
  apply (machine_marker_error overflow_world example_frame overflow_csv (u "NAMEFIN")
           (u "Käytetään kunnannimi-saraketta: NAMEFIN") (IntRaised OverflowError)
           overflow_world_good).
  - reflexivity.
  - vm_compute. reflexivity.
Defined.

(** The run of that world: 16 steps, the last one the exception in the
    second pass of the marker loop. *)
Example overflow_scenario :
  (run 16 (L32, overflow_world)).1 = Crashed (IntError OverflowError)
  /\ is_final (run 15 (L32, overflow_world)).1 = false
  /\ out (run 16 (L32, overflow_world)).2 = [u "Käytetään kunnannimi-saraketta: NAMEFIN"].
Proof. vm_compute. repeat split. Qed.

(** The run of the boundaries with a null geometry: 22 steps, the last
    one the exception in the third pass of the marker loop, after the
    report; the output file is not there. *)
Example null_geometry_scenario :
  (run 22 (L32, null_world)).1 = Crashed PointError
  /\ is_final (run 21 (L32, null_world)).1 = false
  /\ out (run 22 (L32, null_world)).2
     = [u "Käytetään kunnannimi-saraketta: NAMEFIN"; NOTICE; u " - Espoo"; u " - Sottunga"]
  /\ files (run 22 (L32, null_world)).2 !! OUTPUT = None.
Proof. vm_compute. repeat split. Qed.

Lemma done_page_markers_witness :
  outcome_of Done (run 40 (L32, example_world)).2 = Some (script example_world)
  /\ exists f m, files example_world !! GEOJSON = Some (Boundaries f)
    /\ files (run 40 (L32, example_world)).2 !! OUTPUT = Some (Page m)
    /\ map_shape true m = true
    /\ length (rows f) <= length (List.filter is_marker (children m))
    /\ last (out (run 40 (L32, example_world)).2) = Some (u "OK → " ++ OUTPUT).
Proof.
  apply (done_page_markers example_world (run 40 (L32, example_world)).2 example_run).
Defined.
